(** * NutriTrack: the nutrition calculation engine

    A shallow embedding of [src/types/nutrition.ts] (BMR, TDEE, calorie and
    macro targets, unit conversion) and [src/lib/nutritionCalculator.ts]
    (quantity conversion, calculation breakdown, macro/calorie validator),
    and of the code that calls them: the profile and meal-log hooks, the
    add-food dialog, the breakdown, macro and meal cards, the dashboard, the
    weight tracker, the onboarding form and the route guard.

    TypeScript's [number] is an IEEE 754 binary64 value.  It is modelled by
    the Standard Library's [spec_float] at precision 53 and maximal exponent
    1024, with the library's correctly rounded operations ([SFadd], [SFmul],
    [SFdiv], ...), so every rounding of the program is part of the model. *)

From Stdlib Require Import ZArith Bool List String Ascii Lia.
From Stdlib Require Import SpecFloat DecimalString Permutation.
Import ListNotations.
Local Open Scope Z_scope.

(** ** JavaScript numbers *)

Module JS.

Definition prec : Z := 53.
Definition emax : Z := 1024.

Definition number : Type := spec_float.

Definition add : number -> number -> number := SFadd prec emax.
Definition sub : number -> number -> number := SFsub prec emax.
Definition mul : number -> number -> number := SFmul prec emax.
Definition div : number -> number -> number := SFdiv prec emax.

(** [x <= y], [x < y] and [x === y] on numbers. *)
Definition leb : number -> number -> bool := SFleb.
Definition ltb : number -> number -> bool := SFltb.
Definition eqb : number -> number -> bool := SFeqb.

(** The number an integer literal denotes (exact below 2^53). *)
Definition of_Z (n : Z) : number := binary_normalize prec emax n 0 false.

(** The number a decimal literal [m * 10^k] denotes.  For [k < 0] it is the
    correctly rounded quotient of two exactly representable integers, which
    is the nearest binary64 value of the literal. *)
Definition dec (m k : Z) : number :=
  if 0 <=? k then of_Z (m * 10 ^ k)
  else div (of_Z m) (of_Z (10 ^ (- k))).

Definition is_nan (x : number) : bool :=
  match x with S754_nan => true | _ => false end.

Definition is_finite (x : number) : bool :=
  match x with S754_zero _ | S754_finite _ _ _ => true | _ => false end.

(** ToBoolean on a number: [+0], [-0] and [NaN] are falsy. *)
Definition truthy (x : number) : bool :=
  match x with S754_zero _ | S754_nan => false | _ => true end.

(** [x || d] on numbers. *)
Definition or_else (x d : number) : number := if truthy x then x else d.

(** [Math.round]: the integer nearest to [x], ties towards +Infinity, the
    sign of [x] kept on a zero result; NaN, the infinities and the zeros
    are returned unchanged.  For a finite [x = +-m * 2^e] with [e < 0] the
    result is [floor (x + 1/2)], computed exactly. *)
Definition round_Z (s : bool) (m : positive) (e : Z) : Z :=
  Z.shiftr (2 * cond_Zopp s (Zpos m) + 2 ^ (- e)) (1 - e).

Definition Math_round (x : number) : number :=
  match x with
  | S754_finite s m e =>
      if 0 <=? e then x
      else match round_Z s m e with
           | Z0 => S754_zero s
           | n => of_Z n
           end
  | _ => x
  end.

(** [Math.max] of two numbers: NaN if either is NaN, [+0] above [-0]. *)
Definition Math_max (x y : number) : number :=
  match SFcompare x y with
  | None => S754_nan
  | Some Lt => y
  | Some Gt => x
  | Some Eq => match x with S754_zero true => y | _ => x end
  end.

Definition Math_abs : number -> number := SFabs.

End JS.

Import JS.

Declare Scope js_scope.
Delimit Scope js_scope with js.
Bind Scope js_scope with number.
Infix "+" := add : js_scope.
Infix "-" := sub : js_scope.
Infix "*" := mul : js_scope.
Infix "/" := div : js_scope.
Infix "<=?" := leb : js_scope.
Infix "<?" := ltb : js_scope.
Infix "===" := eqb (at level 70, no associativity) : js_scope.
Notation "x '||' d" := (or_else x d) (at level 50, left associativity) : js_scope.

(** ** src/types/nutrition.ts *)

Inductive GoalType := lose | maintain | gain.
Inductive ActivityLevel :=
  sedentary | lightly_active | moderately_active | very_active | extra_active.
Inductive Gender := male | female | other.
Inductive FoodCategory :=
  fruits | vegetables | proteins | grains | dairy | fats | beverages | snacks | custom.

Section TargetCalculator.
Local Open Scope js_scope.

(** Mifflin-St Jeor. *)
Definition calculateBMR (weight height age : number) (gender : Gender) : number :=
  let base := of_Z 10 * weight + dec 625 (-2) * height - of_Z 5 * age in
  match gender with
  | male => base + of_Z 5
  | _ => base - of_Z 161
  end.

(** The [base] constant of [calculateBMR], named for the statements below. *)
Definition BMR_base (weight height age : number) : number :=
  of_Z 10 * weight + dec 625 (-2) * height - of_Z 5 * age.

Definition ACTIVITY_MULTIPLIERS (a : ActivityLevel) : number :=
  match a with
  | sedentary => dec 12 (-1)
  | lightly_active => dec 1375 (-3)
  | moderately_active => dec 155 (-2)
  | very_active => dec 1725 (-3)
  | extra_active => dec 19 (-1)
  end.

Definition calculateTDEE (bmr : number) (activityLevel : ActivityLevel) : number :=
  bmr * ACTIVITY_MULTIPLIERS activityLevel.

Definition calculateCalorieTarget (tdee : number) (goalType : GoalType) : number :=
  match goalType with
  | lose => Math_round (tdee * dec 80 (-2))
  | gain => Math_round (tdee * dec 110 (-2))
  | maintain => Math_round tdee
  end.

Record MacroTargets := {
  protein : number;
  carbs : number;
  fat : number;
  _calculatedCalories : number;
  _proteinPerKg : number;
  _fatPercent : number
}.

(** The optional [weightKg] is [None] when the argument is left out. *)
Definition calculateMacroTargets
    (calorieTarget : number) (goalType : GoalType) (weightKg : option number)
    : MacroTargets :=
  let weight := match weightKg with
                | Some w => w || of_Z 70
                | None => of_Z 70
                end in
  let '(proteinPerKg, fatPercent) :=
    match goalType with
    | lose => (dec 20 (-1), dec 25 (-2))
    | gain => (dec 18 (-1), dec 25 (-2))
    | maintain => (dec 16 (-1), dec 25 (-2))
    end in
  let protein := Math_round (weight * proteinPerKg) in
  let proteinCalories := protein * of_Z 4 in
  let fatCalories := calorieTarget * fatPercent in
  let fat := Math_round (fatCalories / of_Z 9) in
  let carbCalories := calorieTarget - proteinCalories - (fat * of_Z 9) in
  let carbs := Math_round (Math_max (of_Z 0) carbCalories / of_Z 4) in
  let totalCalories := (protein * of_Z 4) + (carbs * of_Z 4) + (fat * of_Z 9) in
  {| protein := protein;
     carbs := carbs;
     fat := fat;
     _calculatedCalories := totalCalories;
     _proteinPerKg := proteinPerKg;
     _fatPercent := fatPercent |}.

End TargetCalculator.

(** ** Number to string

    [Number::toString] in radix 10: the shortest decimal that reads back as
    the same binary64 value, the nearest one on a tie of lengths, laid out
    in positional or exponent notation by the position of the point. *)

Module ToString.
Local Open Scope string_scope.
Local Open Scope Z_scope.

Definition pow2 (k : Z) : Z := 2 ^ Z.max k 0.
Definition pow10 (k : Z) : Z := 10 ^ Z.max k 0.

Section Shortest.
Variables (m : positive) (e : Z).

(** Everything is measured in units of [2^(e-2)]: the value is [4m], the
    upper half-way point [4m+2], the lower one [4m-2], or [4m-1] at the
    bottom of a binade. *)
Definition lower : Z :=
  if (Zpos m =? 2 ^ (prec - 1)) && (3 - emax - prec <? e)
  then 4 * Zpos m - 1 else 4 * Zpos m - 2.
Definition upper : Z := 4 * Zpos m + 2.

(** [c * 10^p] and [x] units, brought to a common integer scale. *)
Definition lhs (p c : Z) : Z := c * pow10 p * pow2 (2 - e).
Definition rhs (p x : Z) : Z := x * pow2 (e - 2) * pow10 (- p).

Definition inside (p c : Z) : bool :=
  (0 <? c) &&
  (if Z.even (Zpos m)
   then (rhs p lower <=? lhs p c) && (lhs p c <=? rhs p upper)
   else (rhs p lower <? lhs p c) && (lhs p c <? rhs p upper)).

Definition candidate (p : Z) : option Z :=
  let c0 := rhs p (4 * Zpos m) / lhs p 1 in
  let c1 := c0 + 1 in
  match inside p c0, inside p c1 with
  | true, false => Some c0
  | false, true => Some c1
  | true, true =>
      let d0 := rhs p (4 * Zpos m) - lhs p c0 in
      let d1 := lhs p c1 - rhs p (4 * Zpos m) in
      Some (if d0 <? d1 then c0
            else if d1 <? d0 then c1
            else if Z.even c0 then c0 else c1)
  | false, false => None
  end.

Fixpoint search (fuel : nat) (p : Z) : Z * Z :=
  match fuel with
  | O => (Zpos m, 0)
  | S fuel' =>
      match candidate p with
      | Some c => (c, p)
      | None => search fuel' (p - 1)
      end
  end.

Definition shortest : Z * Z :=
  search 40 ((Zpos (digits2_pos m) + e) * 30103 / 100000 + 2).

End Shortest.

Definition digits (n : Z) : string := NilZero.string_of_uint (N.to_uint (Z.to_N n)).

Definition zeros (n : Z) : string :=
  string_of_list_ascii (repeat "0"%char (Z.to_nat n)).

Definition layout (c p : Z) : string :=
  let ds := digits c in
  let k := Z.of_nat (String.length ds) in
  let n := k + p in
  if (k <=? n) && (n <=? 21) then ds ++ zeros (n - k)
  else if (0 <? n) && (n <=? 21) then
    substring 0 (Z.to_nat n) ds ++ "." ++ substring (Z.to_nat n) (Z.to_nat (k - n)) ds
  else if (-6 <? n) && (n <=? 0) then
    "0." ++ zeros (- n) ++ ds
  else
    let ex := (if n - 1 <? 0 then "-" else "+") ++ digits (Z.abs (n - 1)) in
    if k =? 1 then ds ++ "e" ++ ex
    else substring 0 1 ds ++ "." ++ substring 1 (Z.to_nat (k - 1)) ds ++ "e" ++ ex.

Definition Number_toString (x : number) : string :=
  match x with
  | S754_nan => "NaN"
  | S754_zero _ => "0"
  | S754_infinity false => "Infinity"
  | S754_infinity true => "-Infinity"
  | S754_finite s m e =>
      let '(c, p) := shortest m e in
      (if s then "-" else "") ++ layout c p
  end.

End ToString.

Import ToString.

(** ** src/lib/nutritionCalculator.ts *)

Record Food := {
  id : string;
  name : string;
  category : FoodCategory;
  calories_per_serving : number;
  protein_grams : number;
  carbs_grams : number;
  fat_grams : number;
  serving_size : string;
  serving_grams : number;
  is_system_food : bool;
  created_by : option string;
  created_at : string
}.

Inductive QuantityUnit := g | ml | serving.

Record Nutrients := {
  n_calories : number;
  n_protein : number;
  n_carbs : number;
  n_fat : number
}.

Record NutritionResult := {
  r_calories : number;
  r_protein : number;
  r_carbs : number;
  r_fat : number;
  displayQuantity : string
}.

Record CalculationBreakdown := {
  baseAmount : number;
  baseUnit : QuantityUnit;
  perBaseNutrition : Nutrients;
  multiplier : number;
  finalNutrition : NutritionResult
}.

Record MacroCalorieMatch := {
  isValid : bool;
  calculatedCalories : number;
  difference : number
}.

Section QuantityConverter.
Local Open Scope string_scope.
Local Open Scope js_scope.

Definition isLiquid (c : FoodCategory) : bool :=
  match c with beverages => true | _ => false end.

(** [Math.pow(10, decimals)] for the two call sites, [decimals] 1 and 2. *)
Definition roundToDecimal (value : number) (decimals : Z) : number :=
  let factor := of_Z (10 ^ decimals) in
  Math_round (value * factor) / factor.

(** [QuantityUnit] has three values, so the [default] arm of the source's
    [switch] is not reachable. *)
Definition calculateNutrition (food : Food) (quantity : number) (unit : QuantityUnit)
    : NutritionResult :=
  let servingGrams := serving_grams food || of_Z 100 in
  let '(multiplier, displayQuantity) :=
    match unit with
    | g => (quantity / servingGrams, Number_toString quantity ++ "g")
    | ml => (quantity / servingGrams, Number_toString quantity ++ "ml")
    | serving =>
        (quantity,
         Number_toString quantity ++ " "
           ++ (if quantity === of_Z 1 then "serving" else "servings")
           ++ " (" ++ Number_toString (Math_round (quantity * servingGrams))
           ++ (if isLiquid (category food) then "ml" else "g") ++ ")")
    end in
  let rawCalories := calories_per_serving food * multiplier in
  let rawProtein := protein_grams food * multiplier in
  let rawCarbs := carbs_grams food * multiplier in
  let rawFat := fat_grams food * multiplier in
  {| r_calories := Math_round rawCalories;
     r_protein := roundToDecimal rawProtein 1;
     r_carbs := roundToDecimal rawCarbs 1;
     r_fat := roundToDecimal rawFat 1;
     displayQuantity := displayQuantity |}.

Definition getCalculationBreakdown (food : Food) (quantity : number) (unit : QuantityUnit)
    : CalculationBreakdown :=
  let servingGrams := serving_grams food || of_Z 100 in
  let baseUnit := if isLiquid (category food) then ml else g in
  let per100 :=
    {| n_calories := (calories_per_serving food / servingGrams) * of_Z 100;
       n_protein := (protein_grams food / servingGrams) * of_Z 100;
       n_carbs := (carbs_grams food / servingGrams) * of_Z 100;
       n_fat := (fat_grams food / servingGrams) * of_Z 100 |} in
  let multiplier :=
    match unit with
    | g | ml => quantity / servingGrams
    | serving => quantity
    end in
  let finalNutrition := calculateNutrition food quantity unit in
  {| baseAmount := of_Z 100;
     baseUnit := baseUnit;
     perBaseNutrition :=
       {| n_calories := roundToDecimal (n_calories per100) 1;
          n_protein := roundToDecimal (n_protein per100) 1;
          n_carbs := roundToDecimal (n_carbs per100) 1;
          n_fat := roundToDecimal (n_fat per100) 1 |};
     multiplier := roundToDecimal multiplier 2;
     finalNutrition := finalNutrition |}.

Definition validateMacroCalorieMatch (calories protein carbs fat : number)
    : MacroCalorieMatch :=
  let calculatedCalories := (protein * of_Z 4) + (carbs * of_Z 4) + (fat * of_Z 9) in
  let difference := Math_abs (calories - calculatedCalories) in
  let tolerance := calories * dec 5 (-2) in
  {| isValid := (difference <=? tolerance) || (difference <=? of_Z 5);
     calculatedCalories := Math_round calculatedCalories;
     difference := Math_round difference |}.

End QuantityConverter.

(** ** src/hooks/useProfile.ts: the target pipeline

    [completeOnboarding] and [recalculateTargets] both run the four
    calculators in this order on the metric weight and height and store the
    calorie target and the three macro targets. *)

Record BodyProfile := {
  weightKg : number;
  heightCm : number;
  ageYears : number;
  gender : Gender;
  activityLevel : ActivityLevel;
  goalType : GoalType
}.

Record DailyTargets := {
  daily_calorie_target : number;
  daily_protein_target : number;
  daily_carbs_target : number;
  daily_fat_target : number
}.

Definition computeDailyTargets (p : BodyProfile) : DailyTargets :=
  let bmr := calculateBMR (weightKg p) (heightCm p) (ageYears p) (gender p) in
  let tdee := calculateTDEE bmr (activityLevel p) in
  let calorieTarget := calculateCalorieTarget tdee (goalType p) in
  let macros := calculateMacroTargets calorieTarget (goalType p) (Some (weightKg p)) in
  {| daily_calorie_target := calorieTarget;
     daily_protein_target := protein macros;
     daily_carbs_target := carbs macros;
     daily_fat_target := fat macros |}.

(** [4*protein + 4*carbs + 9*fat] of stored targets, as the source adds it. *)
Definition macroCalories (t : DailyTargets) : number :=
  ((daily_protein_target t * of_Z 4) + (daily_carbs_target t * of_Z 4)
   + (daily_fat_target t * of_Z 9))%js.

(** The stored macros reconstruct the calorie target within [tol]. *)
Definition within_tolerance (tol : number) (t : DailyTargets) : bool :=
  (Math_abs (macroCalories t - daily_calorie_target t) <=? tol)%js.

(** The [carbCalories] constant of [calculateMacroTargets], from the stored
    targets. *)
Definition carbCalories (t : DailyTargets) : number :=
  sub (sub (daily_calorie_target t) (mul (daily_protein_target t) (of_Z 4)))
      (mul (daily_fat_target t) (of_Z 9)).

(** The activity levels in the order of the multiplier table. *)
Definition level_rank (a : ActivityLevel) : nat :=
  match a with
  | sedentary => 0
  | lightly_active => 1
  | moderately_active => 2
  | very_active => 3
  | extra_active => 4
  end.

Definition set_serving_grams (food : Food) (sg : number) : Food :=
  {| id := id food; name := name food; category := category food;
     calories_per_serving := calories_per_serving food;
     protein_grams := protein_grams food;
     carbs_grams := carbs_grams food;
     fat_grams := fat_grams food;
     serving_size := serving_size food;
     serving_grams := sg;
     is_system_food := is_system_food food;
     created_by := created_by food;
     created_at := created_at food |}.

(** ** Sample inputs *)

Definition scenario_profile : BodyProfile :=
  {| weightKg := of_Z 70; heightCm := of_Z 175; ageYears := of_Z 30;
     gender := male; activityLevel := moderately_active; goalType := lose |}.

(** The six values of the scenario, in pipeline order. *)
Definition scenario_values (bmr tdee calorieTarget p f c : number) : Prop :=
  let b := calculateBMR (weightKg scenario_profile) (heightCm scenario_profile)
             (ageYears scenario_profile) (gender scenario_profile) in
  let t := calculateTDEE b (activityLevel scenario_profile) in
  let ct := calculateCalorieTarget t (goalType scenario_profile) in
  let m := calculateMacroTargets ct (goalType scenario_profile)
             (Some (weightKg scenario_profile)) in
  b = bmr /\ t = tdee /\ ct = calorieTarget /\
  protein m = p /\ fat m = f /\ carbs m = c.

Definition heavy_profile : BodyProfile :=
  {| weightKg := of_Z 150; heightCm := of_Z 100; ageYears := of_Z 80;
     gender := female; activityLevel := sedentary; goalType := lose |}.

Definition sample_food (cat : FoodCategory) (kcal sg : number) : Food :=
  {| id := "f1"; name := "rice bowl"; category := cat;
     calories_per_serving := kcal;
     protein_grams := dec 62 (-1); carbs_grams := of_Z 65; fat_grams := dec 7 (-1);
     serving_size := "1 bowl"; serving_grams := sg;
     is_system_food := true; created_by := None; created_at := "" |}.

(** ** Rounding, read as exact integer arithmetic

    [round_model] restates the library's [binary_round_aux] with division
    and remainder in place of the bit-by-bit shift; [canon z e] is the
    binary64 value of [z * 2^e] when [z] fits the 53-bit mantissa. *)

Definition rne (P k : Z) : Z :=
  let q := P / 2 ^ k in
  let r := P mod 2 ^ k in
  if 2 * r <? 2 ^ k then q
  else if 2 ^ k <? 2 * r then q + 1
  else if Z.even q then q else q + 1.

Definition round_model (s : bool) (P e : Z) : spec_float :=
  let E := Z.max e (fexp prec emax (Zdigits2 P + e)) in
  let q := rne P (E - e) in
  let E' := Z.max E (fexp prec emax (Zdigits2 q + E)) in
  match q / 2 ^ (E' - E) with
  | Z0 => S754_zero s
  | Zpos m => if E' <=? emax - prec then S754_finite s m E' else S754_infinity s
  | Zneg _ => S754_nan
  end.

Definition dyadic (z e : Z) : spec_float := binary_normalize prec emax z e false.

(** The canonical binary64 form of [z * 2^e] when [|z| < 2^53]. *)
Definition canon (z e : Z) : spec_float :=
  match z with
  | Z0 => S754_zero false
  | _ => S754_finite (z <? 0) (Z.to_pos (Z.abs z * 2 ^ (prec - Zdigits2 z)))
                     (e + Zdigits2 z - prec)
  end.

Definition exact_range (z e : Z) : Prop :=
  Z.abs z < 2 ^ prec /\ -1022 <= e <= 971.

(** The last step of rounding: renormalise [q * 2^E] after a carry, then
    classify. *)
Definition round_tail (s : bool) (q E : Z) : number :=
  let E' := Z.max E (fexp prec emax (Zdigits2 q + E)) in
  match (q / 2 ^ (E' - E))%Z with
  | Z0 => S754_zero s
  | Zpos m => if (E' <=? emax - prec)%Z then S754_finite s m E' else S754_infinity s
  | Zneg _ => S754_nan
  end.

(** [x] is NaN or carries the sign bit [s]. *)
Definition sign_is (s : bool) (x : number) : Prop :=
  match x with
  | S754_nan => True
  | S754_zero s' | S754_infinity s' | S754_finite s' _ _ => s' = s
  end.

(** The value of a finite number in units of [2^-1074], the smallest
    positive binary64 value; every finite number is an integer there. *)
Definition ival (x : number) : Z :=
  match x with
  | S754_finite s m e => cond_Zopp s (Zpos m * 2 ^ (e + 1074))
  | _ => 0
  end.

(** Positive normal numbers: full 53-bit mantissa. *)
Definition pos_normal (x : number) : Prop :=
  match x with
  | S754_finite false m e => 2 ^ 52 <= Zpos m < 2 ^ 53 /\ -1074 <= e <= 971
  | _ => False
  end.

Definition nonneg_normal (x : number) : Prop := x = S754_zero false \/ pos_normal x.

(** A product mantissa [P] at exponent [e], rounded to 53 bits, in units of
    [2^-1074]. *)
Definition R (P e : Z) : Z :=
  rne P (Zdigits2 P - 53) * 2 ^ (e + (Zdigits2 P - 53) + 1074).

Definition exponent_of (x : number) : Z :=
  match x with S754_finite _ _ e => e | _ => 0 end.

(** [Math.round] on values in units of [2^-1074]. *)
Definition iround (e V : Z) : Z :=
  if 0 <=? e then V else (2 * V + 2 ^ 1074) / 2 ^ 1075 * 2 ^ 1074.

(** Positive normal numbers from [2^-948] up to [2^953]. *)
Definition in_normal_range (x : number) : bool :=
  match x with
  | S754_finite false m e =>
      (2 ^ 52 <=? Zpos m) && (Zpos m <? 2 ^ 53) && (-1000 <=? e) && (e <=? 900)
  | _ => false
  end.

Definition multiplier_mantissa (a : ActivityLevel) : positive :=
  match ACTIVITY_MULTIPLIERS a with
  | S754_finite _ m _ => m
  | _ => 1
  end.

(** [|x| < 2^k], for a finite [x] with a mantissa of at most 53 bits. *)
Definition magnitude_below (k : Z) (x : number) : bool :=
  match x with
  | S754_zero _ => true
  | S754_finite _ m e => (Zpos m <? 2 ^ 53) && (e + 53 <=? k)
  | _ => false
  end.

(** [x] is the integer [n]; a zero of either sign is the integer 0. *)
Definition is_int (x : number) (n : Z) : Prop :=
  x = canon n 0 \/ (n = 0 /\ x = S754_zero true).

(** * The rest of the application

    The unit conversions, the hooks and the pages that call the
    calculators. *)

(** ** src/types/nutrition.ts: unit conversion *)

Inductive WeightUnit := kg | lbs.
Inductive HeightUnit := cm | ft.

Section UnitConversion.
Local Open Scope js_scope.

Definition convertWeight (value : number) (from to : WeightUnit) : number :=
  match from, to with
  | kg, kg | lbs, lbs => value
  | kg, lbs => Math_round (value * dec 2205 (-3) * of_Z 10) / of_Z 10
  | lbs, kg => Math_round (value / dec 2205 (-3) * of_Z 10) / of_Z 10
  end.

Definition convertHeight (value : number) (from to : HeightUnit) : number :=
  match from, to with
  | cm, cm | ft, ft => value
  | cm, ft => Math_round (value / dec 3048 (-2) * of_Z 10) / of_Z 10
  | ft, cm => Math_round (value * dec 3048 (-2) * of_Z 10) / of_Z 10
  end.

End UnitConversion.

(** ** src/lib/nutritionCalculator.ts: units and serving conversion

    [getDefaultUnit] and [getAvailableUnits] take the category of a food;
    their callers pass [food.category]. *)

Record UnitOption := { value : QuantityUnit; label : string }.

(** [===] on units. *)
Definition QuantityUnit_eqb (a b : QuantityUnit) : bool :=
  match a, b with
  | g, g | ml, ml | serving, serving => true
  | _, _ => false
  end.

Section QuantityUnits.
Local Open Scope string_scope.
Local Open Scope js_scope.

Definition getDefaultUnit (c : FoodCategory) : QuantityUnit :=
  if isLiquid c then ml else serving.

(** [push] appends at the end of [baseUnits]. *)
Definition getAvailableUnits (c : FoodCategory) : list UnitOption :=
  let baseUnits := [ {| value := serving; label := "Servings" |} ] in
  if isLiquid c then
    (baseUnits ++ [ {| value := ml; label := "Milliliters (ml)" |} ])
      ++ [ {| value := g; label := "Grams (g)" |} ]
  else
    (baseUnits ++ [ {| value := g; label := "Grams (g)" |} ])
      ++ [ {| value := ml; label := "Milliliters (ml)" |} ].

Definition servingsToGrams (servings servingGrams : number) : number :=
  servings * servingGrams.

Definition gramsToServings (grams servingGrams : number) : number :=
  grams / servingGrams.

End QuantityUnits.

(** ** Rows and form data

    A nullable column is an [option]; the records that share field names
    with others live in a module of their own. *)

Inductive UnitSystem := metric | imperial.
Inductive MealType := breakfast | lunch | dinner | snack.

Module Profile.
Record t := {
  id : string;
  user_id : string;
  name : option string;
  age : option number;
  gender : option Gender;
  current_weight : option number;
  height : option number;
  target_weight : option number;
  goal_type : GoalType;
  activity_level : ActivityLevel;
  daily_calorie_target : option number;
  daily_protein_target : option number;
  daily_carbs_target : option number;
  daily_fat_target : option number;
  unit_system : UnitSystem;
  onboarding_completed : bool;
  created_at : string;
  updated_at : string
}.
End Profile.

Module OnboardingData.
Record t := {
  name : string;
  age : number;
  gender : Gender;
  current_weight : number;
  height : number;
  target_weight : number;
  goal_type : GoalType;
  activity_level : ActivityLevel;
  unit_system : UnitSystem
}.
End OnboardingData.

Module MealLog.
Record t := {
  id : string;
  user_id : string;
  food_id : string;
  meal_type : MealType;
  servings : number;
  calories : number;
  protein : number;
  carbs : number;
  fat : number;
  logged_date : string;
  created_at : string;
  food : option Food
}.
End MealLog.

Module DailyNutrition.
Record t := {
  calories : number;
  protein : number;
  carbs : number;
  fat : number
}.
End DailyNutrition.

(** [!x] is false: a nullable number that is present and neither zero nor
    NaN. *)
Definition present (x : option number) : bool :=
  match x with Some v => truthy v | None => false end.

(** [x || d] for a nullable number. *)
Definition or_default (x : option number) (d : number) : number :=
  match x with Some v => or_else v d | None => d end.

(** ** src/hooks/useProfile.ts: the two mutations

    Each [mutationFn] is modelled up to its database call: it throws, or
    it hands a payload to [update]. *)

Inductive Outcome (A : Type) :=
  | Ok (payload : A)
  | Throw (message : string).
Arguments Ok {A} payload.
Arguments Throw {A} message.

Module ProfileData.
Record t := {
  name : string;
  age : number;
  gender : Gender;
  current_weight : number;
  height : number;
  target_weight : number;
  goal_type : GoalType;
  activity_level : ActivityLevel;
  unit_system : UnitSystem;
  daily_calorie_target : number;
  daily_protein_target : number;
  daily_carbs_target : number;
  daily_fat_target : number;
  onboarding_completed : bool
}.
End ProfileData.

Section UseProfile.
Local Open Scope string_scope.
Local Open Scope js_scope.

Definition completeOnboarding (user : option string) (data : OnboardingData.t)
    : Outcome ProfileData.t :=
  match user with
  | None => Throw "Not authenticated"
  | Some _ =>
      let weightKg :=
        match OnboardingData.unit_system data with
        | imperial => OnboardingData.current_weight data / dec 2205 (-3)
        | metric => OnboardingData.current_weight data
        end in
      let heightCm :=
        match OnboardingData.unit_system data with
        | imperial => OnboardingData.height data * dec 254 (-2)
        | metric => OnboardingData.height data
        end in
      let bmr := calculateBMR weightKg heightCm (OnboardingData.age data)
                   (OnboardingData.gender data) in
      let tdee := calculateTDEE bmr (OnboardingData.activity_level data) in
      let calorieTarget := calculateCalorieTarget tdee (OnboardingData.goal_type data) in
      let macros := calculateMacroTargets calorieTarget (OnboardingData.goal_type data)
                      (Some weightKg) in
      Ok {| ProfileData.name := OnboardingData.name data;
            ProfileData.age := OnboardingData.age data;
            ProfileData.gender := OnboardingData.gender data;
            ProfileData.current_weight := OnboardingData.current_weight data;
            ProfileData.height := OnboardingData.height data;
            ProfileData.target_weight := OnboardingData.target_weight data;
            ProfileData.goal_type := OnboardingData.goal_type data;
            ProfileData.activity_level := OnboardingData.activity_level data;
            ProfileData.unit_system := OnboardingData.unit_system data;
            ProfileData.daily_calorie_target := calorieTarget;
            ProfileData.daily_protein_target := protein macros;
            ProfileData.daily_carbs_target := carbs macros;
            ProfileData.daily_fat_target := fat macros;
            ProfileData.onboarding_completed := true |}
  end.

(** [queryData] is [query.data], the profile row if it is loaded. *)
Definition recalculateTargets (user : option string) (queryData : option Profile.t)
    : Outcome DailyTargets :=
  match user, queryData with
  | Some _, Some profile =>
      match Profile.current_weight profile, Profile.height profile,
            Profile.age profile, Profile.gender profile with
      | Some current_weight, Some height, Some age, Some gender =>
          if (negb (truthy current_weight) || negb (truthy height)
              || negb (truthy age))%bool
          then Throw "Missing profile data"
          else
            let weightKg :=
              match Profile.unit_system profile with
              | imperial => current_weight / dec 2205 (-3)
              | metric => current_weight
              end in
            let heightCm :=
              match Profile.unit_system profile with
              | imperial => height * dec 254 (-2)
              | metric => height
              end in
            let bmr := calculateBMR weightKg heightCm age gender in
            let tdee := calculateTDEE bmr (Profile.activity_level profile) in
            let calorieTarget := calculateCalorieTarget tdee (Profile.goal_type profile) in
            let macros := calculateMacroTargets calorieTarget (Profile.goal_type profile)
                            (Some weightKg) in
            Ok {| daily_calorie_target := calorieTarget;
                  daily_protein_target := protein macros;
                  daily_carbs_target := carbs macros;
                  daily_fat_target := fat macros |}
      | _, _, _, _ => Throw "Missing profile data"
      end
  | _, _ => Throw "Not authenticated or no profile"
  end.

End UseProfile.

(** ** src/components/CalculationBreakdown.tsx

    The card recomputes the targets from the profile row, rounding after
    every step; [render] returns the constants it displays, [None] where
    the component returns [null]. *)

Module BreakdownCard.

Record values := {
  weightKg : number;
  heightCm : number;
  genderOffset : number;
  bmr : number;
  tdee : number;
  calorieTarget : number;
  proteinPerKg : number;
  protein : number;
  proteinCal : number;
  fatCal : number;
  fat : number;
  carbsCal : number;
  carbs : number;
  totalCal : number
}.

Definition ACTIVITY_MULTIPLIERS (a : ActivityLevel) : number :=
  match a with
  | sedentary => dec 12 (-1)
  | lightly_active => dec 1375 (-3)
  | moderately_active => dec 155 (-2)
  | very_active => dec 1725 (-3)
  | extra_active => dec 19 (-1)
  end.

Definition GOAL_ADJUSTMENTS (goal : GoalType) : number :=
  match goal with
  | lose => dec 80 (-2)
  | maintain => dec 10 (-1)
  | gain => dec 110 (-2)
  end.

Definition PROTEIN_PER_KG (goal : GoalType) : number :=
  match goal with
  | lose => dec 20 (-1)
  | maintain => dec 16 (-1)
  | gain => dec 18 (-1)
  end.

(** [activity_level] and [goal_type] are never null in a row, so their
    [||] fallbacks are not taken. *)
Definition render (profile : option Profile.t) : option values :=
  match profile with
  | None => None
  | Some profile =>
      match Profile.current_weight profile, Profile.height profile,
            Profile.age profile, Profile.gender profile with
      | Some current_weight, Some height, Some age, Some gender =>
          if negb (truthy current_weight) || negb (truthy height) || negb (truthy age)
          then None
          else
            let weightKg :=
              match Profile.unit_system profile with
              | imperial => div current_weight (dec 2205 (-3))
              | metric => current_weight
              end in
            let heightCm :=
              match Profile.unit_system profile with
              | imperial => mul height (dec 254 (-2))
              | metric => height
              end in
            let genderOffset :=
              match gender with male => of_Z 5 | _ => of_Z (-161) end in
            let bmr :=
              Math_round
                (add (sub (add (mul (of_Z 10) weightKg) (mul (dec 625 (-2)) heightCm))
                          (mul (of_Z 5) age))
                     genderOffset) in
            let tdee :=
              Math_round (mul bmr (ACTIVITY_MULTIPLIERS (Profile.activity_level profile))) in
            let goalType := Profile.goal_type profile in
            let calorieTarget := Math_round (mul tdee (GOAL_ADJUSTMENTS goalType)) in
            let proteinPerKg := PROTEIN_PER_KG goalType in
            let protein := Math_round (mul weightKg proteinPerKg) in
            let proteinCal := mul protein (of_Z 4) in
            let fatCal := Math_round (mul calorieTarget (dec 25 (-2))) in
            let fat := Math_round (div fatCal (of_Z 9)) in
            let carbsCal := sub (sub calorieTarget proteinCal) (mul fat (of_Z 9)) in
            let carbs := Math_round (div (Math_max (of_Z 0) carbsCal) (of_Z 4)) in
            let totalCal := add (add proteinCal (mul carbs (of_Z 4))) (mul fat (of_Z 9)) in
            Some {| weightKg := weightKg; heightCm := heightCm;
                    genderOffset := genderOffset; bmr := bmr; tdee := tdee;
                    calorieTarget := calorieTarget; proteinPerKg := proteinPerKg;
                    protein := protein; proteinCal := proteinCal; fatCal := fatCal;
                    fat := fat; carbsCal := carbsCal; carbs := carbs;
                    totalCal := totalCal |}
      | _, _, _, _ => None
      end
  end.

End BreakdownCard.

(** ** src/hooks/useMealLogs.ts and the meal card

    [data] is [query.data]: the rows of the day, or [None] while the query
    has no result. *)

Module MealsByType.
Record t := {
  breakfast : list MealLog.t;
  lunch : list MealLog.t;
  dinner : list MealLog.t;
  snack : list MealLog.t
}.
End MealsByType.

Section UseMealLogs.

Definition MealType_eqb (a b : MealType) : bool :=
  match a, b with
  | breakfast, breakfast | lunch, lunch | dinner, dinner | snack, snack => true
  | _, _ => false
  end.

(** [query.data || []]: an array, even an empty one, is truthy. *)
Definition rows (data : option (list MealLog.t)) : list MealLog.t :=
  match data with Some l => l | None => [] end.

Definition dailyTotals (data : option (list MealLog.t)) : DailyNutrition.t :=
  fold_left
    (fun acc log =>
       {| DailyNutrition.calories :=
            add (DailyNutrition.calories acc) (or_else (MealLog.calories log) (of_Z 0));
          DailyNutrition.protein :=
            add (DailyNutrition.protein acc) (or_else (MealLog.protein log) (of_Z 0));
          DailyNutrition.carbs :=
            add (DailyNutrition.carbs acc) (or_else (MealLog.carbs log) (of_Z 0));
          DailyNutrition.fat :=
            add (DailyNutrition.fat acc) (or_else (MealLog.fat log) (of_Z 0)) |})
    (rows data)
    {| DailyNutrition.calories := of_Z 0; DailyNutrition.protein := of_Z 0;
       DailyNutrition.carbs := of_Z 0; DailyNutrition.fat := of_Z 0 |}.

Definition mealsByType (data : option (list MealLog.t)) : MealsByType.t :=
  {| MealsByType.breakfast :=
       filter (fun log => MealType_eqb (MealLog.meal_type log) breakfast) (rows data);
     MealsByType.lunch :=
       filter (fun log => MealType_eqb (MealLog.meal_type log) lunch) (rows data);
     MealsByType.dinner :=
       filter (fun log => MealType_eqb (MealLog.meal_type log) dinner) (rows data);
     MealsByType.snack :=
       filter (fun log => MealType_eqb (MealLog.meal_type log) snack) (rows data) |}.

(** [totalCalories] of [MealCard]. *)
Definition totalCalories (meals : list MealLog.t) : number :=
  fold_left (fun sum meal => add sum (or_else (MealLog.calories meal) (of_Z 0)))
            meals (of_Z 0).

End UseMealLogs.

(** ** The macro card and the dashboard *)

Section Dashboard.
Local Open Scope js_scope.

(** [percentage] and [isOver] of [MacroCard]. *)
Definition percentage (value target : number) : number :=
  if of_Z 0 <? target then Math_round ((value / target) * of_Z 100) else of_Z 0.

Definition isOver (value target : number) : bool := target <? value.

Definition calorieTarget (profile : option Profile.t) : number :=
  or_default (match profile with
              | Some p => Profile.daily_calorie_target p
              | None => None
              end) (of_Z 2000).

Definition caloriesRemaining (profile : option Profile.t) (dailyTotals : DailyNutrition.t)
    : number :=
  calorieTarget profile - DailyNutrition.calories dailyTotals.

Definition caloriePercentage (profile : option Profile.t) (dailyTotals : DailyNutrition.t)
    : number :=
  Math_round ((DailyNutrition.calories dailyTotals / calorieTarget profile) * of_Z 100).

(** The number under "Remaining". *)
Definition remainingShown (profile : option Profile.t) (dailyTotals : DailyNutrition.t)
    : number :=
  let r := caloriesRemaining profile dailyTotals in
  if of_Z 0 <? r then r else Math_abs r.

End Dashboard.

(** ** The add-food dialog

    The state of [AddFoodDialog] for a given food, and the handlers that
    change it.  [handleQuantityChange] parses the text of the input field
    and is not modelled. *)

Module AddFoodDialog.

Record state := {
  quantity : number;
  unit : QuantityUnit;
  mealType : MealType;
  showBreakdown : bool
}.

(** The state a new dialog starts from. *)
Definition initialState (initialMealType : MealType) : state :=
  {| quantity := of_Z 1; unit := serving; mealType := initialMealType;
     showBreakdown := false |}.

(** The effect that runs when the food changes. *)
Definition resetState (food : Food) (initialMealType : MealType) (st : state) : state :=
  let defaultUnit := getDefaultUnit (category food) in
  {| unit := defaultUnit;
     quantity := if QuantityUnit_eqb defaultUnit serving then of_Z 1
                 else or_else (serving_grams food) (of_Z 100);
     mealType := initialMealType;
     showBreakdown := showBreakdown st |}.

Definition nutrition (food : Food) (st : state) : NutritionResult :=
  calculateNutrition food (quantity st) (unit st).

Definition handleQuantityStep (st : state) (delta : number) : state :=
  let step := if QuantityUnit_eqb (unit st) serving then dec 5 (-1) else of_Z 10 in
  let newValue := Math_max (of_Z 0) (add (quantity st) (mul delta step)) in
  {| quantity := if QuantityUnit_eqb (unit st) serving then newValue
                 else Math_round newValue;
     unit := unit st; mealType := mealType st; showBreakdown := showBreakdown st |}.

Definition handleUnitChange (food : Food) (st : state) (newUnit : QuantityUnit) : state :=
  let servingGrams := or_else (serving_grams food) (of_Z 100) in
  let quantity' :=
    if QuantityUnit_eqb (unit st) serving
       && (QuantityUnit_eqb newUnit g || QuantityUnit_eqb newUnit ml)
    then Math_round (mul (quantity st) servingGrams)
    else if (QuantityUnit_eqb (unit st) g || QuantityUnit_eqb (unit st) ml)
            && QuantityUnit_eqb newUnit serving
    then div (Math_round (mul (div (quantity st) servingGrams) (of_Z 10))) (of_Z 10)
    else quantity st in
  {| quantity := quantity'; unit := newUnit; mealType := mealType st;
     showBreakdown := showBreakdown st |}.

(** What [handleAdd] passes to [onAdd]. *)
Record added := {
  a_food : Food;
  a_quantity : number;
  a_unit : QuantityUnit;
  a_mealType : MealType;
  a_nutrition : DailyNutrition.t
}.

Definition handleAdd (food : Food) (st : state) : added :=
  let n := nutrition food st in
  {| a_food := food; a_quantity := quantity st; a_unit := unit st;
     a_mealType := mealType st;
     a_nutrition :=
       {| DailyNutrition.calories := r_calories n;
          DailyNutrition.protein := r_protein n;
          DailyNutrition.carbs := r_carbs n;
          DailyNutrition.fat := r_fat n |} |}.

End AddFoodDialog.

(** ** The food search page: what [handleAddToMeal] logs *)

Module NewMealLog.
Record t := {
  food_id : string;
  meal_type : MealType;
  servings : number;
  calories : number;
  protein : number;
  carbs : number;
  fat : number;
  logged_date : option string
}.
End NewMealLog.

Definition handleAddToMeal (dateStr : option string) (data : AddFoodDialog.added)
    : NewMealLog.t :=
  let servingGrams := or_else (serving_grams (AddFoodDialog.a_food data)) (of_Z 100) in
  let servings :=
    if QuantityUnit_eqb (AddFoodDialog.a_unit data) serving
    then AddFoodDialog.a_quantity data
    else div (AddFoodDialog.a_quantity data) servingGrams in
  {| NewMealLog.food_id := id (AddFoodDialog.a_food data);
     NewMealLog.meal_type := AddFoodDialog.a_mealType data;
     NewMealLog.servings := servings;
     NewMealLog.calories := DailyNutrition.calories (AddFoodDialog.a_nutrition data);
     NewMealLog.protein := DailyNutrition.protein (AddFoodDialog.a_nutrition data);
     NewMealLog.carbs := DailyNutrition.carbs (AddFoodDialog.a_nutrition data);
     NewMealLog.fat := DailyNutrition.fat (AddFoodDialog.a_nutrition data);
     NewMealLog.logged_date := dateStr |}.

(** ** src/pages/Onboarding.tsx: the five-step form

    The page keeps a step counter and the partly filled form.  An input is
    on the page only at its own step; "Next" is there below the last step
    and disabled unless [canProceed]; "Back" is there above step 1; "Get
    Started" replaces "Next" at the last step. *)

Module Onboarding.

Record data := {
  name : option string;
  age : option number;
  gender : option Gender;
  current_weight : option number;
  height : option number;
  target_weight : option number;
  goal_type : option GoalType;
  activity_level : option ActivityLevel;
  unit_system : option UnitSystem
}.

Record state := { step : number; form : data }.

Definition totalSteps : number := of_Z 5.

Definition initial : state :=
  {| step := of_Z 1;
     form := {| name := None; age := None; gender := Some male;
                current_weight := None; height := None; target_weight := None;
                goal_type := Some maintain;
                activity_level := Some moderately_active;
                unit_system := Some metric |} |}.

Definition progress (st : state) : number :=
  mul (div (step st) totalSteps) (of_Z 100).

Definition filled {A : Type} (x : option A) : bool :=
  match x with Some _ => true | None => false end.

(** A string is truthy unless it is empty. *)
Definition nonempty (x : option string) : bool :=
  match x with Some EmptyString | None => false | Some _ => true end.

Definition handleNext (st : state) : state :=
  if ltb (step st) totalSteps
  then {| step := add (step st) (of_Z 1); form := form st |}
  else st.

Definition handleBack (st : state) : state :=
  if ltb (of_Z 1) (step st)
  then {| step := sub (step st) (of_Z 1); form := form st |}
  else st.

Definition canProceed (st : state) : bool :=
  let d := form st in
  if eqb (step st) (of_Z 1) then nonempty (name d) && present (age d) && filled (gender d)
  else if eqb (step st) (of_Z 2) then present (current_weight d) && present (height d)
  else if eqb (step st) (of_Z 3) then present (target_weight d) && filled (goal_type d)
  else if eqb (step st) (of_Z 4) then filled (activity_level d)
  else if eqb (step st) (of_Z 5) then true
  else false.

(** The guard of [handleSubmit]: the complete form, or nothing when the
    "Missing information" toast is shown.  [unit_system] is preset and no
    control clears it; the calculators take the metric branch for anything
    but ['imperial']. *)
Definition handleSubmit (st : state) : option OnboardingData.t :=
  let d := form st in
  match name d, age d, gender d, current_weight d, height d, target_weight d,
        goal_type d, activity_level d with
  | Some n, Some a, Some ge, Some w, Some h, Some tw, Some go, Some al =>
      if nonempty (Some n) && truthy a && truthy w && truthy h && truthy tw
      then Some {| OnboardingData.name := n; OnboardingData.age := a;
                   OnboardingData.gender := ge;
                   OnboardingData.current_weight := w;
                   OnboardingData.height := h;
                   OnboardingData.target_weight := tw;
                   OnboardingData.goal_type := go;
                   OnboardingData.activity_level := al;
                   OnboardingData.unit_system :=
                     match unit_system d with Some u => u | None => metric end |}
      else None
  | _, _, _, _, _, _, _, _ => None
  end.

(** [parseInt(...) || undefined] and [parseFloat(...) || undefined]. *)
Definition parsed (v : number) : option number :=
  if truthy v then Some v else None.

(** What the user can do on the page. *)
Inductive event :=
  | ChangeName (v : string)
  | ChangeAge (v : number)
  | ChangeGender (v : Gender)
  | ChangeUnitSystem (v : UnitSystem)
  | ChangeWeight (v : number)
  | ChangeHeight (v : number)
  | ChangeTargetWeight (v : number)
  | ChangeGoal (v : GoalType)
  | ChangeActivity (v : ActivityLevel)
  | ClickNext
  | ClickBack.

Definition updateData (st : state) (f : data -> data) : state :=
  {| step := step st; form := f (form st) |}.

Definition at_step (st : state) (n : Z) : bool := eqb (step st) (of_Z n).

(** An event on a control that is not on the page, or is disabled, changes
    nothing. *)
Definition handle (st : state) (e : event) : state :=
  match e with
  | ChangeName v =>
      if at_step st 1 then
        updateData st (fun d =>
          {| name := Some v; age := age d; gender := gender d;
             current_weight := current_weight d; height := height d;
             target_weight := target_weight d; goal_type := goal_type d;
             activity_level := activity_level d; unit_system := unit_system d |})
      else st
  | ChangeAge v =>
      if at_step st 1 then
        updateData st (fun d =>
          {| name := name d; age := parsed v; gender := gender d;
             current_weight := current_weight d; height := height d;
             target_weight := target_weight d; goal_type := goal_type d;
             activity_level := activity_level d; unit_system := unit_system d |})
      else st
  | ChangeGender v =>
      if at_step st 1 then
        updateData st (fun d =>
          {| name := name d; age := age d; gender := Some v;
             current_weight := current_weight d; height := height d;
             target_weight := target_weight d; goal_type := goal_type d;
             activity_level := activity_level d; unit_system := unit_system d |})
      else st
  | ChangeUnitSystem v =>
      if at_step st 2 then
        updateData st (fun d =>
          {| name := name d; age := age d; gender := gender d;
             current_weight := current_weight d; height := height d;
             target_weight := target_weight d; goal_type := goal_type d;
             activity_level := activity_level d; unit_system := Some v |})
      else st
  | ChangeWeight v =>
      if at_step st 2 then
        updateData st (fun d =>
          {| name := name d; age := age d; gender := gender d;
             current_weight := parsed v; height := height d;
             target_weight := target_weight d; goal_type := goal_type d;
             activity_level := activity_level d; unit_system := unit_system d |})
      else st
  | ChangeHeight v =>
      if at_step st 2 then
        updateData st (fun d =>
          {| name := name d; age := age d; gender := gender d;
             current_weight := current_weight d; height := parsed v;
             target_weight := target_weight d; goal_type := goal_type d;
             activity_level := activity_level d; unit_system := unit_system d |})
      else st
  | ChangeTargetWeight v =>
      if at_step st 3 then
        updateData st (fun d =>
          {| name := name d; age := age d; gender := gender d;
             current_weight := current_weight d; height := height d;
             target_weight := parsed v; goal_type := goal_type d;
             activity_level := activity_level d; unit_system := unit_system d |})
      else st
  | ChangeGoal v =>
      if at_step st 3 then
        updateData st (fun d =>
          {| name := name d; age := age d; gender := gender d;
             current_weight := current_weight d; height := height d;
             target_weight := target_weight d; goal_type := Some v;
             activity_level := activity_level d; unit_system := unit_system d |})
      else st
  | ChangeActivity v =>
      if at_step st 4 then
        updateData st (fun d =>
          {| name := name d; age := age d; gender := gender d;
             current_weight := current_weight d; height := height d;
             target_weight := target_weight d; goal_type := goal_type d;
             activity_level := Some v; unit_system := unit_system d |})
      else st
  | ClickNext =>
      if ltb (step st) totalSteps && canProceed st then handleNext st else st
  | ClickBack =>
      if ltb (of_Z 1) (step st) then handleBack st else st
  end.

Definition run (events : list event) : state := fold_left handle events initial.

(** "Get Started" is on the page. *)
Definition canSubmit (st : state) : bool := negb (ltb (step st) totalSteps).

End Onboarding.

(** ** The route guard, [ProtectedRoute] *)

Section ProtectedRoute.
Local Open Scope string_scope.

Inductive Rendered :=
  | Spinner
  | Navigate (to : string)
  | Children.

Definition ProtectedRoute
    (requireOnboarding : bool) (user : option string) (authLoading profileLoading : bool)
    (profile : option Profile.t) (pathname : string) : Rendered :=
  if authLoading || (Onboarding.filled user && profileLoading) then Spinner
  else if negb (Onboarding.filled user) then Navigate "/auth"
  else if requireOnboarding
          && match profile with
             | Some p => negb (Profile.onboarding_completed p)
             | None => false
             end
          && negb (String.eqb pathname "/onboarding")
  then Navigate "/onboarding"
  else if String.eqb pathname "/onboarding"
          && match profile with
             | Some p => Profile.onboarding_completed p
             | None => false
             end
  then Navigate "/dashboard"
  else Children.

End ProtectedRoute.

(** ** Binary64 values and structural equality *)

(** [x] is a value a binary64 variable can hold: a special value, or a
    finite number in canonical form. *)
Definition is_binary64 (x : number) : bool := valid_binary prec emax x.

Definition number_beq (x y : number) : bool :=
  match x, y with
  | S754_zero a, S754_zero b => Bool.eqb a b
  | S754_infinity a, S754_infinity b => Bool.eqb a b
  | S754_nan, S754_nan => true
  | S754_finite a m e, S754_finite b n f => Bool.eqb a b && Pos.eqb m n && Z.eqb e f
  | _, _ => false
  end.

(** [check n] holds for every [n] from [lo] up to [lo + len - 1]. *)
Fixpoint all_from (check : Z -> bool) (lo : Z) (len : nat) : bool :=
  match len with
  | O => true
  | S k => check lo && all_from check (lo + 1) k
  end.

(** [check n] holds for every [n] from 0 up to [hi]. *)
Definition all_upto (check : Z -> bool) (hi : Z) : bool :=
  all_from check 0 (Z.to_nat (hi + 1)).

(** The whole part of a finite number, towards minus infinity. *)
Definition to_Z (x : number) : Z :=
  match x with
  | S754_finite s m e => cond_Zopp s (Z.shiftl (Zpos m) e)
  | _ => 0
  end.

(** ** Checks over a range of one-decimal values

    [dec n (-1)] is the binary64 value of the decimal [n/10]. *)

(** The constants of the conversions, evaluated once. *)
Definition c2205 : number := Eval vm_compute in dec 2205 (-3).
Definition c3048 : number := Eval vm_compute in dec 3048 (-2).
Definition c10 : number := Eval vm_compute in of_Z 10.

Definition tenth (n : Z) : number := div (of_Z n) c10.

(** The conversions before their last division by 10: the result counted
    in tenths. *)
Definition lbs_tenths (value : number) : number :=
  Math_round (mul (mul value c2205) c10).

Definition kg_tenths (value : number) : number :=
  Math_round (mul (div value c2205) c10).

Definition ft_tenths (value : number) : number :=
  Math_round (mul (div value c3048) c10).

Definition cm_tenths (value : number) : number :=
  Math_round (mul (mul value c3048) c10).

(** [n/10] kg, to lbs and back, is [n] tenths of a kg. *)
Definition kg_round_trip (n : Z) : bool :=
  number_beq (kg_tenths (div (lbs_tenths (tenth n)) c10)) (of_Z n).

(** [r] is a whole number at most [d] away from [n]. *)
Definition near (d n : Z) (r : number) : bool :=
  let k := to_Z r in
  (Z.abs (k - n) <=? d) && number_beq r (of_Z k).

Definition lbs_round_trip (n : Z) : bool :=
  near 1 (10 * n) (lbs_tenths (div (kg_tenths (of_Z n)) c10)).

Definition ft_round_trip (n : Z) : bool :=
  number_beq (ft_tenths (div (cm_tenths (tenth n)) c10)) (of_Z n).

Definition cm_round_trip (n : Z) : bool :=
  near 15 (10 * n) (cm_tenths (div (ft_tenths (of_Z n)) c10)).

(** ** Rows that hold what onboarding stored *)

(** The profile row holds the body data of the onboarding form. *)
Definition row_holds (row : Profile.t) (data : OnboardingData.t) : Prop :=
  Profile.current_weight row = Some (OnboardingData.current_weight data) /\
  Profile.height row = Some (OnboardingData.height data) /\
  Profile.age row = Some (OnboardingData.age data) /\
  Profile.gender row = Some (OnboardingData.gender data) /\
  Profile.goal_type row = OnboardingData.goal_type data /\
  Profile.activity_level row = OnboardingData.activity_level data /\
  Profile.unit_system row = OnboardingData.unit_system data.

(** The four targets of an onboarding payload. *)
Definition targets_of (pd : ProfileData.t) : DailyTargets :=
  {| daily_calorie_target := ProfileData.daily_calorie_target pd;
     daily_protein_target := ProfileData.daily_protein_target pd;
     daily_carbs_target := ProfileData.daily_carbs_target pd;
     daily_fat_target := ProfileData.daily_fat_target pd |}.

(** All that [recalculateTargets] and the breakdown card need is there. *)
Definition body_complete (row : Profile.t) : bool :=
  present (Profile.current_weight row) && present (Profile.height row)
  && present (Profile.age row)
  && match Profile.gender row with Some _ => true | None => false end.

Definition scenario_data : OnboardingData.t :=
  {| OnboardingData.name := "Sam"; OnboardingData.age := of_Z 30;
     OnboardingData.gender := male; OnboardingData.current_weight := of_Z 70;
     OnboardingData.height := of_Z 175; OnboardingData.target_weight := of_Z 65;
     OnboardingData.goal_type := lose;
     OnboardingData.activity_level := moderately_active;
     OnboardingData.unit_system := metric |}.

Definition scenario_row : Profile.t :=
  {| Profile.id := "p1"; Profile.user_id := "u1"; Profile.name := Some "Sam"%string;
     Profile.age := Some (of_Z 30); Profile.gender := Some male;
     Profile.current_weight := Some (of_Z 70); Profile.height := Some (of_Z 175);
     Profile.target_weight := Some (of_Z 65); Profile.goal_type := lose;
     Profile.activity_level := moderately_active;
     Profile.daily_calorie_target := Some (of_Z 2044);
     Profile.daily_protein_target := Some (of_Z 140);
     Profile.daily_carbs_target := Some (of_Z 243);
     Profile.daily_fat_target := Some (of_Z 57);
     Profile.unit_system := metric; Profile.onboarding_completed := true;
     Profile.created_at := ""; Profile.updated_at := "" |}.

(** ** Meal logs: what the statements say about rows *)

(** All four values of the row are falsy: zero or NaN. *)
Definition blank (log : MealLog.t) : bool :=
  negb (truthy (MealLog.calories log)) && negb (truthy (MealLog.protein log))
  && negb (truthy (MealLog.carbs log)) && negb (truthy (MealLog.fat log)).

Definition log_is_binary64 (log : MealLog.t) : bool :=
  is_binary64 (MealLog.calories log) && is_binary64 (MealLog.protein log)
  && is_binary64 (MealLog.carbs log) && is_binary64 (MealLog.fat log).

(** [x] is a whole number, not negative. *)
Definition whole_nonneg (x : number) : bool :=
  number_beq x (of_Z (to_Z x)) && (0 <=? to_Z x).

(** The calories of the rows, added as integers. *)
Definition kcal_sum (logs : list MealLog.t) : Z :=
  fold_right (fun log s => to_Z (MealLog.calories log) + s) 0 logs.

(** Not the negative zero, and not below the smallest exponent. *)
Definition plain (x : number) : Prop :=
  match x with
  | S754_zero s => s = false
  | S754_finite _ _ e => -1074 <= e
  | _ => True
  end.
Definition plain_totals (t : DailyNutrition.t) : Prop :=
  plain (DailyNutrition.calories t) /\ plain (DailyNutrition.protein t) /\
  plain (DailyNutrition.carbs t) /\ plain (DailyNutrition.fat t).

Definition add_log (acc : DailyNutrition.t) (log : MealLog.t) : DailyNutrition.t :=
  {| DailyNutrition.calories :=
       add (DailyNutrition.calories acc) (or_else (MealLog.calories log) (of_Z 0));
     DailyNutrition.protein :=
       add (DailyNutrition.protein acc) (or_else (MealLog.protein log) (of_Z 0));
     DailyNutrition.carbs :=
       add (DailyNutrition.carbs acc) (or_else (MealLog.carbs log) (of_Z 0));
     DailyNutrition.fat :=
       add (DailyNutrition.fat acc) (or_else (MealLog.fat log) (of_Z 0)) |}.

Definition sample_log (t : MealType) (kcal p c f : number) : MealLog.t :=
  {| MealLog.id := "m1"; MealLog.user_id := "u1"; MealLog.food_id := "f1";
     MealLog.meal_type := t; MealLog.servings := of_Z 1;
     MealLog.calories := kcal; MealLog.protein := p; MealLog.carbs := c;
     MealLog.fat := f; MealLog.logged_date := "2025-01-01";
     MealLog.created_at := ""; MealLog.food := None |}.

(** ** The add-food dialog: a food and a state to start from *)

Definition dialog_state (q : number) (u : QuantityUnit) : AddFoodDialog.state :=
  {| AddFoodDialog.quantity := q; AddFoodDialog.unit := u;
     AddFoodDialog.mealType := lunch; AddFoodDialog.showBreakdown := false |}.

(** Servings to grams and back, for [k/10] servings of [5 j] grams each,
    [j] from 2 to 100: the servings come back as [k] tenths. *)
Definition serving_round_trip_row (k : Z) : bool :=
  let q := tenth k in
  all_from (fun j =>
              let sg := of_Z (5 * j) in
              number_beq (Math_round (mul (div (Math_round (mul q sg)) sg) c10))
                         (of_Z k))
           2 99.

(** ** Foods the statements speak of *)

(** A serving size that is missing (zero or NaN), or a positive normal
    number of at least 1. *)
Definition usable_serving (sg : number) : bool :=
  negb (truthy sg) || (in_normal_range sg && leb (of_Z 1) sg).

(** Not negative and below [2^13] in magnitude. *)
Definition small_nonneg (x : number) : bool :=
  magnitude_below 13 x
  && match x with
     | S754_zero s | S754_finite s _ _ => negb s
     | _ => false
     end.

(** ** The onboarding form: what holds at each step *)

Module OnboardingInv.
Import Onboarding.

Definition step1_ok (d : data) : bool :=
  nonempty (name d) && present (age d) && filled (gender d).
Definition step2_ok (d : data) : bool :=
  present (current_weight d) && present (height d).
Definition step3_ok (d : data) : bool :=
  present (target_weight d) && filled (goal_type d).
Definition step4_ok (d : data) : bool := filled (activity_level d).

(** The page is at step [n], and the fields of the steps before it are
    filled in. *)
Definition at_step_filled (st : state) (n : Z) : Prop :=
  step st = of_Z n /\ 1 <= n <= 5 /\
  (2 <= n -> step1_ok (form st) = true) /\
  (3 <= n -> step2_ok (form st) = true) /\
  (4 <= n -> step3_ok (form st) = true) /\
  (5 <= n -> step4_ok (form st) = true).

End OnboardingInv.

(** ** The weight tracker *)

Module WeightLog.
Record t := {
  id : string;
  user_id : string;
  weight : number;
  logged_date : string;
  notes : option string;
  created_at : string
}.
End WeightLog.

(** [Math.min] of two numbers: NaN if either is NaN, [-0] below [+0]. *)
Definition Math_min (x y : number) : number :=
  match SFcompare x y with
  | None => S754_nan
  | Some Lt => x
  | Some Gt => y
  | Some Eq => match x with S754_zero false => y | _ => x end
  end.

Section WeightTracker.

(** [latestWeight] of [useWeightLogs]: the weight of the last row, nothing
    without rows. *)
Definition latestWeight (data : option (list WeightLog.t)) : option number :=
  match data with
  | Some (x :: l) => Some (WeightLog.weight (last l x))
  | _ => None
  end.

(** [weightLogs], that is [query.data || []]. *)
Definition weightLogs (data : option (list WeightLog.t)) : list WeightLog.t :=
  match data with Some l => l | None => [] end.

Definition startWeight (data : option (list WeightLog.t)) : option number :=
  match weightLogs data with
  | x :: _ => Some (WeightLog.weight x)
  | [] => latestWeight data
  end.

Definition progressToGoal (profile : option Profile.t) (data : option (list WeightLog.t))
    : option number :=
  let targetWeight :=
    match profile with Some p => Profile.target_weight p | None => None end in
  match targetWeight, startWeight data, latestWeight data with
  | Some target, Some start, Some latest =>
      if truthy target && truthy start && truthy latest
      then Some (mul (div (Math_abs (sub start latest)) (Math_abs (sub start target)))
                     (of_Z 100))
      else None
  | _, _, _ => None
  end.

(** The number before the percent sign under "To Goal"; nothing where the
    page shows a dash. *)
Definition progressShown (profile : option Profile.t) (data : option (list WeightLog.t))
    : option number :=
  match progressToGoal profile data with
  | Some p => Some (Math_min (of_Z 100) (Math_round p))
  | None => None
  end.

End WeightTracker.

Definition weight_row (w : number) : WeightLog.t :=
  {| WeightLog.id := "w1"; WeightLog.user_id := "u1"; WeightLog.weight := w;
     WeightLog.logged_date := "2025-01-01"; WeightLog.notes := None;
     WeightLog.created_at := "" |}.

(** A profile row with the given target weight. *)
Definition row_with_target (target : option number) : Profile.t :=
  {| Profile.id := Profile.id scenario_row; Profile.user_id := Profile.user_id scenario_row;
     Profile.name := Profile.name scenario_row; Profile.age := Profile.age scenario_row;
     Profile.gender := Profile.gender scenario_row;
     Profile.current_weight := Profile.current_weight scenario_row;
     Profile.height := Profile.height scenario_row;
     Profile.target_weight := target;
     Profile.goal_type := Profile.goal_type scenario_row;
     Profile.activity_level := Profile.activity_level scenario_row;
     Profile.daily_calorie_target := Profile.daily_calorie_target scenario_row;
     Profile.daily_protein_target := Profile.daily_protein_target scenario_row;
     Profile.daily_carbs_target := Profile.daily_carbs_target scenario_row;
     Profile.daily_fat_target := Profile.daily_fat_target scenario_row;
     Profile.unit_system := Profile.unit_system scenario_row;
     Profile.onboarding_completed := Profile.onboarding_completed scenario_row;
     Profile.created_at := Profile.created_at scenario_row;
     Profile.updated_at := Profile.updated_at scenario_row |}.

(** * Facts about binary64 arithmetic *)

Section FloatFacts.


Lemma digits2_pos_bounds (p : positive) :
  2 ^ (Zpos (digits2_pos p) - 1) <= Zpos p < 2 ^ Zpos (digits2_pos p).
Proof.
  induction p as [p IH | p IH | ]; cbn [digits2_pos].
  - rewrite Pos2Z.inj_succ.
    replace (Z.succ (Zpos (digits2_pos p)) - 1) with (Z.succ (Zpos (digits2_pos p) - 1)) by lia.
    rewrite !Z.pow_succ_r by lia. lia.
  - rewrite Pos2Z.inj_succ.
    replace (Z.succ (Zpos (digits2_pos p)) - 1) with (Z.succ (Zpos (digits2_pos p) - 1)) by lia.
    rewrite !Z.pow_succ_r by lia. lia.
  - cbn. lia.
Qed.

Lemma digits2_pos_unique (p : positive) (d : Z) :
  2 ^ (d - 1) <= Zpos p < 2 ^ d -> Zpos (digits2_pos p) = d.
Proof.
  intros [Hlo Hhi].
  pose proof (digits2_pos_bounds p) as [Blo Bhi].
  assert (0 < d).
  { destruct (Z_lt_le_dec 0 d); [assumption|].
    destruct (Z.eq_dec d 0) as [->|]; [cbn in Hhi; lia|].
    rewrite Z.pow_neg_r in Hhi by lia. lia. }
  destruct (Z.lt_trichotomy (Zpos (digits2_pos p)) d) as [Hlt | [Heq | Hgt]]; [|assumption|].
  - assert (2 ^ Zpos (digits2_pos p) <= 2 ^ (d - 1)) by (apply Z.pow_le_mono_r; lia). lia.
  - assert (2 ^ d <= 2 ^ (Zpos (digits2_pos p) - 1)) by (apply Z.pow_le_mono_r; lia). lia.
Qed.

Lemma iter_pos_nat {A} (f : A -> A) (p : positive) (x : A) :
  iter_pos f p x = Nat.iter (Pos.to_nat p) f x.
Proof.
  revert x. induction p as [p IH | p IH | ]; intros x; cbn [iter_pos].
  - rewrite !IH.
    replace (Pos.to_nat p~1) with (Pos.to_nat p + (Pos.to_nat p + 1))%nat by lia.
    rewrite !Nat.iter_add. reflexivity.
  - rewrite !IH.
    replace (Pos.to_nat p~0) with (Pos.to_nat p + Pos.to_nat p)%nat by lia.
    rewrite Nat.iter_add. reflexivity.
  - reflexivity.
Qed.

(** One right shift: the mantissa is halved, the round bit is the bit
    shifted out, the sticky bit remembers everything shifted out before. *)
Lemma shr_1_spec (m : Z) (r s : bool) :
  0 <= m ->
  shr_1 (Build_shr_record m r s) = Build_shr_record (m / 2) (Z.odd m) (r || s).
Proof.
  intros Hm. destruct m as [|[p|p|]|p]; try lia; cbn [shr_1].
  - reflexivity.
  - f_equal. change (Zpos p~1) with (2 * Zpos p + 1).
    apply Z.div_unique with 1; lia.
  - f_equal. change (Zpos p~0) with (2 * Zpos p).
    apply Z.div_unique with 0; lia.
  - reflexivity.
Qed.

Lemma shr_iter_spec (m : Z) (n : nat) :
  0 <= m ->
  Nat.iter (S n) shr_1 (Build_shr_record m false false) =
  Build_shr_record (m / 2 ^ Z.of_nat (S n))
                   (Z.odd (m / 2 ^ Z.of_nat n))
                   (negb (m mod 2 ^ Z.of_nat n =? 0)).
Proof.
  intros Hm. induction n as [|n IH].
  - cbn [Nat.iter]. rewrite shr_1_spec by assumption.
    change (Z.of_nat 1) with 1. change (Z.of_nat 0) with 0.
    rewrite Z.pow_1_r, Z.pow_0_r, Z.div_1_r, Z.mod_1_r. reflexivity.
  - rewrite Nat.iter_succ, IH.
    assert (0 < 2 ^ Z.of_nat n) by (apply Z.pow_pos_nonneg; lia).
    assert (0 < 2 ^ Z.of_nat (S n)) by (apply Z.pow_pos_nonneg; lia).
    rewrite shr_1_spec by (apply Z.div_pos; lia).
    f_equal.
    + rewrite Z.div_div by lia.
      f_equal. rewrite (Nat2Z.inj_succ (S n)), Z.pow_succ_r by lia. lia.
    + (* sticky *)
      rewrite (Nat2Z.inj_succ n), Z.pow_succ_r by lia.
      set (a := 2 ^ Z.of_nat n) in *.
      pose proof (Z.div_mod m a ltac:(lia)) as Hd.
      pose proof (Z.mod_pos_bound m a ltac:(lia)).
      set (q := m / a) in *. set (r := m mod a) in *.
      pose proof (Zodd_even_bool q) as Hq.
      pose proof (Z.div_mod q 2 ltac:(lia)) as Hq2.
      pose proof (Z.mod_pos_bound q 2 ltac:(lia)).
      assert (Hm2 : m mod (2 * a) = a * (q mod 2) + r).
      { symmetry. apply Z.mod_unique with (q / 2); [left; nia|]. nia. }
      rewrite Hm2.
      rewrite (Zmod_odd q). clear IH Hq.
      destruct (Z.odd q).
      * replace (a * 1 + r =? 0) with false by (symmetry; apply Z.eqb_neq; lia).
        reflexivity.
      * replace (a * 0 + r) with r by lia. reflexivity.
Qed.

Lemma rne_0 (P : Z) : rne P 0 = P.
Proof.
  unfold rne. rewrite Z.pow_0_r, Z.div_1_r, Z.mod_1_r. reflexivity.
Qed.

(** Shifting right by [k] bits and rounding by the two bits kept is
    rounding to nearest, ties to even, of [m / 2^k]. *)
Lemma shr_round (m e k : Z) :
  0 <= m ->
  let '(mrs, e') := shr (shr_record_of_loc m loc_Exact) e k in
  round_nearest_even (shr_m mrs) (loc_of_shr_record mrs) = rne m (Z.max k 0)
  /\ shr_m mrs = m / 2 ^ Z.max k 0
  /\ e' = e + Z.max k 0.
Proof.
  intros Hm. unfold shr. destruct k as [|p|p]; cbn [shr_record_of_loc].
  - cbn [shr_m loc_of_shr_record round_nearest_even Z.max Z.compare].
    rewrite rne_0, Z.pow_0_r, Z.div_1_r. repeat split; lia.
  - rewrite iter_pos_nat.
    destruct (Pos2Nat.is_succ p) as [n Hn]. rewrite Hn.
    rewrite shr_iter_spec by assumption.
    assert (Hk : Z.max (Zpos p) 0 = Z.of_nat (S n)) by lia.
    rewrite Hk. cbn [shr_m].
    split; [|split; [reflexivity | lia]].
    unfold rne.
    rewrite (Nat2Z.inj_succ n), Z.pow_succ_r by lia.
    set (a := 2 ^ Z.of_nat n).
    assert (0 < a) by (apply Z.pow_pos_nonneg; lia).
    pose proof (Z.div_mod m a ltac:(lia)) as Hd.
    pose proof (Z.mod_pos_bound m a ltac:(lia)).
    set (q := m / a) in *. set (r := m mod a) in *.
    pose proof (Z.div_mod q 2 ltac:(lia)) as Hq2.
    pose proof (Z.mod_pos_bound q 2 ltac:(lia)).
    assert (Hm2 : m mod (2 * a) = a * (q mod 2) + r).
    { symmetry. apply Z.mod_unique with (q / 2); [left; nia|]. nia. }
    assert (Hd2 : m / (2 * a) = q / 2).
    { symmetry. apply Z.div_unique with (a * (q mod 2) + r); [left; nia|]. nia. }
    rewrite Hm2, Hd2. rewrite (Zmod_odd q).
    destruct (Z.odd q); destruct (Z.eqb_spec r 0) as [E1|E1]; cbn [negb loc_of_shr_record round_nearest_even].
    + rewrite E1.
      replace (2 * (a * 1 + 0) <? 2 * a) with false by (symmetry; apply Z.ltb_ge; lia).
      replace (2 * a <? 2 * (a * 1 + 0)) with false by (symmetry; apply Z.ltb_ge; lia).
      reflexivity.
    + replace (2 * (a * 1 + r) <? 2 * a) with false by (symmetry; apply Z.ltb_ge; lia).
      replace (2 * a <? 2 * (a * 1 + r)) with true by (symmetry; apply Z.ltb_lt; lia).
      reflexivity.
    + replace (2 * (a * 0 + r) <? 2 * a) with true by (symmetry; apply Z.ltb_lt; lia).
      reflexivity.
    + replace (2 * (a * 0 + r) <? 2 * a) with true by (symmetry; apply Z.ltb_lt; lia).
      reflexivity.
  - cbn [shr_m loc_of_shr_record round_nearest_even Z.max Z.compare].
    rewrite rne_0, Z.pow_0_r, Z.div_1_r. repeat split; lia.
Qed.

Lemma binary_round_aux_model (s : bool) (P e : Z) :
  0 <= P ->
  binary_round_aux prec emax s P e loc_Exact = round_model s P e.
Proof.
  intros HP. unfold binary_round_aux, round_model, shr_fexp.
  pose proof (shr_round P e (fexp prec emax (Zdigits2 P + e) - e) HP) as H1.
  destruct (shr _ e _) as [mrs' e'].
  destruct H1 as (Hr & _ & He').
  rewrite Hr.
  replace (Z.max e (fexp prec emax (Zdigits2 P + e)) - e)
    with (Z.max (fexp prec emax (Zdigits2 P + e) - e) 0) by lia.
  set (q := rne P _) in *.
  assert (Hq : 0 <= q).
  { unfold q, rne.
    assert (0 <= P / 2 ^ Z.max (fexp prec emax (Zdigits2 P + e) - e) 0).
    { apply Z.div_pos; [assumption|]. apply Z.pow_pos_nonneg; lia. }
    repeat match goal with |- context [if ?b then _ else _] => destruct b end; lia. }
  replace (Z.max e (fexp prec emax (Zdigits2 P + e))) with e' by lia.
  pose proof (shr_round q e' (fexp prec emax (Zdigits2 q + e') - e') Hq) as H2.
  destruct (shr _ e' _) as [mrs'' e''].
  destruct H2 as (_ & Hm & He'').
  rewrite Hm.
  replace (Z.max e' (fexp prec emax (Zdigits2 q + e')) - e')
    with (Z.max (fexp prec emax (Zdigits2 q + e') - e') 0) by lia.
  replace (Z.max e' (fexp prec emax (Zdigits2 q + e'))) with e'' by lia.
  reflexivity.
Qed.

Lemma Zdigits2_bounds (z : Z) :
  z <> 0 -> 2 ^ (Zdigits2 z - 1) <= Z.abs z < 2 ^ Zdigits2 z.
Proof.
  destruct z as [|p|p]; intros Hz; [congruence| |]; cbn [Zdigits2 Z.abs];
    apply digits2_pos_bounds.
Qed.

Lemma Zdigits2_unique (z d : Z) :
  2 ^ (d - 1) <= Z.abs z < 2 ^ d -> 0 < d -> Zdigits2 z = d.
Proof.
  intros H Hd. destruct z as [|p|p]; cbn [Zdigits2 Z.abs] in *.
  - assert (0 < 2 ^ (d - 1)) by (apply Z.pow_pos_nonneg; lia). lia.
  - now apply digits2_pos_unique.
  - now apply digits2_pos_unique.
Qed.

Lemma Zdigits2_pos (z : Z) : z <> 0 -> 0 < Zdigits2 z.
Proof. destruct z; intros; cbn; lia. Qed.

Lemma Zdigits2_le (z : Z) (k : Z) : 0 <= k -> Z.abs z < 2 ^ k -> Zdigits2 z <= k.
Proof.
  intros Hk Hz. destruct (Z.eq_dec z 0) as [->|Hnz]; [cbn; lia|].
  pose proof (Zdigits2_bounds z Hnz) as [Hlo _].
  destruct (Z_le_gt_dec (Zdigits2 z) k); [assumption|].
  assert (2 ^ k <= 2 ^ (Zdigits2 z - 1)) by (apply Z.pow_le_mono_r; lia). lia.
Qed.

Lemma Zdigits2_shift (z j : Z) :
  z <> 0 -> 0 <= j -> Zdigits2 (z * 2 ^ j) = Zdigits2 z + j.
Proof.
  intros Hz Hj. pose proof (Zdigits2_bounds z Hz) as [Hlo Hhi].
  pose proof (Zdigits2_pos z Hz).
  assert (0 < 2 ^ j) by (apply Z.pow_pos_nonneg; lia).
  apply Zdigits2_unique; [|lia].
  rewrite Z.abs_mul, (Z.abs_eq (2 ^ j)) by lia.
  replace (Zdigits2 z + j - 1) with (Zdigits2 z - 1 + j) by lia.
  rewrite !Z.pow_add_r by lia. split; nia.
Qed.

Lemma rne_exact (n k : Z) : 0 <= k -> rne (n * 2 ^ k) k = n.
Proof.
  intros Hk. unfold rne.
  assert (0 < 2 ^ k) by (apply Z.pow_pos_nonneg; lia).
  rewrite Z.div_mul, Z.mod_mul by lia.
  replace (2 * 0 <? 2 ^ k) with true by (symmetry; apply Z.ltb_lt; lia).
  reflexivity.
Qed.

Lemma fexp_normal (x : Z) : -1021 <= x -> fexp prec emax x = x - prec.
Proof. unfold fexp, SpecFloat.emin, prec, emax. lia. Qed.

(** A mantissa with enough bits, holding [z * 2^j] exactly, rounds to the
    canonical form of [z]. *)
Lemma round_model_canon (s : bool) (z e j : Z) :
  0 < z -> exact_range z e -> 0 <= j -> prec <= Zdigits2 z + j ->
  round_model s (z * 2 ^ j) (e - j) =
  S754_finite s (Z.to_pos (z * 2 ^ (prec - Zdigits2 z))) (e + Zdigits2 z - prec).
Proof.
  intros Hz [Hr He] Hj Hd.
  assert (Hd53 : Zdigits2 z <= prec) by (apply Zdigits2_le; [unfold prec|]; lia).
  pose proof (Zdigits2_pos z ltac:(lia)) as Hdp.
  unfold round_model.
  rewrite Zdigits2_shift by lia.
  rewrite fexp_normal by (unfold prec in *; lia).
  set (d := Zdigits2 z) in *.
  replace (Z.max (e - j) (d + j + (e - j) - prec)) with (e + d - prec) by lia.
  replace (e + d - prec - (e - j)) with (d + j - prec) by lia.
  set (k := d + j - prec).
  replace (z * 2 ^ j) with (z * 2 ^ (prec - d) * 2 ^ k).
  2:{ rewrite <- Z.mul_assoc, <- Z.pow_add_r by (unfold k; lia). do 2 f_equal. unfold k; lia. }
  rewrite rne_exact by (unfold k; lia).
  assert (Hq : Zdigits2 (z * 2 ^ (prec - d)) = prec).
  { rewrite Zdigits2_shift by lia. fold d. lia. }
  rewrite Hq.
  rewrite fexp_normal by (unfold prec in *; lia).
  replace (Z.max (e + d - prec) (prec + (e + d - prec) - prec)) with (e + d - prec) by lia.
  rewrite Z.sub_diag, Z.pow_0_r, Z.div_1_r.
  assert (0 < z * 2 ^ (prec - d)).
  { apply Z.mul_pos_pos; [lia|]. apply Z.pow_pos_nonneg; lia. }
  destruct (z * 2 ^ (prec - d)) as [|m|m] eqn:Em; try lia.
  replace (e + d - prec <=? emax - prec) with true
    by (symmetry; apply Z.leb_le; unfold emax, prec in *; lia).
  reflexivity.
Qed.

Lemma shl_align_spec (m : positive) (e e' : Z) :
  e' <= e ->
  Zpos (fst (shl_align m e e')) = Zpos m * 2 ^ (e - e') /\ snd (shl_align m e e') = e'.
Proof.
  intros H. unfold shl_align.
  destruct (e' - e) as [|p|p] eqn:E; try lia.
  - cbn [fst snd]. replace (e - e') with 0 by lia. rewrite Z.pow_0_r. lia.
  - cbn [fst snd]. split; [|reflexivity].
    change (Pos.iter xO m p) with (shift_pos p m).
    rewrite shift_pos_correct, Z.pow_pos_fold.
    replace (e - e') with (Zpos p) by lia. lia.
Qed.

Lemma shl_align_id (m : positive) (e e' : Z) :
  e <= e' -> shl_align m e e' = (m, e).
Proof.
  intros H. unfold shl_align. destruct (e' - e) eqn:E; try reflexivity. lia.
Qed.

Lemma binary_round_canon (s : bool) (p : positive) (z e j : Z) :
  0 < z -> exact_range z e -> 0 <= j -> Zpos p = z * 2 ^ j ->
  binary_round prec emax s p (e - j) =
  S754_finite s (Z.to_pos (z * 2 ^ (prec - Zdigits2 z))) (e + Zdigits2 z - prec).
Proof.
  intros Hz Hr Hj Hp.
  pose proof Hr as [Hr1 Hr2].
  assert (Hd53 : Zdigits2 z <= prec) by (apply Zdigits2_le; [unfold prec|]; lia).
  pose proof (Zdigits2_pos z ltac:(lia)) as Hdp.
  unfold binary_round.
  change (Zpos (digits2_pos p)) with (Zdigits2 (Zpos p)).
  rewrite Hp, Zdigits2_shift by lia.
  rewrite fexp_normal by (unfold prec in *; lia).
  set (d := Zdigits2 z) in *.
  destruct (Z_le_gt_dec (d + j) prec) as [Hle | Hgt].
  - pose proof (shl_align_spec p (e - j) (d + j + (e - j) - prec) ltac:(lia)) as [Hf Hs].
    destruct (shl_align p (e - j) _) as [mz ez]. cbn [fst snd] in Hf, Hs.
    rewrite binary_round_aux_model by lia.
    rewrite Hf, Hs, Hp.
    replace (z * 2 ^ j * 2 ^ (e - j - (d + j + (e - j) - prec))) with (z * 2 ^ (prec - d)).
    2:{ rewrite <- Z.mul_assoc, <- Z.pow_add_r by lia. do 2 f_equal. lia. }
    replace (d + j + (e - j) - prec) with (e - (prec - d)) by lia.
    rewrite round_model_canon; fold d; try assumption; try lia.
    reflexivity.
  - rewrite shl_align_id by lia.
    rewrite binary_round_aux_model by lia.
    rewrite Hp. apply round_model_canon; fold d; try assumption; lia.
Qed.

Lemma dyadic_canon (z e : Z) : exact_range z e -> dyadic z e = canon z e.
Proof.
  intros Hr. unfold dyadic, canon, binary_normalize.
  destruct z as [|p|p]; [reflexivity| |].
  - replace e with (e - 0) at 1 by lia.
    rewrite (binary_round_canon false p (Zpos p) e 0); try lia; [|assumption].
    reflexivity.
  - replace e with (e - 0) at 1 by lia.
    rewrite (binary_round_canon true p (Zpos p) e 0); try lia.
    + reflexivity.
    + destruct Hr; split; [|assumption]. now rewrite <- Pos2Z.opp_pos, Z.abs_opp in *.
Qed.

(** The canonical form depends on the value only. *)
Lemma dyadic_scale (z e j : Z) :
  exact_range z e -> 0 <= j -> dyadic (z * 2 ^ j) (e - j) = canon z e.
Proof.
  intros Hr Hj. unfold dyadic, canon, binary_normalize.
  assert (0 < 2 ^ j) by (apply Z.pow_pos_nonneg; lia).
  destruct z as [|p|p].
  - reflexivity.
  - destruct (Zpos p * 2 ^ j) as [|q|q] eqn:E; try lia.
    rewrite (binary_round_canon false q (Zpos p) e j); try lia; [|assumption].
    reflexivity.
  - destruct (Zneg p * 2 ^ j) as [|q|q] eqn:E; try lia.
    rewrite (binary_round_canon true q (Zpos p) e j); try lia.
    + reflexivity.
    + destruct Hr; split; [|assumption]. now rewrite <- Pos2Z.opp_pos, Z.abs_opp in *.
Qed.

Lemma Zdigits2_abs (z : Z) : Zdigits2 (Z.abs z) = Zdigits2 z.
Proof. destruct z; reflexivity. Qed.

Lemma Zdigits2_opp (z : Z) : Zdigits2 (- z) = Zdigits2 z.
Proof. destruct z; reflexivity. Qed.

Lemma canon_finite (z e : Z) :
  z <> 0 -> Zdigits2 z <= prec ->
  canon z e = S754_finite (z <? 0) (Z.to_pos (Z.abs z * 2 ^ (prec - Zdigits2 z)))
                          (e + Zdigits2 z - prec)
  /\ Zpos (Z.to_pos (Z.abs z * 2 ^ (prec - Zdigits2 z))) = Z.abs z * 2 ^ (prec - Zdigits2 z).
Proof.
  intros Hz Hd. split.
  - destruct z; [congruence | reflexivity | reflexivity].
  - apply Z2Pos.id. apply Z.mul_pos_pos; [lia|]. apply Z.pow_pos_nonneg; lia.
Qed.

Lemma exact_range_digits (z e : Z) : exact_range z e -> Zdigits2 z <= prec.
Proof. intros [H _]. apply Zdigits2_le; [unfold prec; lia | assumption]. Qed.

Lemma Zdigits2_mul_ge (a b : Z) :
  a <> 0 -> b <> 0 -> Zdigits2 a + Zdigits2 b - 1 <= Zdigits2 (a * b).
Proof.
  intros Ha Hb.
  pose proof (Zdigits2_bounds a Ha) as [La _].
  pose proof (Zdigits2_bounds b Hb) as [Lb _].
  pose proof (Zdigits2_bounds (a * b) ltac:(nia)) as [_ Hab].
  pose proof (Zdigits2_pos a Ha). pose proof (Zdigits2_pos b Hb).
  destruct (Z_le_gt_dec (Zdigits2 a + Zdigits2 b - 1) (Zdigits2 (a * b))); [assumption|].
  assert (2 ^ Zdigits2 (a * b) <= 2 ^ (Zdigits2 a - 1 + (Zdigits2 b - 1))).
  { apply Z.pow_le_mono_r; lia. }
  rewrite Z.pow_add_r in * by lia.
  rewrite Z.abs_mul in Hab.
  assert (0 < 2 ^ (Zdigits2 a - 1)) by (apply Z.pow_pos_nonneg; lia).
  assert (0 < 2 ^ (Zdigits2 b - 1)) by (apply Z.pow_pos_nonneg; lia).
  nia.
Qed.

Lemma xorb_sign (a b : Z) : a <> 0 -> b <> 0 -> xorb (a <? 0) (b <? 0) = (a * b <? 0).
Proof.
  intros. destruct (Z.ltb_spec a 0), (Z.ltb_spec b 0), (Z.ltb_spec (a * b) 0);
    cbn; try reflexivity; nia.
Qed.

(** Multiplication is exact when the product fits the mantissa. *)
Lemma mul_canon (z1 e1 z2 e2 : Z) :
  z1 <> 0 -> z2 <> 0 ->
  exact_range z1 e1 -> exact_range z2 e2 -> exact_range (z1 * z2) (e1 + e2) ->
  SFmul prec emax (canon z1 e1) (canon z2 e2) = canon (z1 * z2) (e1 + e2).
Proof.
  intros H1 H2 R1 R2 R12.
  pose proof (exact_range_digits _ _ R1) as D1.
  pose proof (exact_range_digits _ _ R2) as D2.
  pose proof (exact_range_digits _ _ R12) as D12.
  destruct (canon_finite z1 e1 H1 D1) as [-> M1].
  destruct (canon_finite z2 e2 H2 D2) as [-> M2].
  destruct (canon_finite (z1 * z2) (e1 + e2) ltac:(nia) D12) as [-> _].
  cbn [SFmul]. rewrite binary_round_aux_model by lia.
  rewrite Pos2Z.inj_mul, M1, M2.
  set (d1 := Zdigits2 z1) in *. set (d2 := Zdigits2 z2) in *.
  pose proof (Zdigits2_pos z1 H1). pose proof (Zdigits2_pos z2 H2).
  pose proof (Zdigits2_mul_ge z1 z2 H1 H2) as Hge. fold d1 d2 in Hge.
  replace (Z.abs z1 * 2 ^ (prec - d1) * (Z.abs z2 * 2 ^ (prec - d2)))
    with (Z.abs (z1 * z2) * 2 ^ (2 * prec - d1 - d2)).
  2:{ rewrite Z.abs_mul.
      replace (2 * prec - d1 - d2) with ((prec - d1) + (prec - d2)) by lia.
      rewrite Z.pow_add_r by lia. ring. }
  replace (e1 + d1 - prec + (e2 + d2 - prec)) with (e1 + e2 - (2 * prec - d1 - d2)) by lia.
  rewrite round_model_canon.
  - rewrite Zdigits2_abs, xorb_sign by assumption. reflexivity.
  - nia.
  - destruct R12 as [A B]. split; [|assumption]. now rewrite Z.abs_idemp.
  - lia.
  - rewrite Zdigits2_abs. unfold prec in *. lia.
Qed.

Lemma canon_sign_value (z : Z) (j : Z) :
  cond_Zopp (z <? 0) (Z.abs z * j) = z * j.
Proof. destruct (Z.ltb_spec z 0); cbn [cond_Zopp]; nia. Qed.

Lemma aligned_value (z e ez : Z) :
  z <> 0 -> Zdigits2 z <= prec -> ez <= e + Zdigits2 z - prec ->
  cond_Zopp (z <? 0)
    (Zpos (fst (shl_align (Z.to_pos (Z.abs z * 2 ^ (prec - Zdigits2 z)))
                          (e + Zdigits2 z - prec) ez)))
  = z * 2 ^ (e - ez).
Proof.
  intros Hz Hd He.
  destruct (canon_finite z e Hz Hd) as [_ M].
  destruct (shl_align_spec (Z.to_pos (Z.abs z * 2 ^ (prec - Zdigits2 z)))
              (e + Zdigits2 z - prec) ez He) as [-> _].
  rewrite M, <- Z.mul_assoc, <- Z.pow_add_r by lia.
  replace (prec - Zdigits2 z + (e + Zdigits2 z - prec - ez)) with (e - ez) by lia.
  apply canon_sign_value.
Qed.

(** Addition and subtraction on a common grid are exact when the result
    fits the mantissa. *)
Lemma add_canon (z1 z2 e : Z) :
  exact_range z1 e -> exact_range z2 e -> exact_range (z1 + z2) e ->
  SFadd prec emax (canon z1 e) (canon z2 e) = canon (z1 + z2) e.
Proof.
  intros R1 R2 R12.
  pose proof (exact_range_digits _ _ R1) as D1.
  pose proof (exact_range_digits _ _ R2) as D2.
  destruct (Z.eq_dec z1 0) as [->|H1].
  { destruct z2; reflexivity. }
  destruct (Z.eq_dec z2 0) as [->|H2].
  { rewrite Z.add_0_r. destruct z1; reflexivity. }
  destruct (canon_finite z1 e H1 D1) as [-> _].
  destruct (canon_finite z2 e H2 D2) as [-> _].
  cbn [SFadd].
  set (ez := Z.min _ _).
  pose proof (Zdigits2_pos z1 H1). pose proof (Zdigits2_pos z2 H2).
  rewrite !aligned_value by (try assumption; unfold ez; lia).
  rewrite <- Z.mul_add_distr_r.
  replace ez with (e - (e - ez)) at 2 by lia.
  apply dyadic_scale; [assumption | unfold ez; lia].
Qed.

Lemma canon_opp (z e : Z) : SFopp (canon z e) = canon (- z) e \/ z = 0.
Proof.
  destruct z as [|p|p]; [right; reflexivity | left | left]; reflexivity.
Qed.

Lemma sub_canon (z1 z2 e : Z) :
  exact_range z1 e -> exact_range z2 e -> exact_range (z1 - z2) e ->
  SFsub prec emax (canon z1 e) (canon z2 e) = canon (z1 - z2) e.
Proof.
  intros R1 R2 R12.
  pose proof (exact_range_digits _ _ R1) as D1.
  pose proof (exact_range_digits _ _ R2) as D2.
  destruct (Z.eq_dec z2 0) as [->|H2].
  { rewrite Z.sub_0_r. destruct z1; reflexivity. }
  destruct (Z.eq_dec z1 0) as [->|H1].
  { destruct z2; try congruence; reflexivity. }
  destruct (canon_finite z1 e H1 D1) as [-> _].
  destruct (canon_finite z2 e H2 D2) as [-> _].
  cbn [SFsub].
  set (ez := Z.min _ _).
  pose proof (Zdigits2_pos z1 H1). pose proof (Zdigits2_pos z2 H2).
  rewrite !aligned_value by (try assumption; unfold ez; lia).
  rewrite <- Z.mul_sub_distr_r.
  replace ez with (e - (e - ez)) at 2 by lia.
  apply dyadic_scale; [assumption | unfold ez; lia].
Qed.

Lemma canon_scale (z e j : Z) :
  exact_range z e -> exact_range (z * 2 ^ j) (e - j) -> 0 <= j ->
  canon z e = canon (z * 2 ^ j) (e - j).
Proof.
  intros R1 R2 Hj. rewrite <- (dyadic_scale z e j R1 Hj). now apply dyadic_canon.
Qed.

Lemma of_Z_canon (z : Z) : Z.abs z < 2 ^ prec -> of_Z z = canon z 0.
Proof. intros H. apply dyadic_canon. split; [assumption | lia]. Qed.

Lemma int_range (z : Z) : Z.abs z < 2 ^ prec -> exact_range z 0.
Proof. intros H. split; [assumption | lia]. Qed.

(** Integers that fit the mantissa multiply, add and subtract exactly. *)
Lemma mul_int (a b : Z) :
  (a = 0 -> 0 <= b) -> (b = 0 -> 0 <= a) -> Z.abs (a * b) < 2 ^ prec ->
  mul (canon a 0) (canon b 0) = canon (a * b) 0.
Proof.
  intros Ha Hb Hab.
  destruct (Z.eq_dec a 0) as [->|Ha0].
  { destruct b; try reflexivity. lia. }
  destruct (Z.eq_dec b 0) as [->|Hb0].
  { rewrite Z.mul_0_r. destruct a; try lia; reflexivity. }
  apply (mul_canon a 0 b 0); try assumption; apply int_range; nia.
Qed.

Lemma add_int (a b : Z) :
  Z.abs a < 2 ^ prec -> Z.abs b < 2 ^ prec -> Z.abs (a + b) < 2 ^ prec ->
  add (canon a 0) (canon b 0) = canon (a + b) 0.
Proof. intros. apply add_canon; now apply int_range. Qed.

Lemma sub_int (a b : Z) :
  Z.abs a < 2 ^ prec -> Z.abs b < 2 ^ prec -> Z.abs (a - b) < 2 ^ prec ->
  sub (canon a 0) (canon b 0) = canon (a - b) 0.
Proof. intros. apply sub_canon; now apply int_range. Qed.

Lemma Math_max_0_int (z : Z) :
  Math_max (canon 0 0) (canon z 0) = canon (Z.max 0 z) 0.
Proof. destruct z; reflexivity. Qed.

Lemma Math_abs_canon (z e : Z) : Math_abs (canon z e) = canon (Z.abs z) e.
Proof. destruct z; reflexivity. Qed.

(** Dividing an integer by 4 moves it to the grid of quarters. *)
Lemma div_4_int (z : Z) :
  Z.abs z < 2 ^ prec -> div (canon z 0) (of_Z 4) = canon z (-2).
Proof.
  intros Hz.
  destruct (Z.eq_dec z 0) as [->|Hnz]; [reflexivity|].
  pose proof (exact_range_digits z 0 (int_range z Hz)) as Hd.
  pose proof (Zdigits2_pos z Hnz) as Hdp.
  destruct (canon_finite z 0 Hnz Hd) as [-> HM].
  destruct (canon_finite z (-2) Hnz Hd) as [-> _].
  set (M := Z.to_pos _) in *.
  assert (HdM : Zdigits2 (Zpos M) = prec).
  { rewrite HM, Zdigits2_shift, Zdigits2_abs by lia. lia. }
  change (of_Z 4) with (S754_finite false 4503599627370496 (-50)).
  unfold div. cbn [SFdiv]. unfold SFdiv_core_binary.
  rewrite HdM.
  change (Zdigits2 4503599627370496) with prec.
  rewrite fexp_normal by (unfold prec in *; lia).
  set (E := 0 + Zdigits2 z - prec) in *.
  replace (Z.min (prec + E - (prec + -50) - prec) (E - -50)) with (E - 3)
    by (unfold prec; lia).
  replace (E - -50 - (E - 3)) with 53 by lia.
  rewrite Z.shiftl_mul_pow2 by lia.
  destruct (Z.div_eucl (Zpos M * 2 ^ 53) 4503599627370496) as [q r] eqn:Hqr.
  pose proof (Z_div_mod (Zpos M * 2 ^ 53) 4503599627370496 ltac:(lia)) as Hdm.
  rewrite Hqr in Hdm. change (2 ^ 53) with 9007199254740992 in Hdm.
  assert (r = 0 /\ q = 2 * Zpos M) as [-> ->] by lia.
  change (new_location 4503599627370496 0) with loc_Exact.
  cbn [xorb]. rewrite Bool.xorb_false_r.
  rewrite binary_round_aux_model by lia.
  rewrite HM.
  replace (2 * (Z.abs z * 2 ^ (prec - Zdigits2 z)))
    with (Z.abs z * 2 ^ (prec + 1 - Zdigits2 z)).
  2:{ replace (prec + 1 - Zdigits2 z) with (Z.succ (prec - Zdigits2 z)) by lia.
      rewrite Z.pow_succ_r by lia. ring. }
  replace (E - 3) with (-2 - (prec + 1 - Zdigits2 z)) by (unfold E, prec; lia).
  rewrite round_model_canon.
  - rewrite Zdigits2_abs. reflexivity.
  - lia.
  - split; [now rewrite Z.abs_idemp | lia].
  - lia.
  - rewrite Zdigits2_abs. unfold prec. lia.
Qed.

(** [Math.round] of [z/4], [z >= 0], is [floor ((z + 2) / 4)]. *)
Lemma Math_round_quarters (z : Z) :
  0 <= z < 2 ^ prec -> Math_round (canon z (-2)) = canon ((z + 2) / 4) 0.
Proof.
  intros Hz.
  destruct (Z.eq_dec z 0) as [->|Hnz]; [reflexivity|].
  assert (Hr : Z.abs z < 2 ^ prec) by lia.
  pose proof (exact_range_digits z 0 (int_range z Hr)) as Hd.
  pose proof (Zdigits2_pos z Hnz) as Hdp.
  destruct (canon_finite z (-2) Hnz Hd) as [-> HM].
  replace (z <? 0) with false by (symmetry; apply Z.ltb_ge; lia).
  cbn [Math_round].
  replace (0 <=? -2 + Zdigits2 z - prec) with false
    by (symmetry; apply Z.leb_gt; unfold prec in *; lia).
  assert (Hn : round_Z false (Z.to_pos (Z.abs z * 2 ^ (prec - Zdigits2 z)))
                 (-2 + Zdigits2 z - prec) = (z + 2) / 4).
  { unfold round_Z. cbn [cond_Zopp]. rewrite HM, Z.shiftr_div_pow2 by (unfold prec in *; lia).
    rewrite Z.abs_eq by lia.
    set (k := prec + 1 - Zdigits2 z).
    assert (Hk : 0 <= k) by (unfold k; lia).
    assert (0 < 2 ^ k) by (apply Z.pow_pos_nonneg; lia).
    replace (2 * (z * 2 ^ (prec - Zdigits2 z))) with (z * 2 ^ k).
    2:{ unfold k. replace (prec + 1 - Zdigits2 z) with (Z.succ (prec - Zdigits2 z)) by lia.
        rewrite Z.pow_succ_r by lia. ring. }
    replace (- (-2 + Zdigits2 z - prec)) with (Z.succ k) by (unfold k; lia).
    replace (1 - (-2 + Zdigits2 z - prec)) with (Z.succ (Z.succ k)) by (unfold k; lia).
    rewrite !Z.pow_succ_r by lia.
    replace (z * 2 ^ k + 2 * 2 ^ k) with ((z + 2) * 2 ^ k) by ring.
    replace (2 * (2 * 2 ^ k)) with (4 * 2 ^ k) by ring.
    apply Z.div_mul_cancel_r; lia. }
  rewrite Hn.
  assert (Hq : 0 <= (z + 2) / 4 < 2 ^ prec).
  { split; [apply Z.div_pos; lia|].
    apply Z.div_lt_upper_bound; unfold prec in *; lia. }
  destruct ((z + 2) / 4) as [|n|n] eqn:En; [reflexivity | | lia].
  apply of_Z_canon. lia.
Qed.


Lemma Zdigits2_mono (a b : Z) : 0 < a -> a <= b -> Zdigits2 a <= Zdigits2 b.
Proof.
  intros Ha Hab.
  pose proof (Zdigits2_bounds a ltac:(lia)) as [La _].
  pose proof (Zdigits2_bounds b ltac:(lia)) as [_ Hb].
  pose proof (Zdigits2_pos a ltac:(lia)). pose proof (Zdigits2_pos b ltac:(lia)).
  destruct (Z_le_gt_dec (Zdigits2 a) (Zdigits2 b)); [assumption|].
  assert (2 ^ Zdigits2 b <= 2 ^ (Zdigits2 a - 1)) by (apply Z.pow_le_mono_r; lia).
  lia.
Qed.

(** On one grid the order of canonical forms is the order of the integers. *)
Lemma compare_canon_pos (a b e : Z) :
  0 < a < 2 ^ prec -> 0 < b < 2 ^ prec ->
  match Z.compare (e + Zdigits2 a - prec) (e + Zdigits2 b - prec) with
  | Lt => Lt
  | Gt => Gt
  | Eq => Pos.compare_cont Eq (Z.to_pos (Z.abs a * 2 ^ (prec - Zdigits2 a)))
                              (Z.to_pos (Z.abs b * 2 ^ (prec - Zdigits2 b)))
  end = Z.compare a b.
Proof.
  intros Ha Hb.
  pose proof (Zdigits2_le a prec ltac:(unfold prec; lia) ltac:(lia)) as Da.
  pose proof (Zdigits2_le b prec ltac:(unfold prec; lia) ltac:(lia)) as Db.
  destruct (canon_finite a e ltac:(lia) Da) as [_ Ma].
  destruct (canon_finite b e ltac:(lia) Db) as [_ Mb].
  destruct (Z.compare_spec (e + Zdigits2 a - prec) (e + Zdigits2 b - prec)) as [E|E|E].
  - change (Pos.compare_cont Eq ?x ?y) with (Z.compare (Zpos x) (Zpos y)).
    rewrite Ma, Mb. replace (Zdigits2 b) with (Zdigits2 a) by lia.
    rewrite !Z.abs_eq by lia.
    assert (0 < 2 ^ (prec - Zdigits2 a)) by (apply Z.pow_pos_nonneg; lia).
    destruct (Z.compare_spec a b); [subst; apply Z.compare_refl | |].
    + apply Z.compare_lt_iff. nia.
    + apply Z.compare_gt_iff. nia.
  - symmetry. apply Z.compare_lt_iff.
    destruct (Z_lt_le_dec a b); [assumption|].
    pose proof (Zdigits2_mono b a ltac:(lia) ltac:(lia)). lia.
  - symmetry. apply Z.compare_gt_iff.
    destruct (Z_lt_le_dec b a); [assumption|].
    pose proof (Zdigits2_mono a b ltac:(lia) ltac:(lia)). lia.
Qed.

Lemma compare_canon (a b e : Z) :
  Z.abs a < 2 ^ prec -> Z.abs b < 2 ^ prec ->
  SFcompare (canon a e) (canon b e) = Some (Z.compare a b).
Proof.
  intros Ha Hb.
  destruct a as [|a|a], b as [|b|b]; try reflexivity.
  - unfold canon. cbn [SFcompare Z.ltb Z.compare]. f_equal.
    apply (compare_canon_pos (Zpos a) (Zpos b)); lia.
  - unfold canon. cbn [SFcompare Z.ltb Z.compare]. f_equal.
    pose proof (compare_canon_pos (Zpos a) (Zpos b) e ltac:(lia) ltac:(lia)) as H.
    cbn [Z.abs Zdigits2] in *.
    destruct (Z.compare _ _); cbn [Z.compare] in H.
    + rewrite H. reflexivity.
    + cbn in H. rewrite <- H. reflexivity.
    + cbn in H. rewrite <- H. reflexivity.
Qed.

Lemma leb_canon (a b e : Z) :
  Z.abs a < 2 ^ prec -> Z.abs b < 2 ^ prec ->
  leb (canon a e) (canon b e) = (a <=? b).
Proof.
  intros Ha Hb. unfold leb, SFleb. rewrite compare_canon by assumption.
  unfold Z.leb. destruct (a ?= b); reflexivity.
Qed.

Lemma ltb_canon (a b e : Z) :
  Z.abs a < 2 ^ prec -> Z.abs b < 2 ^ prec ->
  ltb (canon a e) (canon b e) = (a <? b).
Proof.
  intros Ha Hb. unfold ltb, SFltb. rewrite compare_canon by assumption.
  unfold Z.ltb. destruct (a ?= b); reflexivity.
Qed.


Lemma SFcompare_antisym (x y : spec_float) :
  SFcompare y x = option_map CompOpp (SFcompare x y).
Proof.
  destruct x as [sx|sx| |sx mx ex], y as [sy|sy| |sy my ey];
    try destruct sx; try destruct sy; try reflexivity;
    cbn [SFcompare option_map]; f_equal;
    change (Pos.compare_cont Eq ?a ?b) with (Z.compare (Zpos a) (Zpos b));
    destruct (Z.compare_spec ex ey); destruct (Z.compare_spec ey ex);
    try lia; try reflexivity;
    destruct (Z.compare_spec (Zpos mx) (Zpos my));
    destruct (Z.compare_spec (Zpos my) (Zpos mx));
    cbn [CompOpp]; try lia; reflexivity.
Qed.

Lemma SFleb_trans (x y z : spec_float) :
  SFleb x y = true -> SFleb y z = true -> SFleb x z = true.
Proof.
  unfold SFleb.
  destruct x as [sx|sx| |sx mx ex], y as [sy|sy| |sy my ey], z as [sz|sz| |sz mz ez];
    try destruct sx; try destruct sy; try destruct sz;
    cbn [SFcompare]; try reflexivity; try discriminate;
    change (Pos.compare_cont Eq ?a ?b) with (Z.compare (Zpos a) (Zpos b));
    destruct (Z.compare_spec ex ey); destruct (Z.compare_spec ey ez);
    destruct (Z.compare_spec ex ez); try lia; try reflexivity; try discriminate;
    destruct (Z.compare_spec (Zpos mx) (Zpos my));
    destruct (Z.compare_spec (Zpos my) (Zpos mz));
    destruct (Z.compare_spec (Zpos mx) (Zpos mz));
    cbn [CompOpp]; try lia; try reflexivity; try discriminate.
Qed.

(** ** Rounding from any location *)

Lemma shr_m_iter (m : Z) (r s : bool) (n : nat) :
  0 <= m ->
  shr_m (Nat.iter n shr_1 (Build_shr_record m r s)) = m / 2 ^ Z.of_nat n.
Proof.
  revert m r s. induction n as [|n IH]; intros m r s Hm.
  - cbn. now rewrite Z.div_1_r.
  - rewrite Nat.iter_succ_r, shr_1_spec by assumption.
    rewrite IH by (apply Z.div_pos; lia).
    rewrite Z.div_div by (try apply Z.pow_pos_nonneg; lia).
    f_equal. rewrite Nat2Z.inj_succ, Z.pow_succ_r by lia. reflexivity.
Qed.

Lemma shr_general (m e k : Z) (l : location) :
  0 <= m ->
  shr_m (fst (shr (shr_record_of_loc m l) e k)) = m / 2 ^ Z.max k 0
  /\ snd (shr (shr_record_of_loc m l) e k) = e + Z.max k 0.
Proof.
  intros Hm. unfold shr. destruct k as [|p|p]; cbn [fst snd Z.max Z.compare].
  - rewrite Z.pow_0_r, Z.div_1_r. split; [|lia]. destruct l as [|[]]; reflexivity.
  - rewrite iter_pos_nat. split; [|reflexivity].
    replace (Zpos p) with (Z.of_nat (Pos.to_nat p)) by lia.
    destruct l as [|[]]; cbn [shr_record_of_loc]; apply shr_m_iter; assumption.
  - rewrite Z.pow_0_r, Z.div_1_r. split; [|lia]. destruct l as [|[]]; reflexivity.
Qed.

Lemma round_nearest_even_bounds (q : Z) (l : location) :
  q <= round_nearest_even q l <= q + 1.
Proof.
  destruct l as [|[]]; cbn [round_nearest_even]; try lia.
  destruct (Z.even q); lia.
Qed.

(** Whatever the location, rounding keeps the shifted mantissa or adds
    one, and finishes with [round_tail]. *)
Lemma binary_round_aux_general (s : bool) (m e : Z) (l : location) :
  0 <= m ->
  exists q : Z,
    m / 2 ^ Z.max (fexp prec emax (Zdigits2 m + e) - e) 0 <= q
      <= m / 2 ^ Z.max (fexp prec emax (Zdigits2 m + e) - e) 0 + 1
    /\ binary_round_aux prec emax s m e l
       = round_tail s q (e + Z.max (fexp prec emax (Zdigits2 m + e) - e) 0).
Proof.
  intros Hm. unfold binary_round_aux, shr_fexp.
  pose proof (shr_general m e (fexp prec emax (Zdigits2 m + e) - e) l Hm) as [H1 H2].
  destruct (shr (shr_record_of_loc m l) e _) as [mrs' e']. cbn [fst snd] in H1, H2.
  set (k := Z.max (fexp prec emax (Zdigits2 m + e) - e) 0) in *.
  set (q := round_nearest_even (shr_m mrs') (loc_of_shr_record mrs')).
  pose proof (round_nearest_even_bounds (shr_m mrs') (loc_of_shr_record mrs')) as Hq.
  fold q in Hq. rewrite H1 in Hq.
  assert (0 <= m / 2 ^ k).
  { apply Z.div_pos; [assumption|]. apply Z.pow_pos_nonneg; unfold k; lia. }
  exists q. split; [assumption|].
  pose proof (shr_general q e' (fexp prec emax (Zdigits2 q + e') - e') loc_Exact ltac:(lia))
    as [H3 H4].
  destruct (shr (shr_record_of_loc q loc_Exact) e' _) as [mrs'' e''].
  cbn [fst snd] in H3, H4.
  unfold round_tail. rewrite H3, H4, H2.
  replace (Z.max (e + k) (fexp prec emax (Zdigits2 q + (e + k))) - (e + k))
    with (Z.max (fexp prec emax (Zdigits2 q + (e + k)) - (e + k)) 0) by lia.
  replace (Z.max (e + k) (fexp prec emax (Zdigits2 q + (e + k))))
    with (e + k + Z.max (fexp prec emax (Zdigits2 q + (e + k)) - (e + k)) 0) by lia.
  reflexivity.
Qed.

Lemma round_tail_not_nan (s : bool) (q E : Z) :
  0 <= q -> is_nan (round_tail s q E) = false.
Proof.
  intros Hq. unfold round_tail.
  set (E' := Z.max E _).
  assert (0 <= q / 2 ^ (E' - E)).
  { apply Z.div_pos; [assumption|]. apply Z.pow_pos_nonneg; unfold E'; lia. }
  destruct (q / 2 ^ (E' - E)); try lia; try reflexivity.
  destruct (E' <=? emax - prec); reflexivity.
Qed.

Lemma binary_round_aux_not_nan (s : bool) (m e : Z) (l : location) :
  0 <= m -> is_nan (binary_round_aux prec emax s m e l) = false.
Proof.
  intros Hm. destruct (binary_round_aux_general s m e l Hm) as (q & Hq & ->).
  apply round_tail_not_nan.
  assert (0 <= m / 2 ^ Z.max (fexp prec emax (Zdigits2 m + e) - e) 0).
  { apply Z.div_pos; [assumption|]. apply Z.pow_pos_nonneg; lia. }
  lia.
Qed.

Lemma binary_round_aux_sign (s : bool) (m e : Z) (l : location) :
  sign_is s (binary_round_aux prec emax s m e l).
Proof.
  unfold binary_round_aux.
  destruct (shr_fexp prec emax m e l) as [mrs' e'].
  destruct (shr_fexp prec emax _ e' loc_Exact) as [mrs'' e''].
  destruct (shr_m mrs''); unfold sign_is; try reflexivity; try exact I.
  destruct (e'' <=? emax - prec); reflexivity.
Qed.

Lemma binary_round_sign (s : bool) (m : positive) (e : Z) :
  sign_is s (binary_round prec emax s m e).
Proof.
  unfold binary_round. destruct (shl_align m e _) as [mz ez].
  apply binary_round_aux_sign.
Qed.

Lemma binary_round_not_nan (s : bool) (m : positive) (e : Z) :
  is_nan (binary_round prec emax s m e) = false.
Proof.
  unfold binary_round. destruct (shl_align m e _) as [mz ez].
  apply binary_round_aux_not_nan. lia.
Qed.

Lemma binary_normalize_not_nan (z e : Z) :
  is_nan (binary_normalize prec emax z e false) = false.
Proof.
  destruct z; cbn [binary_normalize]; [reflexivity | |]; apply binary_round_not_nan.
Qed.

(** ** NaN propagation *)

Lemma mul_not_nan (x y : number) :
  is_nan x = false -> is_finite y = true -> truthy y = true ->
  is_nan (mul x y) = false.
Proof.
  intros Hx Hy Ht.
  destruct x as [sx|sx| |sx mx ex], y as [sy|sy| |sy my ey]; try discriminate;
    try reflexivity.
  apply binary_round_aux_not_nan. lia.
Qed.

Lemma sub_nan_l (x y : number) : is_nan (sub x y) = false -> is_nan x = false.
Proof. destruct x; try reflexivity. cbn. trivial. Qed.

Lemma Math_abs_nan (x : number) : is_nan (Math_abs x) = is_nan x.
Proof. destruct x; reflexivity. Qed.

Lemma compare_not_nan (x y : number) :
  is_nan x = false -> is_nan y = false -> exists c, SFcompare x y = Some c.
Proof.
  intros Hx Hy. destruct x, y; try discriminate; cbn [SFcompare]; eexists; reflexivity.
Qed.

Lemma leb_of_compare (x y : number) (c : comparison) :
  SFcompare x y = Some c -> leb x y = match c with Gt => false | _ => true end.
Proof. intros H. unfold leb, SFleb. rewrite H. destruct c; reflexivity. Qed.

(** For numbers, [d <= t || d <= c] is [d <= Math.max(t, c)]. *)
Lemma leb_or_max (d t c : number) :
  is_nan t = false -> is_nan c = false ->
  (leb d t || leb d c)%bool = leb d (Math_max t c).
Proof.
  intros Ht Hc.
  destruct (compare_not_nan t c Ht Hc) as [o Ho].
  pose proof (SFcompare_antisym t c) as Ha. rewrite Ho in Ha. cbn [option_map] in Ha.
  pose proof (leb_of_compare _ _ _ Ho) as Htc.
  pose proof (leb_of_compare _ _ _ Ha) as Hct.
  unfold Math_max. rewrite Ho.
  destruct o; cbn [CompOpp] in *.
  - assert (E : leb d t = leb d c).
    { destruct (leb d t) eqn:E1, (leb d c) eqn:E2; try reflexivity.
      - rewrite <- E2. symmetry. apply (SFleb_trans d t c); assumption.
      - rewrite <- E1. apply (SFleb_trans d c t); assumption. }
    rewrite E, Bool.orb_diag.
    destruct t as [[]| | |]; congruence.
  - destruct (leb d t) eqn:E1; [|reflexivity].
    cbn. symmetry. apply (SFleb_trans d t c); assumption.
  - destruct (leb d c) eqn:E2; [|now rewrite Bool.orb_false_r].
    rewrite Bool.orb_true_r. symmetry. apply (SFleb_trans d c t); assumption.
Qed.

Lemma Math_max_nan (x y : number) :
  is_nan x = false -> is_nan y = false -> is_nan (Math_max x y) = false.
Proof.
  intros Hx Hy. destruct (compare_not_nan x y Hx Hy) as [c Hc].
  unfold Math_max. rewrite Hc. destruct c; try assumption.
  destruct x as [[]| | |]; assumption.
Qed.

Lemma leb_negb_ltb (x y : number) :
  is_nan x = false -> is_nan y = false -> leb x y = negb (ltb y x).
Proof.
  intros Hx Hy. destruct (compare_not_nan x y Hx Hy) as [c Hc].
  pose proof (SFcompare_antisym x y) as Ha. rewrite Hc in Ha.
  unfold leb, ltb, SFleb, SFltb. rewrite Hc, Ha.
  destruct c; reflexivity.
Qed.

(** ** Signs *)

Lemma Math_max_0_sign (x : number) : sign_is false (Math_max (of_Z 0) x).
Proof.
  destruct x as [s|s| |s m e]; try destruct s; cbn; trivial.
Qed.

Lemma div_pos_sign (x y : number) :
  sign_is false x -> sign_is false y -> sign_is false (div x y).
Proof.
  destruct x as [sx|sx| |sx mx ex], y as [sy|sy| |sy my ey]; cbn [sign_is];
    intros Hx Hy; subst; try exact I; try reflexivity.
  unfold div. cbn [SFdiv]. destruct (SFdiv_core_binary _ _ _ _ _ _) as [[mz ez] lz].
  apply binary_round_aux_sign.
Qed.

Lemma Math_round_sign (x : number) : sign_is false x -> sign_is false (Math_round x).
Proof.
  destruct x as [sx|sx| |sx mx ex]; cbn [sign_is Math_round]; intros Hx; subst;
    try exact I; try reflexivity.
  destruct (0 <=? ex); [reflexivity|].
  assert (0 <= round_Z false mx ex).
  { unfold round_Z. apply Z.shiftr_nonneg. cbn [cond_Zopp].
    assert (0 <= 2 ^ (- ex)) by (apply Z.pow_nonneg; lia). lia. }
  destruct (round_Z false mx ex) as [|n|n]; try lia; [reflexivity|].
  apply binary_round_sign.
Qed.

Lemma sign_plus_not_lt_0 (x : number) : sign_is false x -> ltb x (of_Z 0) = false.
Proof.
  destruct x as [sx|sx| |sx mx ex]; cbn [sign_is]; intros Hx; subst; reflexivity.
Qed.

Lemma sign_plus_ge_0 (x : number) :
  sign_is false x -> is_nan x = false -> leb (of_Z 0) x = true.
Proof.
  destruct x as [sx|sx| |sx mx ex]; cbn [sign_is]; intros Hx Hn; subst;
    try discriminate; reflexivity.
Qed.


(** ** Order and values of normal numbers *)

Lemma ival_pos (x : number) : pos_normal x -> 0 < ival x.
Proof.
  destruct x as [| | |[] m e]; cbn [pos_normal ival cond_Zopp]; try tauto. intros [Hm He].
  apply Z.mul_pos_pos; [lia|]. apply Z.pow_pos_nonneg; lia.
Qed.

Lemma compare_pos_normal (x y : number) :
  pos_normal x -> pos_normal y ->
  SFcompare x y = Some (Z.compare (ival x) (ival y)).
Proof.
  destruct x as [| | |[] mx ex]; cbn [pos_normal]; try tauto.
  destruct y as [| | |[] my ey]; cbn [pos_normal]; try tauto.
  intros [Hx Ex] [Hy Ey]. cbn [SFcompare ival cond_Zopp]. f_equal.
  change (Pos.compare_cont Eq mx my) with (Z.compare (Zpos mx) (Zpos my)).
  assert (Ha : 0 < 2 ^ (ex + 1074)) by (apply Z.pow_pos_nonneg; lia).
  assert (Hb : 0 < 2 ^ (ey + 1074)) by (apply Z.pow_pos_nonneg; lia).
  destruct (Z.compare_spec ex ey) as [E|E|E].
  - subst ey. destruct (Z.compare_spec (Zpos mx) (Zpos my)) as [F|F|F]; symmetry.
    + apply Z.compare_eq_iff. congruence.
    + apply Z.compare_lt_iff. apply Z.mul_lt_mono_pos_r; assumption.
    + apply Z.compare_gt_iff. apply Z.mul_lt_mono_pos_r; assumption.
  - symmetry. apply Z.compare_lt_iff.
    replace (ey + 1074) with ((ex + 1074) + (ey - ex)) by lia.
    rewrite (Z.pow_add_r 2 (ex + 1074) (ey - ex)) by lia.
    assert (Hc : 2 ^ 1 <= 2 ^ (ey - ex)) by (apply Z.pow_le_mono_r; lia).
    change (2 ^ 1) with 2 in Hc.
    set (a := 2 ^ (ex + 1074)) in *. set (c := 2 ^ (ey - ex)) in *.
    assert (Zpos mx * a < 2 ^ 53 * a) by (apply Z.mul_lt_mono_pos_r; lia).
    assert (2 ^ 52 * (a * c) <= Zpos my * (a * c)) by (apply Z.mul_le_mono_nonneg_r; nia).
    assert (a * 2 <= a * c) by (apply Z.mul_le_mono_nonneg_l; lia).
    lia.
  - symmetry. apply Z.compare_gt_iff.
    replace (ex + 1074) with ((ey + 1074) + (ex - ey)) by lia.
    rewrite (Z.pow_add_r 2 (ey + 1074) (ex - ey)) by lia.
    assert (Hc : 2 ^ 1 <= 2 ^ (ex - ey)) by (apply Z.pow_le_mono_r; lia).
    change (2 ^ 1) with 2 in Hc.
    set (a := 2 ^ (ey + 1074)) in *. set (c := 2 ^ (ex - ey)) in *.
    assert (Zpos my * a < 2 ^ 53 * a) by (apply Z.mul_lt_mono_pos_r; lia).
    assert (2 ^ 52 * (a * c) <= Zpos mx * (a * c)) by (apply Z.mul_le_mono_nonneg_r; nia).
    assert (a * 2 <= a * c) by (apply Z.mul_le_mono_nonneg_l; lia).
    lia.
Qed.

Lemma compare_nonneg_normal (x y : number) :
  nonneg_normal x -> nonneg_normal y ->
  SFcompare x y = Some (Z.compare (ival x) (ival y)).
Proof.
  intros [->|Hx] [->|Hy].
  - reflexivity.
  - pose proof (ival_pos y Hy). destruct y as [| | |[] my ey]; cbn [pos_normal] in Hy; try tauto.
    cbn [SFcompare]. f_equal. symmetry. apply Z.compare_lt_iff. exact H.
  - pose proof (ival_pos x Hx). destruct x as [| | |[] mx ex]; cbn [pos_normal] in Hx; try tauto.
    cbn [SFcompare]. f_equal. symmetry. apply Z.compare_gt_iff. exact H.
  - now apply compare_pos_normal.
Qed.

Lemma round_tail_pos_normal (q E : Z) :
  2 ^ 52 <= q <= 2 ^ 53 -> -1074 <= E -> E + 1 <= 971 ->
  pos_normal (round_tail false q E)
  /\ ival (round_tail false q E) = q * 2 ^ (E + 1074)
  /\ E <= exponent_of (round_tail false q E) <= E + 1.
Proof.
  intros Hq HE1 HE2. unfold round_tail.
  destruct (Z.eq_dec q (2 ^ 53)) as [->|Hne].
  - change (Zdigits2 (2 ^ 53)) with 54.
    replace (Z.max E (fexp prec emax (54 + E))) with (E + 1)
      by (unfold fexp, SpecFloat.emin, prec, emax; lia).
    replace (E + 1 - E) with 1 by lia.
    change (2 ^ 53 / 2 ^ 1) with (Zpos 4503599627370496).
    cbv iota beta.
    replace (E + 1 <=? emax - prec) with true by (symmetry; apply Z.leb_le; unfold emax, prec; lia).
    cbn [pos_normal ival cond_Zopp exponent_of].
    split; [split; [cbn; lia | lia]|]. split; [|lia].
    replace (E + 1 + 1074) with (Z.succ (E + 1074)) by lia.
    rewrite Z.pow_succ_r by lia. change (2 ^ 53) with 9007199254740992. lia.
  - assert (Hd : Zdigits2 q = 53).
    { apply Zdigits2_unique; [|lia]. rewrite Z.abs_eq by lia.
      change (53 - 1) with 52. lia. }
    rewrite Hd.
    replace (Z.max E (fexp prec emax (53 + E))) with E
      by (unfold fexp, SpecFloat.emin, prec, emax; lia).
    rewrite Z.sub_diag, Z.pow_0_r, Z.div_1_r.
    destruct q as [|m|m]; try lia.
    replace (E <=? emax - prec) with true by (symmetry; apply Z.leb_le; unfold emax, prec; lia).
    cbn [pos_normal ival cond_Zopp exponent_of]. split; [split; lia|]. split; [reflexivity | lia].
Qed.

(** ** Rounding to nearest is monotone *)

Lemma rne_bounds (P k : Z) : P / 2 ^ k <= rne P k <= P / 2 ^ k + 1.
Proof.
  unfold rne.
  repeat match goal with |- context [if ?b then _ else _] => destruct b end; lia.
Qed.

Lemma rne_mono (P1 P2 k : Z) : 0 <= k -> P1 <= P2 -> rne P1 k <= rne P2 k.
Proof.
  intros Hk HP.
  assert (Ha : 0 < 2 ^ k) by (apply Z.pow_pos_nonneg; lia).
  pose proof (Z.div_le_mono P1 P2 (2 ^ k) Ha HP) as Hq.
  destruct (Z.eq_dec (P1 / 2 ^ k) (P2 / 2 ^ k)) as [E|E].
  - unfold rne. rewrite <- E.
    pose proof (Z.div_mod P1 (2 ^ k) ltac:(lia)) as D1.
    pose proof (Z.div_mod P2 (2 ^ k) ltac:(lia)) as D2.
    rewrite <- E in D2.
    set (a := 2 ^ k) in *. set (q := P1 / a) in *.
    set (r1 := P1 mod a) in *. set (r2 := P2 mod a) in *.
    assert (r1 <= r2) by lia.
    destruct (Z.ltb_spec (2 * r1) a), (Z.ltb_spec (2 * r2) a),
      (Z.ltb_spec a (2 * r1)), (Z.ltb_spec a (2 * r2)), (Z.even q); lia.
  - pose proof (rne_bounds P1 k). pose proof (rne_bounds P2 k). lia.
Qed.

Lemma rne_le_multiple (P M k : Z) : 0 <= k -> P <= M * 2 ^ k -> rne P k <= M.
Proof.
  intros Hk H. rewrite <- (rne_exact M k Hk). now apply rne_mono.
Qed.

Lemma rne_ge_multiple (P M k : Z) : 0 <= k -> M * 2 ^ k <= P -> M <= rne P k.
Proof.
  intros Hk H. rewrite <- (rne_exact M k Hk). now apply rne_mono.
Qed.

Lemma ltb_scale (a b c : Z) : 0 < c -> (a * c <? b * c) = (a <? b).
Proof.
  intros Hc. destruct (Z.ltb_spec a b), (Z.ltb_spec (a * c) (b * c)); try reflexivity; nia.
Qed.

Lemma rne_scale (P k j : Z) : 0 <= k -> 0 <= j -> rne (P * 2 ^ j) (k + j) = rne P k.
Proof.
  intros Hk Hj. unfold rne.
  assert (Ha : 0 < 2 ^ k) by (apply Z.pow_pos_nonneg; lia).
  assert (Hb : 0 < 2 ^ j) by (apply Z.pow_pos_nonneg; lia).
  rewrite Z.pow_add_r by lia.
  rewrite Z.div_mul_cancel_r by lia.
  rewrite Z.mul_mod_distr_r by lia.
  replace (2 * (P mod 2 ^ k * 2 ^ j)) with (2 * (P mod 2 ^ k) * 2 ^ j) by ring.
  rewrite !ltb_scale by lia. reflexivity.
Qed.

(** ** The value of a product of normal numbers *)

Lemma Zdigits2_ge53 (P : Z) : 2 ^ 52 <= P -> 53 <= Zdigits2 P.
Proof.
  intros H.
  pose proof (Zdigits2_bounds P ltac:(lia)) as [_ Hhi]. rewrite Z.abs_eq in Hhi by lia.
  destruct (Z_le_gt_dec 53 (Zdigits2 P)); [assumption|].
  assert (2 ^ Zdigits2 P <= 2 ^ 52) by (apply Z.pow_le_mono_r; lia). lia.
Qed.

Lemma rne_normal (P : Z) :
  2 ^ 52 <= P -> 2 ^ 52 <= rne P (Zdigits2 P - 53) <= 2 ^ 53.
Proof.
  intros H. pose proof (Zdigits2_ge53 P H) as Hd.
  pose proof (Zdigits2_bounds P ltac:(lia)) as [Hlo Hhi]. rewrite Z.abs_eq in Hlo, Hhi by lia.
  set (k := Zdigits2 P - 53) in *.
  replace (Zdigits2 P - 1) with (52 + k) in Hlo by (unfold k; lia).
  replace (Zdigits2 P) with (53 + k) in Hhi by (unfold k; lia).
  rewrite Z.pow_add_r in Hlo, Hhi by lia.
  split.
  - apply rne_ge_multiple; lia.
  - apply rne_le_multiple; lia.
Qed.

Lemma R_mono (P1 P2 e : Z) :
  2 ^ 52 <= P1 -> P1 <= P2 -> -1074 <= e + (Zdigits2 P1 - 53) -> R P1 e <= R P2 e.
Proof.
  intros H1 H12 He.
  pose proof (Zdigits2_ge53 P1 H1) as Hd1.
  pose proof (Zdigits2_mono P1 P2 ltac:(lia) H12) as Hd.
  pose proof (rne_normal P1 H1) as [L1 U1].
  pose proof (rne_normal P2 ltac:(lia)) as [L2 U2].
  unfold R.
  destruct (Z.eq_dec (Zdigits2 P1) (Zdigits2 P2)) as [E|E].
  - rewrite <- E. apply Z.mul_le_mono_nonneg_r; [apply Z.pow_nonneg; lia|].
    apply rne_mono; lia.
  - set (k1 := Zdigits2 P1 - 53) in *. set (k2 := Zdigits2 P2 - 53) in *.
    replace (e + k2 + 1074) with ((e + k1 + 1074) + (k2 - k1)) by lia.
    rewrite (Z.pow_add_r 2 (e + k1 + 1074) (k2 - k1)) by (unfold k1, k2; lia).
    assert (Hc : 2 ^ 1 <= 2 ^ (k2 - k1)) by (apply Z.pow_le_mono_r; unfold k1, k2; lia).
    change (2 ^ 1) with 2 in Hc.
    assert (Ha : 0 < 2 ^ (e + k1 + 1074)) by (apply Z.pow_pos_nonneg; lia).
    set (a := 2 ^ (e + k1 + 1074)) in *. set (c := 2 ^ (k2 - k1)) in *.
    set (q1 := rne P1 k1) in *. set (q2 := rne P2 k2) in *.
    assert (q1 * a <= 2 ^ 53 * a) by (apply Z.mul_le_mono_nonneg_r; lia).
    assert (2 ^ 52 * (a * c) <= q2 * (a * c)) by (apply Z.mul_le_mono_nonneg_r; nia).
    assert (a * 2 <= a * c) by (apply Z.mul_le_mono_nonneg_l; lia).
    lia.
Qed.

Lemma R_scale (P e j : Z) :
  2 ^ 52 <= P -> 0 <= j -> R (P * 2 ^ j) e = R P (e + j).
Proof.
  intros HP Hj. pose proof (Zdigits2_ge53 P HP) as Hd. unfold R.
  rewrite Zdigits2_shift by lia.
  replace (Zdigits2 P + j - 53) with ((Zdigits2 P - 53) + j) by lia.
  rewrite rne_scale by lia. f_equal. f_equal. lia.
Qed.

(** Two products that differ by two units in the last place of the larger
    one round to different values. *)
Lemma R_strict (P1 P2 e : Z) :
  2 ^ 52 <= P1 -> P1 <= P2 -> P1 + 2 * 2 ^ (Zdigits2 P2 - 53) <= P2 ->
  -1074 <= e + (Zdigits2 P1 - 53) -> R P1 e < R P2 e.
Proof.
  intros H1 Hle H12 He.
  pose proof (Zdigits2_ge53 P1 H1) as Hd1.
  pose proof (Zdigits2_mono P1 P2 ltac:(lia) Hle) as Hd.
  unfold R.
  set (k1 := Zdigits2 P1 - 53) in *. set (k2 := Zdigits2 P2 - 53) in *.
  assert (Hk1 : 0 <= k1) by (unfold k1; lia).
  assert (Hk2 : k1 <= k2) by (unfold k1, k2; lia).
  replace (e + k2 + 1074) with ((e + k1 + 1074) + (k2 - k1)) by lia.
  rewrite (Z.pow_add_r 2 (e + k1 + 1074) (k2 - k1)) by lia.
  replace k2 with (k1 + (k2 - k1)) in H12 by lia.
  rewrite (Z.pow_add_r 2 k1 (k2 - k1)) in H12 by lia.
  pose proof (rne_bounds P1 k1) as B1. pose proof (rne_bounds P2 k2) as B2.
  replace (2 ^ k2) with (2 ^ k1 * 2 ^ (k2 - k1)) in B2
    by (rewrite <- Z.pow_add_r by lia; f_equal; lia).
  assert (Ha : 0 < 2 ^ (e + k1 + 1074)) by (apply Z.pow_pos_nonneg; lia).
  assert (Hb : 0 < 2 ^ k1) by (apply Z.pow_pos_nonneg; lia).
  assert (Hc : 0 < 2 ^ (k2 - k1)) by (apply Z.pow_pos_nonneg; lia).
  set (a := 2 ^ (e + k1 + 1074)) in *. set (b := 2 ^ k1) in *.
  set (c := 2 ^ (k2 - k1)) in *.
  set (q1 := rne P1 k1) in *. set (q2 := rne P2 k2) in *.
  assert (Hbc : 0 < b * c) by (apply Z.mul_pos_pos; assumption).
  pose proof (Z.mul_div_le P1 b Hb) as D1.
  pose proof (Z.mul_succ_div_gt P2 (b * c) Hbc) as D2.
  assert (b <= b * c) by nia.
  assert (V1 : q1 * b <= P1 + b) by nia.
  assert (V2 : P2 - b * c < q2 * (b * c)) by nia.
  assert (Hq : q1 < q2 * c) by nia.
  rewrite (Z.mul_comm a c), Z.mul_assoc.
  apply Z.mul_lt_mono_pos_r; assumption.
Qed.

Lemma Zdigits2_ge (P k : Z) : 0 <= k -> 2 ^ k <= P -> k + 1 <= Zdigits2 P.
Proof.
  intros Hk H.
  assert (0 < 2 ^ k) by (apply Z.pow_pos_nonneg; lia).
  pose proof (Zdigits2_bounds P ltac:(lia)) as [_ Hhi]. rewrite Z.abs_eq in Hhi by lia.
  destruct (Z_le_gt_dec (k + 1) (Zdigits2 P)); [assumption|].
  assert (2 ^ Zdigits2 P <= 2 ^ k) by (apply Z.pow_le_mono_r; lia). lia.
Qed.

Lemma round_model_normal (P e : Z) :
  2 ^ 52 <= P -> -1021 <= Zdigits2 P + e ->
  round_model false P e = round_tail false (rne P (Zdigits2 P - 53)) (e + (Zdigits2 P - 53)).
Proof.
  intros HP He. pose proof (Zdigits2_ge53 P HP) as Hd.
  unfold round_model, round_tail.
  rewrite (fexp_normal (Zdigits2 P + e)) by assumption.
  replace (Z.max e (Zdigits2 P + e - prec)) with (e + (Zdigits2 P - 53)) by (unfold prec; lia).
  replace (e + (Zdigits2 P - 53) - e) with (Zdigits2 P - 53) by lia.
  reflexivity.
Qed.

(** The product of two positive normal numbers is the rounded product of
    the mantissas. *)
Lemma mul_pos_normal (mx my : positive) (ex ey : Z) :
  pos_normal (S754_finite false mx ex) -> pos_normal (S754_finite false my ey) ->
  -1126 <= ex + ey -> ex + ey + 54 <= 971 ->
  pos_normal (mul (S754_finite false mx ex) (S754_finite false my ey)) /\
  ival (mul (S754_finite false mx ex) (S754_finite false my ey))
    = R (Zpos mx * Zpos my) (ex + ey) /\
  ex + ey + 52 <= exponent_of (mul (S754_finite false mx ex) (S754_finite false my ey))
    <= ex + ey + 54.
Proof.
  cbn [pos_normal]. intros [Hx Ex] [Hy Ey] Hlo Hhi.
  unfold mul. cbn [SFmul xorb].
  rewrite binary_round_aux_model by lia.
  rewrite Pos2Z.inj_mul.
  set (P := Zpos mx * Zpos my).
  assert (HP : 2 ^ 104 <= P < 2 ^ 106).
  { unfold P. change (2 ^ 104) with (2 ^ 52 * 2 ^ 52). change (2 ^ 106) with (2 ^ 53 * 2 ^ 53).
    split; [apply Z.mul_le_mono_nonneg; lia | apply Z.mul_lt_mono_nonneg; lia]. }
  assert (Hd : 105 <= Zdigits2 P <= 106).
  { split; [apply (Zdigits2_ge P 104); lia | apply Zdigits2_le; lia]. }
  assert (HP52 : 2 ^ 52 <= P).
  { assert (2 ^ 52 <= 2 ^ 104) by (apply Z.pow_le_mono_r; lia). lia. }
  rewrite round_model_normal by lia.
  pose proof (rne_normal P HP52) as Hq.
  destruct (round_tail_pos_normal (rne P (Zdigits2 P - 53)) (ex + ey + (Zdigits2 P - 53)) Hq
              ltac:(lia) ltac:(lia)) as (Hn & Hv & He).
  split; [exact Hn|]. split; [rewrite Hv; reflexivity | lia].
Qed.

(** ** [Math.round] on normal numbers *)

Lemma canon_pos_normal (n : Z) :
  0 < n < 2 ^ 53 -> pos_normal (canon n 0) /\ ival (canon n 0) = n * 2 ^ 1074.
Proof.
  intros Hn.
  assert (Hd : Zdigits2 n <= prec) by (apply Zdigits2_le; unfold prec; lia).
  pose proof (Zdigits2_pos n ltac:(lia)) as Hdp.
  destruct (canon_finite n 0 ltac:(lia) Hd) as [-> HM].
  replace (n <? 0) with false by (symmetry; apply Z.ltb_ge; lia).
  cbn [pos_normal ival cond_Zopp]. rewrite HM, Z.abs_eq by lia.
  pose proof (Zdigits2_bounds n ltac:(lia)) as [Hlo Hhi]. rewrite Z.abs_eq in Hlo, Hhi by lia.
  assert (Hs : 0 < 2 ^ (prec - Zdigits2 n)) by (apply Z.pow_pos_nonneg; lia).
  split; [split|].
  - split.
    + replace (2 ^ 52) with (2 ^ (Zdigits2 n - 1) * 2 ^ (prec - Zdigits2 n)).
      * apply Z.mul_le_mono_nonneg_r; lia.
      * rewrite <- Z.pow_add_r by lia. f_equal. unfold prec. lia.
    + replace (2 ^ 53) with (2 ^ Zdigits2 n * 2 ^ (prec - Zdigits2 n)).
      * apply Z.mul_lt_mono_pos_r; lia.
      * rewrite <- Z.pow_add_r by lia. f_equal. unfold prec. lia.
  - unfold prec in *. lia.
  - rewrite <- Z.mul_assoc, <- Z.pow_add_r by (unfold prec in *; lia).
    f_equal. f_equal. unfold prec. lia.
Qed.

Lemma Math_round_pos_normal (m : positive) (e : Z) :
  pos_normal (S754_finite false m e) ->
  nonneg_normal (Math_round (S754_finite false m e)) /\
  ival (Math_round (S754_finite false m e)) = iround e (Zpos m * 2 ^ (e + 1074)).
Proof.
  intros Hn. pose proof Hn as [Hm He]. cbn [Math_round]. unfold iround.
  destruct (Z.leb_spec 0 e) as [H0|H0].
  - split; [right; exact Hn | reflexivity].
  - assert (Hr : round_Z false m e = (2 * (Zpos m * 2 ^ (e + 1074)) + 2 ^ 1074) / 2 ^ 1075).
    { unfold round_Z. cbn [cond_Zopp]. rewrite Z.shiftr_div_pow2 by lia.
      assert (Hs : 0 < 2 ^ (e + 1074)) by (apply Z.pow_pos_nonneg; lia).
      rewrite <- (Z.div_mul_cancel_r _ _ (2 ^ (e + 1074))) by (try apply Z.pow_nonzero; lia).
      f_equal.
      - rewrite Z.mul_add_distr_r, <- Z.pow_add_r by lia.
        replace (- e + (e + 1074)) with 1074 by lia. ring.
      - rewrite <- Z.pow_add_r by lia. f_equal. lia. }
    rewrite Hr.
    set (V := Zpos m * 2 ^ (e + 1074)).
    assert (HV : 0 < V < 2 ^ 53 * 2 ^ 1073).
    { unfold V. split; [apply Z.mul_pos_pos; [lia | apply Z.pow_pos_nonneg; lia]|].
      assert (2 ^ (e + 1074) <= 2 ^ 1073) by (apply Z.pow_le_mono_r; lia).
      assert (0 < 2 ^ (e + 1074)) by (apply Z.pow_pos_nonneg; lia).
      nia. }
    assert (Hn' : 0 <= (2 * V + 2 ^ 1074) / 2 ^ 1075 <= 2 ^ 52).
    { split; [apply Z.div_pos; [|reflexivity]|].
      - assert (0 < 2 ^ 1074) by reflexivity. lia.
      - apply Z.lt_succ_r. apply Z.div_lt_upper_bound; [reflexivity|].
        change (2 ^ 1075) with (2 * 2 ^ 1074). change (2 ^ 1074) with (2 * 2 ^ 1073) at 1 2.
        change (2 ^ 52) with 4503599627370496. change (2 ^ 53) with 9007199254740992 in HV.
        assert (0 < 2 ^ 1073) by reflexivity. lia. }
    destruct ((2 * V + 2 ^ 1074) / 2 ^ 1075) as [|n|n] eqn:En; try lia.
    + split; [left; reflexivity | reflexivity].
    + rewrite of_Z_canon by (unfold prec; change (2 ^ 53) with (2 * 2 ^ 52); lia).
      destruct (canon_pos_normal (Zpos n)) as [A B].
      { change (2 ^ 53) with (2 * 2 ^ 52); lia. }
      split; [right; exact A | exact B].
Qed.

Lemma iround_mono (e1 e2 V1 V2 : Z) :
  (e1 < 0 -> V1 < 2 ^ 52 * 2 ^ 1074) -> (0 <= e1 -> 2 ^ 52 * 2 ^ 1074 <= V1) ->
  (e2 < 0 -> V2 < 2 ^ 52 * 2 ^ 1074) -> (0 <= e2 -> 2 ^ 52 * 2 ^ 1074 <= V2) ->
  0 <= V1 <= V2 -> iround e1 V1 <= iround e2 V2.
Proof.
  intros A1 B1 A2 B2 HV. unfold iround.
  assert (Hp : 0 < 2 ^ 1074) by reflexivity.
  assert (Hdiv : forall V, 0 <= V ->
            2 * V - 2 ^ 1074 < (2 * V + 2 ^ 1074) / 2 ^ 1075 * 2 ^ 1074 * 2
            /\ (2 * V + 2 ^ 1074) / 2 ^ 1075 * 2 ^ 1074 * 2 <= 2 * V + 2 ^ 1074).
  { intros V HV0.
    pose proof (Z.mul_div_le (2 * V + 2 ^ 1074) (2 ^ 1075) ltac:(reflexivity)).
    pose proof (Z.mul_succ_div_gt (2 * V + 2 ^ 1074) (2 ^ 1075) ltac:(reflexivity)).
    change (2 ^ 1075) with (2 ^ 1074 * 2) in *. lia. }
  destruct (Z.leb_spec 0 e1), (Z.leb_spec 0 e2).
  - lia.
  - specialize (B1 ltac:(lia)). specialize (A2 ltac:(lia)). lia.
  - specialize (A1 ltac:(lia)). specialize (B2 ltac:(lia)).
    assert ((2 * V1 + 2 ^ 1074) / 2 ^ 1075 <= 2 ^ 52).
    { apply Z.lt_succ_r. apply Z.div_lt_upper_bound; [reflexivity|].
      change (2 ^ 1075) with (2 * 2 ^ 1074). lia. }
    assert ((2 * V1 + 2 ^ 1074) / 2 ^ 1075 * 2 ^ 1074 <= 2 ^ 52 * 2 ^ 1074)
      by (apply Z.mul_le_mono_nonneg_r; lia).
    lia.
  - apply Z.mul_le_mono_nonneg_r; [lia|].
    apply Z.div_le_mono; [reflexivity | lia].
Qed.

Lemma ival_sign_bound (m : positive) (e : Z) :
  pos_normal (S754_finite false m e) ->
  (e < 0 -> Zpos m * 2 ^ (e + 1074) < 2 ^ 52 * 2 ^ 1074) /\
  (0 <= e -> 2 ^ 52 * 2 ^ 1074 <= Zpos m * 2 ^ (e + 1074)).
Proof.
  intros [Hm He]. split; intros H.
  - assert (2 ^ (e + 1074) <= 2 ^ 1073) by (apply Z.pow_le_mono_r; lia).
    assert (0 < 2 ^ (e + 1074)) by (apply Z.pow_pos_nonneg; lia).
    change (2 ^ 1074) with (2 * 2 ^ 1073). nia.
  - assert (2 ^ 1074 <= 2 ^ (e + 1074)) by (apply Z.pow_le_mono_r; lia).
    apply Z.mul_le_mono_nonneg; lia.
Qed.

(** [Math.round] never reverses the order of two positive normal numbers. *)
Lemma Math_round_mono (x y : number) :
  pos_normal x -> pos_normal y -> ival x <= ival y ->
  leb (Math_round x) (Math_round y) = true.
Proof.
  intros Hx Hy Hv.
  destruct x as [| | |[] mx ex]; cbn [pos_normal] in Hx; try tauto.
  destruct y as [| | |[] my ey]; cbn [pos_normal] in Hy; try tauto.
  destruct (Math_round_pos_normal mx ex Hx) as [Nx Vx].
  destruct (Math_round_pos_normal my ey Hy) as [Ny Vy].
  unfold leb, SFleb. rewrite (compare_nonneg_normal _ _ Nx Ny), Vx, Vy.
  cbn [ival cond_Zopp] in Hv.
  destruct (ival_sign_bound mx ex Hx) as [A1 B1].
  destruct (ival_sign_bound my ey Hy) as [A2 B2].
  pose proof (iround_mono ex ey _ _ A1 B1 A2 B2) as Hm.
  assert (0 <= Zpos mx * 2 ^ (ex + 1074)).
  { apply Z.mul_nonneg_nonneg; [lia | apply Z.pow_nonneg; lia]. }
  specialize (Hm ltac:(lia)).
  destruct (Z.compare_spec (iround ex (Zpos mx * 2 ^ (ex + 1074)))
                            (iround ey (Zpos my * 2 ^ (ey + 1074)))); try reflexivity. lia.
Qed.

(** ** Multiplication is monotone *)

Lemma mul_mono_l (x y g : number) :
  pos_normal x -> pos_normal y -> pos_normal g ->
  -1126 <= exponent_of x + exponent_of g -> exponent_of x + exponent_of g + 54 <= 971 ->
  -1126 <= exponent_of y + exponent_of g -> exponent_of y + exponent_of g + 54 <= 971 ->
  ival x <= ival y ->
  pos_normal (mul x g) /\ pos_normal (mul y g) /\ ival (mul x g) <= ival (mul y g).
Proof.
  intros Hx Hy Hg.
  destruct x as [| | |[] mx ex]; cbn [pos_normal] in Hx; try tauto.
  destruct y as [| | |[] my ey]; cbn [pos_normal] in Hy; try tauto.
  destruct g as [| | |[] mg eg]; cbn [pos_normal] in Hg; try tauto.
  cbn [exponent_of ival cond_Zopp]. intros X1 X2 Y1 Y2 Hv.
  destruct (mul_pos_normal mx mg ex eg Hx Hg X1 X2) as (Nx & Vx & _).
  destruct (mul_pos_normal my mg ey eg Hy Hg Y1 Y2) as (Ny & Vy & _).
  split; [exact Nx|]. split; [exact Ny|]. rewrite Vx, Vy.
  destruct Hx as [Hmx Hex], Hy as [Hmy Hey], Hg as [Hmg Heg].
  assert (Ha : 0 < 2 ^ (ex + 1074)) by (apply Z.pow_pos_nonneg; lia).
  assert (Hexy : ex <= ey).
  { destruct (Z_le_gt_dec ex ey); [assumption|]. exfalso.
    replace (ex + 1074) with ((ey + 1074) + (ex - ey)) in Hv by lia.
    rewrite (Z.pow_add_r 2 (ey + 1074) (ex - ey)) in Hv by lia.
    assert (Hc : 2 ^ 1 <= 2 ^ (ex - ey)) by (apply Z.pow_le_mono_r; lia).
    change (2 ^ 1) with 2 in Hc.
    assert (Hb : 0 < 2 ^ (ey + 1074)) by (apply Z.pow_pos_nonneg; lia).
    set (b := 2 ^ (ey + 1074)) in *. set (c := 2 ^ (ex - ey)) in *.
    assert (Zpos my * b < 2 ^ 53 * b) by (apply Z.mul_lt_mono_pos_r; lia).
    assert (2 ^ 52 * (b * c) <= Zpos mx * (b * c)) by (apply Z.mul_le_mono_nonneg_r; nia).
    assert (b * 2 <= b * c) by (apply Z.mul_le_mono_nonneg_l; lia).
    lia. }
  replace (ey + eg) with ((ex + eg) + (ey - ex)) by lia.
  assert (HP : 2 ^ 52 <= Zpos my * Zpos mg).
  { change (2 ^ 52) with (2 ^ 52 * 1). apply Z.mul_le_mono_nonneg; lia. }
  rewrite <- (R_scale (Zpos my * Zpos mg) (ex + eg) (ey - ex)) by lia.
  assert (Hj : 0 < 2 ^ (ey - ex)) by (apply Z.pow_pos_nonneg; lia).
  assert (Hm : Zpos mx <= Zpos my * 2 ^ (ey - ex)).
  { replace (ey + 1074) with ((ex + 1074) + (ey - ex)) in Hv by lia.
    rewrite (Z.pow_add_r 2 (ex + 1074) (ey - ex)) in Hv by lia.
    set (a := 2 ^ (ex + 1074)) in *. set (c := 2 ^ (ey - ex)) in *. nia. }
  assert (HP1 : 2 ^ 52 <= Zpos mx * Zpos mg).
  { change (2 ^ 52) with (2 ^ 52 * 1). apply Z.mul_le_mono_nonneg; lia. }
  apply R_mono.
  - exact HP1.
  - replace (Zpos my * Zpos mg * 2 ^ (ey - ex)) with (Zpos my * 2 ^ (ey - ex) * Zpos mg) by ring.
    apply Z.mul_le_mono_nonneg_r; lia.
  - assert (2 ^ 104 <= Zpos mx * Zpos mg).
    { change (2 ^ 104) with (2 ^ 52 * 2 ^ 52). apply Z.mul_le_mono_nonneg; lia. }
    pose proof (Zdigits2_ge (Zpos mx * Zpos mg) 104 ltac:(lia) ltac:(lia)). lia.
Qed.

(** With two multipliers four units in the last place apart the products
    are strictly ordered. *)
Lemma mul_strict_r (x : number) (m1 m2 : positive) (e0 : Z) :
  pos_normal x ->
  pos_normal (S754_finite false m1 e0) -> pos_normal (S754_finite false m2 e0) ->
  Zpos m1 + 4 <= Zpos m2 ->
  -1126 <= exponent_of x + e0 -> exponent_of x + e0 + 54 <= 971 ->
  ltb (mul x (S754_finite false m1 e0)) (mul x (S754_finite false m2 e0)) = true.
Proof.
  intros Hx H1 H2 Hgap.
  destruct x as [| | |[] mx ex]; cbn [pos_normal] in Hx; try tauto.
  cbn [exponent_of]. intros X1 X2.
  destruct (mul_pos_normal mx m1 ex e0 Hx H1 X1 X2) as (N1 & V1 & _).
  destruct (mul_pos_normal mx m2 ex e0 Hx H2 X1 X2) as (N2 & V2 & _).
  unfold ltb, SFltb. rewrite (compare_pos_normal _ _ N1 N2), V1, V2.
  destruct Hx as [Hmx Hex], H1 as [Hm1 He1], H2 as [Hm2 He2].
  assert (HP1 : 2 ^ 104 <= Zpos mx * Zpos m1).
  { change (2 ^ 104) with (2 ^ 52 * 2 ^ 52). apply Z.mul_le_mono_nonneg; lia. }
  assert (HP2 : Zpos mx * Zpos m2 < 2 ^ 106).
  { change (2 ^ 106) with (2 ^ 53 * 2 ^ 53). apply Z.mul_lt_mono_nonneg; lia. }
  assert (Hd2 : Zdigits2 (Zpos mx * Zpos m2) <= 106) by (apply Zdigits2_le; lia).
  pose proof (Zdigits2_ge (Zpos mx * Zpos m1) 104 ltac:(lia) HP1) as Hd1.
  assert (Hlt : R (Zpos mx * Zpos m1) (ex + e0) < R (Zpos mx * Zpos m2) (ex + e0)).
  { apply R_strict.
    - assert (2 ^ 52 <= 2 ^ 104) by (apply Z.pow_le_mono_r; lia). lia.
    - apply Z.mul_le_mono_nonneg_l; lia.
    - assert (2 ^ (Zdigits2 (Zpos mx * Zpos m2) - 53) <= 2 ^ 53)
        by (apply Z.pow_le_mono_r; lia).
      change (2 ^ 53) with 9007199254740992 in *.
      change (2 ^ 52) with 4503599627370496 in *. nia.
    - lia. }
  apply Z.compare_lt_iff in Hlt. rewrite Hlt. reflexivity.
Qed.

(** ** Activity levels *)

Lemma in_normal_range_spec (x : number) :
  in_normal_range x = true ->
  pos_normal x /\ -1000 <= exponent_of x <= 900.
Proof.
  destruct x as [| | |[] m e]; cbn [in_normal_range]; try discriminate.
  intros H. repeat (apply andb_prop in H; destruct H as [H ?]).
  cbn [pos_normal exponent_of]. lia.
Qed.

Lemma multiplier_normal (a : ActivityLevel) :
  ACTIVITY_MULTIPLIERS a = S754_finite false (multiplier_mantissa a) (-52)
  /\ pos_normal (S754_finite false (multiplier_mantissa a) (-52)).
Proof.
  destruct a; (split; [vm_compute; reflexivity|]);
    cbn [pos_normal]; (split; [|lia]); split;
    [apply Z.leb_le | apply Z.ltb_lt | apply Z.leb_le | apply Z.ltb_lt | apply Z.leb_le
    | apply Z.ltb_lt | apply Z.leb_le | apply Z.ltb_lt | apply Z.leb_le | apply Z.ltb_lt];
    vm_compute; reflexivity.
Qed.

Lemma multiplier_gap (a b : ActivityLevel) :
  (level_rank a < level_rank b)%nat ->
  Zpos (multiplier_mantissa a) + 4 <= Zpos (multiplier_mantissa b).
Proof.
  destruct a, b; cbn [level_rank]; intros H; try lia;
    apply Z.leb_le; vm_compute; reflexivity.
Qed.

Lemma ltb_ival (x y : number) :
  pos_normal x -> pos_normal y -> ltb x y = true -> ival x < ival y.
Proof.
  intros Hx Hy. unfold ltb, SFltb. rewrite (compare_pos_normal x y Hx Hy).
  destruct (Z.compare_spec (ival x) (ival y)); try discriminate. trivial.
Qed.

Lemma leb_ival (x y : number) :
  nonneg_normal x -> nonneg_normal y -> ival x <= ival y -> leb x y = true.
Proof.
  intros Hx Hy H. unfold leb, SFleb. rewrite (compare_nonneg_normal x y Hx Hy).
  destruct (Z.compare_spec (ival x) (ival y)); try reflexivity. lia.
Qed.

Lemma calorie_factor_normal :
  pos_normal (dec 80 (-2)) /\ exponent_of (dec 80 (-2)) = -53 /\
  pos_normal (dec 110 (-2)) /\ exponent_of (dec 110 (-2)) = -52.
Proof.
  repeat split; try (vm_compute; reflexivity);
    first [apply Z.leb_le | apply Z.ltb_lt]; vm_compute; reflexivity.
Qed.

(** ** Relative error of a product, strict rounding *)

Lemma rne_error (P k : Z) : 0 <= k -> 2 * Z.abs (rne P k * 2 ^ k - P) <= 2 ^ k.
Proof.
  intros Hk. unfold rne.
  assert (Ha : 0 < 2 ^ k) by (apply Z.pow_pos_nonneg; lia).
  pose proof (Z.div_mod P (2 ^ k) ltac:(lia)) as Hd.
  pose proof (Z.mod_pos_bound P (2 ^ k) Ha) as Hr.
  set (a := 2 ^ k) in *. set (q := P / a) in *. set (r := P mod a) in *.
  destruct (Z.ltb_spec (2 * r) a); [|destruct (Z.ltb_spec a (2 * r)); [|destruct (Z.even q)]];
    nia.
Qed.

(** The rounded product is within one part in [2^53] of the product. *)
Lemma R_rel (P e : Z) :
  2 ^ 52 <= P -> 0 <= e + 1074 ->
  (2 ^ 53 - 1) * (P * 2 ^ (e + 1074)) <= 2 ^ 53 * R P e
  /\ 2 ^ 53 * R P e <= (2 ^ 53 + 1) * (P * 2 ^ (e + 1074)).
Proof.
  intros HP He. pose proof (Zdigits2_ge53 P HP) as Hd. unfold R.
  set (k := Zdigits2 P - 53) in *.
  assert (Hk : 0 <= k) by (unfold k; lia).
  replace (e + k + 1074) with (k + (e + 1074)) by lia.
  rewrite (Z.pow_add_r 2 k (e + 1074)) by lia.
  pose proof (rne_error P k Hk) as Herr.
  pose proof (Zdigits2_bounds P ltac:(lia)) as [Hlo _]. rewrite Z.abs_eq in Hlo by lia.
  replace (Zdigits2 P - 1) with (52 + k) in Hlo by (unfold k; lia).
  rewrite (Z.pow_add_r 2 52 k) in Hlo by lia.
  assert (Hw : 0 < 2 ^ (e + 1074)) by (apply Z.pow_pos_nonneg; lia).
  assert (Ha : 0 < 2 ^ k) by (apply Z.pow_pos_nonneg; lia).
  set (a := 2 ^ k) in *. set (w := 2 ^ (e + 1074)) in *. set (q := rne P k) in *.
  change (2 ^ 53) with 9007199254740992. change (2 ^ 52) with 4503599627370496 in *.
  assert (E1 : 9007199254740992 * (q * a) - 9007199254740992 * P <= P) by lia.
  assert (E2 : 9007199254740992 * P - 9007199254740992 * (q * a) <= P) by lia.
  split.
  - replace (9007199254740992 * (q * (a * w))) with (9007199254740992 * (q * a) * w) by ring.
    replace ((9007199254740992 - 1) * (P * w)) with ((9007199254740992 * P - P) * w) by ring.
    apply Z.mul_le_mono_nonneg_r; lia.
  - replace (9007199254740992 * (q * (a * w))) with (9007199254740992 * (q * a) * w) by ring.
    replace ((9007199254740992 + 1) * (P * w)) with ((9007199254740992 * P + P) * w) by ring.
    apply Z.mul_le_mono_nonneg_r; lia.
Qed.

(** Relative accuracy of a product of normal numbers, with the exponent of
    the second factor cleared. *)
Lemma mul_rel (mx mg : positive) (ex eg : Z) :
  pos_normal (S754_finite false mx ex) -> pos_normal (S754_finite false mg eg) ->
  eg <= 0 -> 0 <= ex + eg + 1074 -> ex + eg + 54 <= 971 ->
  let V := ival (S754_finite false mx ex) in
  let W := ival (mul (S754_finite false mx ex) (S754_finite false mg eg)) in
  (2 ^ 53 - 1) * (V * Zpos mg) <= 2 ^ 53 * 2 ^ (- eg) * W
  /\ 2 ^ 53 * 2 ^ (- eg) * W <= (2 ^ 53 + 1) * (V * Zpos mg).
Proof.
  intros Hx Hg Heg Hlo Hhi V W.
  destruct (mul_pos_normal mx mg ex eg Hx Hg ltac:(lia) Hhi) as (_ & HW & _).
  subst W. rewrite HW. subst V. cbn [ival cond_Zopp].
  destruct Hx as [Hmx Hex], Hg as [Hmg Hgg].
  assert (HP : 2 ^ 52 <= Zpos mx * Zpos mg).
  { change (2 ^ 52) with (2 ^ 52 * 1). apply Z.mul_le_mono_nonneg; lia. }
  destruct (R_rel (Zpos mx * Zpos mg) (ex + eg) HP Hlo) as [L U].
  assert (Hs : 2 ^ (ex + 1074) = 2 ^ (- eg) * 2 ^ (ex + eg + 1074)).
  { rewrite <- Z.pow_add_r by lia. f_equal. lia. }
  rewrite Hs.
  assert (Hp : 0 < 2 ^ (- eg)) by (apply Z.pow_pos_nonneg; lia).
  set (G := 2 ^ (- eg)) in *. set (w := 2 ^ (ex + eg + 1074)) in *.
  set (Rv := R (Zpos mx * Zpos mg) (ex + eg)) in *.
  split.
  - replace ((2 ^ 53 - 1) * (Zpos mx * (G * w) * Zpos mg))
      with (G * ((2 ^ 53 - 1) * (Zpos mx * Zpos mg * w))) by ring.
    replace (2 ^ 53 * G * Rv) with (G * (2 ^ 53 * Rv)) by ring.
    apply Z.mul_le_mono_nonneg_l; lia.
  - replace ((2 ^ 53 + 1) * (Zpos mx * (G * w) * Zpos mg))
      with (G * ((2 ^ 53 + 1) * (Zpos mx * Zpos mg * w))) by ring.
    replace (2 ^ 53 * G * Rv) with (G * (2 ^ 53 * Rv)) by ring.
    apply Z.mul_le_mono_nonneg_l; lia.
Qed.

Lemma iround_strict (e1 e2 V1 V2 : Z) :
  (e1 < 0 -> V1 < 2 ^ 52 * 2 ^ 1074) -> (0 <= e1 -> 2 ^ 52 * 2 ^ 1074 <= V1) ->
  (e2 < 0 -> V2 < 2 ^ 52 * 2 ^ 1074) -> (0 <= e2 -> 2 ^ 52 * 2 ^ 1074 <= V2) ->
  0 <= V1 -> V1 + 2 ^ 1074 <= V2 -> iround e1 V1 < iround e2 V2.
Proof.
  intros A1 B1 A2 B2 HV0 HV. unfold iround.
  assert (Hp : 0 < 2 ^ 1074) by reflexivity.
  assert (Hdiv : forall V, 0 <= V ->
            2 * V - 2 ^ 1074 < (2 * V + 2 ^ 1074) / 2 ^ 1075 * 2 ^ 1074 * 2
            /\ (2 * V + 2 ^ 1074) / 2 ^ 1075 * 2 ^ 1074 * 2 <= 2 * V + 2 ^ 1074).
  { intros V HV0'.
    pose proof (Z.mul_div_le (2 * V + 2 ^ 1074) (2 ^ 1075) ltac:(reflexivity)).
    pose proof (Z.mul_succ_div_gt (2 * V + 2 ^ 1074) (2 ^ 1075) ltac:(reflexivity)).
    change (2 ^ 1075) with (2 ^ 1074 * 2) in *. lia. }
  destruct (Z.leb_spec 0 e1), (Z.leb_spec 0 e2).
  - lia.
  - specialize (B1 ltac:(lia)). specialize (A2 ltac:(lia)). lia.
  - pose proof (Hdiv V1 HV0). lia.
  - set (n1 := (2 * V1 + 2 ^ 1074) / 2 ^ 1075).
    assert (n1 + 1 <= (2 * V2 + 2 ^ 1074) / 2 ^ 1075).
    { replace (n1 + 1) with ((2 * V1 + 2 ^ 1074 + 1 * 2 ^ 1075) / 2 ^ 1075).
      - apply Z.div_le_mono; [reflexivity|]. change (2 ^ 1075) with (2 ^ 1074 * 2). lia.
      - rewrite Z.div_add by (intro X; discriminate X). reflexivity. }
    apply Z.mul_lt_mono_pos_r; lia.
Qed.

Lemma Math_round_strict (x y : number) :
  pos_normal x -> pos_normal y -> ival x + 2 ^ 1074 <= ival y ->
  ltb (Math_round x) (Math_round y) = true.
Proof.
  intros Hx Hy Hv.
  destruct x as [| | |[] mx ex]; cbn [pos_normal] in Hx; try tauto.
  destruct y as [| | |[] my ey]; cbn [pos_normal] in Hy; try tauto.
  destruct (Math_round_pos_normal mx ex Hx) as [Nx Vx].
  destruct (Math_round_pos_normal my ey Hy) as [Ny Vy].
  unfold ltb, SFltb. rewrite (compare_nonneg_normal _ _ Nx Ny), Vx, Vy.
  cbn [ival cond_Zopp] in Hv.
  destruct (ival_sign_bound mx ex Hx) as [A1 B1].
  destruct (ival_sign_bound my ey Hy) as [A2 B2].
  assert (H0 : 0 <= Zpos mx * 2 ^ (ex + 1074)).
  { apply Z.mul_nonneg_nonneg; [lia | apply Z.pow_nonneg; lia]. }
  pose proof (iround_strict ex ey _ _ A1 B1 A2 B2 H0 Hv) as Hm.
  apply Z.compare_lt_iff in Hm. rewrite Hm. reflexivity.
Qed.

Lemma multiplier_mantissa_values :
  multiplier_mantissa sedentary = 5404319552844595%positive /\
  multiplier_mantissa lightly_active = 6192449487634432%positive /\
  multiplier_mantissa moderately_active = 6980579422424269%positive /\
  multiplier_mantissa very_active = 7768709357214106%positive /\
  multiplier_mantissa extra_active = 8556839292003942%positive.
Proof. repeat split; vm_compute; reflexivity. Qed.

Lemma pos_normal_inv (x : number) :
  pos_normal x -> exists m e, x = S754_finite false m e.
Proof.
  destruct x as [| | |[] m e]; cbn [pos_normal]; try tauto. intros _. eauto.
Qed.

(** ** Magnitudes *)

Lemma magnitude_below_finite (k : Z) (s : bool) (m : positive) (e : Z) :
  magnitude_below k (S754_finite s m e) = true <-> Zpos m < 2 ^ 53 /\ e + 53 <= k.
Proof.
  cbn [magnitude_below]. rewrite Bool.andb_true_iff, Z.ltb_lt, Z.leb_le. tauto.
Qed.

Lemma magnitude_below_weaken (k k' : Z) (x : number) :
  k <= k' -> magnitude_below k x = true -> magnitude_below k' x = true.
Proof.
  intros Hk. destruct x as [| | |s m e]; try (intros; assumption).
  rewrite !magnitude_below_finite. lia.
Qed.

Lemma magnitude_below_is_finite (k : Z) (x : number) :
  magnitude_below k x = true -> is_finite x = true.
Proof. destruct x; cbn; try discriminate; reflexivity. Qed.

Lemma fexp_eq (x : Z) : fexp prec emax x = Z.max (x - 53) (-1074).
Proof. reflexivity. Qed.

Lemma round_tail_magnitude (s : bool) (q E k : Z) :
  0 <= q <= 2 ^ 53 -> E + 54 <= k -> -1020 <= k <= 1024 ->
  magnitude_below k (round_tail s q E) = true.
Proof.
  intros Hq HE Hk. unfold round_tail. rewrite fexp_eq.
  assert (Hd : Zdigits2 q <= 54) by (apply Zdigits2_le; [lia|]; change (2 ^ 54) with (2 * 2 ^ 53); lia).
  set (E' := Z.max E (Z.max (Zdigits2 q + E - 53) (-1074))).
  assert (HE' : E <= E' /\ E' + 53 <= k) by (unfold E'; lia).
  assert (Hp : 0 < 2 ^ (E' - E)) by (apply Z.pow_pos_nonneg; lia).
  assert (Hq' : 0 <= q / 2 ^ (E' - E) < 2 ^ 53).
  { split; [apply Z.div_pos; lia|].
    destruct (Z.eq_dec q (2 ^ 53)) as [Eq|Ne].
    - assert (Zdigits2 q = 54) by (rewrite Eq; reflexivity).
      assert (1 <= E' - E) by (unfold E'; lia).
      assert (2 ^ 1 <= 2 ^ (E' - E)) by (apply Z.pow_le_mono_r; lia).
      apply Z.div_lt_upper_bound; [lia|]. change (2 ^ 1) with 2 in *.
      rewrite Eq. change (2 ^ 53) with 9007199254740992. nia.
    - apply Z.le_lt_trans with q; [|lia].
      apply Z.div_le_upper_bound; [lia|]. nia. }
  destruct (q / 2 ^ (E' - E)) as [|m|m] eqn:Em; try lia; [reflexivity|].
  replace (E' <=? emax - prec) with true
    by (symmetry; apply Z.leb_le; unfold emax, prec; lia).
  apply magnitude_below_finite. lia.
Qed.

Lemma binary_round_aux_magnitude (s : bool) (m e : Z) (l : location) (k : Z) :
  0 <= m -> Z.max e (Zdigits2 m + e - 53) + 54 <= k -> -1020 <= k <= 1024 ->
  magnitude_below k (binary_round_aux prec emax s m e l) = true.
Proof.
  intros Hm He Hk.
  destruct (binary_round_aux_general s m e l Hm) as (q & Hq & ->).
  rewrite fexp_eq in *.
  set (j := Z.max (Z.max (Zdigits2 m + e - 53) (-1074) - e) 0) in *.
  assert (Hp : 0 < 2 ^ j) by (apply Z.pow_pos_nonneg; unfold j; lia).
  assert (Hdiv : 0 <= m / 2 ^ j < 2 ^ 53).
  { split; [apply Z.div_pos; lia|].
    apply Z.div_lt_upper_bound; [lia|].
    destruct (Z.eq_dec m 0) as [->|Hnz]; [lia|].
    pose proof (Zdigits2_bounds m Hnz) as [_ Hhi]. rewrite Z.abs_eq in Hhi by lia.
    pose proof (Zdigits2_pos m Hnz).
    assert (2 ^ Zdigits2 m <= 2 ^ (j + 53)) by (apply Z.pow_le_mono_r; unfold j; lia).
    rewrite Z.pow_add_r in * by (unfold j; lia). lia. }
  apply round_tail_magnitude; [lia | unfold j; lia | assumption].
Qed.

Lemma mul_magnitude (a b k : Z) (x y : number) :
  magnitude_below a x = true -> magnitude_below b y = true ->
  a + b + 1 <= k -> -1020 <= k <= 1024 ->
  magnitude_below k (mul x y) = true.
Proof.
  intros Hx Hy Hab Hk.
  destruct x as [sx|sx| |sx mx ex], y as [sy|sy| |sy my ey]; try discriminate; try reflexivity.
  apply magnitude_below_finite in Hx, Hy. destruct Hx as [Mx Ex], Hy as [My Ey].
  unfold mul. cbn [SFmul].
  apply binary_round_aux_magnitude; [lia | | assumption].
  rewrite Pos2Z.inj_mul.
  assert (Zdigits2 (Zpos mx * Zpos my) <= 106).
  { apply Zdigits2_le; [lia|]. rewrite Z.abs_eq by lia.
    change (2 ^ 106) with (2 ^ 53 * 2 ^ 53). apply Z.mul_lt_mono_nonneg; lia. }
  lia.
Qed.

Lemma binary_round_magnitude (s : bool) (m : positive) (e k : Z) :
  Z.max e (Zpos (digits2_pos m) + e - 53) + 54 <= k -> -1020 <= k <= 1024 ->
  magnitude_below k (binary_round prec emax s m e) = true.
Proof.
  intros He Hk. unfold binary_round. rewrite fexp_eq.
  set (t := Z.max (Zpos (digits2_pos m) + e - 53) (-1074)).
  destruct (Z_le_gt_dec e t) as [Hle|Hgt].
  - rewrite shl_align_id by assumption.
    apply binary_round_aux_magnitude; [lia | | assumption].
    change (Zdigits2 (Zpos m)) with (Zpos (digits2_pos m)). lia.
  - pose proof (shl_align_spec m e t ltac:(lia)) as [Hf Hs].
    destruct (shl_align m e t) as [mz ez]. cbn [fst snd] in Hf, Hs. subst ez.
    apply binary_round_aux_magnitude; [lia | | assumption].
    rewrite Hf, Zdigits2_shift by lia.
    change (Zdigits2 (Zpos m)) with (Zpos (digits2_pos m)). unfold t in *. lia.
Qed.

Lemma binary_normalize_magnitude (z e k : Z) :
  Z.max e (Zdigits2 z + e - 53) + 54 <= k -> -1020 <= k <= 1024 ->
  magnitude_below k (binary_normalize prec emax z e false) = true.
Proof.
  intros He Hk. destruct z as [|p|p]; cbn [binary_normalize]; [reflexivity| |];
    apply binary_round_magnitude; assumption.
Qed.

Lemma aligned_sum_digits (sx sy : bool) (mx my : positive) (ex ey : Z) (opp : bool) :
  Zpos mx < 2 ^ 53 -> Zpos my < 2 ^ 53 ->
  let ez := Z.min ex ey in
  let z := cond_Zopp sx (Zpos (fst (shl_align mx ex ez)))
           + cond_Zopp opp (cond_Zopp sy (Zpos (fst (shl_align my ey ez)))) in
  Zdigits2 z + ez <= Z.max ex ey + 54.
Proof.
  intros Mx My ez z.
  destruct (shl_align_spec mx ex ez ltac:(unfold ez; lia)) as [Fx _].
  destruct (shl_align_spec my ey ez ltac:(unfold ez; lia)) as [Fy _].
  assert (Hx : 0 < 2 ^ (ex - ez)) by (apply Z.pow_pos_nonneg; unfold ez; lia).
  assert (Hy : 0 < 2 ^ (ey - ez)) by (apply Z.pow_pos_nonneg; unfold ez; lia).
  assert (Hxm : 2 ^ (ex - ez) <= 2 ^ (Z.max ex ey - ez)) by (apply Z.pow_le_mono_r; unfold ez; lia).
  assert (Hym : 2 ^ (ey - ez) <= 2 ^ (Z.max ex ey - ez)) by (apply Z.pow_le_mono_r; unfold ez; lia).
  assert (Hz : Z.abs z < 2 ^ (Z.max ex ey - ez + 54)).
  { rewrite Z.pow_add_r by (unfold ez; lia). change (2 ^ 54) with (2 * 2 ^ 53).
    subst z. rewrite Fx, Fy.
    set (c := 2 ^ (Z.max ex ey - ez)) in *.
    assert (Zpos mx * 2 ^ (ex - ez) < 2 ^ 53 * c) by nia.
    assert (Zpos my * 2 ^ (ey - ez) < 2 ^ 53 * c) by nia.
    destruct sx, sy, opp; cbn [cond_Zopp]; lia. }
  pose proof (Zdigits2_le z (Z.max ex ey - ez + 54) ltac:(unfold ez; lia) Hz). lia.
Qed.

Lemma add_magnitude (a b k : Z) (x y : number) :
  magnitude_below a x = true -> magnitude_below b y = true ->
  Z.max a b + 2 <= k -> -1020 <= k <= 1024 ->
  magnitude_below k (add x y) = true.
Proof.
  intros Hx Hy Hab Hk.
  destruct x as [sx|sx| |sx mx ex], y as [sy|sy| |sy my ey]; try discriminate.
  - destruct sx, sy; reflexivity.
  - unfold add. cbn [SFadd]. apply (magnitude_below_weaken b); [lia | exact Hy].
  - unfold add. cbn [SFadd]. apply (magnitude_below_weaken a); [lia | exact Hx].
  - apply magnitude_below_finite in Hx, Hy. destruct Hx as [Mx Ex], Hy as [My Ey].
    unfold add. cbn [SFadd].
    pose proof (aligned_sum_digits sx sy mx my ex ey false Mx My) as Hd.
    cbn [cond_Zopp] in Hd. cbv zeta in Hd.
    apply binary_normalize_magnitude; [|assumption]. lia.
Qed.

Lemma sub_magnitude (a b k : Z) (x y : number) :
  magnitude_below a x = true -> magnitude_below b y = true ->
  Z.max a b + 2 <= k -> -1020 <= k <= 1024 ->
  magnitude_below k (sub x y) = true.
Proof.
  intros Hx Hy Hab Hk.
  destruct x as [sx|sx| |sx mx ex], y as [sy|sy| |sy my ey]; try discriminate.
  - destruct sx, sy; reflexivity.
  - unfold sub. cbn [SFsub].
    apply (magnitude_below_weaken b); [lia|].
    apply magnitude_below_finite. now apply magnitude_below_finite in Hy.
  - unfold sub. cbn [SFsub]. apply (magnitude_below_weaken a); [lia | exact Hx].
  - apply magnitude_below_finite in Hx, Hy. destruct Hx as [Mx Ex], Hy as [My Ey].
    unfold sub. cbn [SFsub].
    pose proof (aligned_sum_digits sx sy mx my ex ey true Mx My) as Hd.
    cbv zeta in Hd.
    replace (cond_Zopp true (cond_Zopp sy (Zpos (fst (shl_align my ey (Z.min ex ey))))))
      with (- cond_Zopp sy (Zpos (fst (shl_align my ey (Z.min ex ey))))) in Hd by reflexivity.
    rewrite Z.add_opp_r in Hd.
    apply binary_normalize_magnitude; [|assumption]. lia.
Qed.

Lemma shift_match (m s : Z) :
  0 <= s ->
  match s with Z.pos _ => Z.shiftl m s | 0 => m | Z.neg _ => 0 end = m * 2 ^ s.
Proof.
  intros Hs. destruct s as [|p|p]; [ | | lia].
  - rewrite Z.pow_0_r. lia.
  - rewrite Z.shiftl_mul_pow2 by lia. reflexivity.
Qed.

Lemma div_core_bounds (m1 : positive) (e1 : Z) (m2 : positive) (e2 : Z) :
  Zpos m1 < 2 ^ 53 -> 2 ^ 52 <= Zpos m2 < 2 ^ 53 ->
  let '(q, e', l) := SFdiv_core_binary prec emax (Zpos m1) e1 (Zpos m2) e2 in
  0 <= q /\ Z.max e' (Zdigits2 q + e' - 53) <= Z.max (e1 - e2 - 52) (-1074).
Proof.
  intros M1 M2. unfold SFdiv_core_binary.
  assert (Hd2 : Zdigits2 (Zpos m2) = 53).
  { apply Zdigits2_unique; [|lia]. rewrite Z.abs_eq by lia. change (53 - 1) with 52. lia. }
  assert (Hd1 : 0 < Zdigits2 (Zpos m1) <= 53).
  { split; [apply Zdigits2_pos; lia | apply Zdigits2_le; lia]. }
  rewrite Hd2, fexp_eq.
  set (d1 := Zdigits2 (Zpos m1)) in *.
  set (e' := Z.min (Z.max (d1 + e1 - (53 + e2) - 53) (-1074)) (e1 - e2)).
  set (s := e1 - e2 - e').
  assert (Hs : 0 <= s) by (unfold s, e'; lia).
  set (m' := match s with Z.pos _ => Z.shiftl (Zpos m1) s | 0 => Zpos m1 | Z.neg _ => 0 end).
  assert (Hm' : m' = Zpos m1 * 2 ^ s) by (apply shift_match; assumption).
  destruct (Z.div_eucl m' (Zpos m2)) as [q r] eqn:Hqr.
  pose proof (Z_div_mod m' (Zpos m2) ltac:(lia)) as Hdm. rewrite Hqr in Hdm.
  destruct Hdm as [Hdm Hr].
  assert (Hp : 0 < 2 ^ s) by (apply Z.pow_pos_nonneg; lia).
  assert (Hm0 : 0 < m') by (rewrite Hm'; apply Z.mul_pos_pos; lia).
  assert (Hq0 : 0 <= q) by nia.
  split; [assumption|].
  pose proof (Zdigits2_bounds (Zpos m1) ltac:(lia)) as [_ Hhi]. rewrite Z.abs_eq in Hhi by lia.
  fold d1 in Hhi.
  assert (Hqb : q * 2 ^ 52 < 2 ^ (d1 + s)).
  { rewrite Z.pow_add_r by lia. nia. }
  assert (Hdq : Zdigits2 q <= Z.max (d1 + s - 52) 0).
  { destruct (Z_le_gt_dec 52 (d1 + s)) as [Hge|Hlt].
    - apply Zdigits2_le; [lia|]. rewrite Z.abs_eq by lia.
      rewrite Z.max_l by lia.
      replace (d1 + s) with ((d1 + s - 52) + 52) in Hqb by lia.
      rewrite Z.pow_add_r in Hqb by lia.
      assert (0 < 2 ^ 52) by reflexivity. nia.
    - assert (2 ^ (d1 + s) <= 2 ^ 52) by (apply Z.pow_le_mono_r; lia).
      assert (q = 0) by nia. subst q. cbn. lia. }
  unfold s, e' in *. lia.
Qed.

Lemma div_magnitude (a k : Z) (x : number) (sy : bool) (my : positive) (ey : Z) :
  magnitude_below a x = true -> 2 ^ 52 <= Zpos my < 2 ^ 53 ->
  a - (ey + 52) + 1 <= k -> -1020 <= k <= 1024 ->
  magnitude_below k (div x (S754_finite sy my ey)) = true.
Proof.
  intros Hx My Hak Hk.
  destruct x as [sx|sx| |sx mx ex]; try discriminate; [reflexivity|].
  apply magnitude_below_finite in Hx. destruct Hx as [Mx Ex].
  unfold div. cbn [SFdiv].
  pose proof (div_core_bounds mx ex my ey Mx My) as Hc.
  destruct (SFdiv_core_binary prec emax (Zpos mx) ex (Zpos my) ey) as [[q e'] l].
  destruct Hc as [Hq He].
  apply binary_round_aux_magnitude; [assumption | lia | assumption].
Qed.

(** ** Integers, with either zero *)

Lemma is_int_of_Z (n : Z) : Z.abs n < 2 ^ 53 -> is_int (of_Z n) n.
Proof. intros H. left. now apply of_Z_canon. Qed.

Lemma canon_magnitude (n k : Z) :
  Z.abs n < 2 ^ k -> 0 <= k <= 53 -> magnitude_below k (canon n 0) = true.
Proof.
  intros Hn Hk.
  destruct (Z.eq_dec n 0) as [->|Hnz]; [reflexivity|].
  assert (Hd : Zdigits2 n <= k) by (apply Zdigits2_le; lia).
  pose proof (Zdigits2_pos n Hnz) as Hdp.
  destruct (canon_finite n 0 Hnz ltac:(unfold prec; lia)) as [-> HM].
  apply magnitude_below_finite. rewrite HM. split; [|unfold prec; lia].
  pose proof (Zdigits2_bounds n Hnz) as [_ Hhi].
  assert (0 < 2 ^ (prec - Zdigits2 n)) by (apply Z.pow_pos_nonneg; unfold prec; lia).
  replace (2 ^ 53) with (2 ^ Zdigits2 n * 2 ^ (prec - Zdigits2 n)).
  - apply Z.mul_lt_mono_pos_r; assumption.
  - rewrite <- Z.pow_add_r by (unfold prec; lia). f_equal. unfold prec. lia.
Qed.

Lemma is_int_magnitude (x : number) (n k : Z) :
  is_int x n -> Z.abs n < 2 ^ k -> 0 <= k <= 53 -> magnitude_below k x = true.
Proof.
  intros [->|[-> ->]] Hn Hk; [now apply canon_magnitude | reflexivity].
Qed.

Lemma is_int_mul_const (x : number) (n c : Z) :
  is_int x n -> 0 < c < 2 ^ 53 -> Z.abs (n * c) < 2 ^ 53 ->
  is_int (mul x (of_Z c)) (n * c).
Proof.
  intros [->|[-> ->]] Hc Hb.
  - left. rewrite of_Z_canon by (unfold prec; lia). apply mul_int; unfold prec; lia.
  - right. split; [reflexivity|].
    rewrite of_Z_canon by (unfold prec; lia). destruct c; try lia. reflexivity.
Qed.

Lemma is_int_add (x y : number) (a b : Z) :
  is_int x a -> is_int y b ->
  Z.abs a < 2 ^ 53 -> Z.abs b < 2 ^ 53 -> Z.abs (a + b) < 2 ^ 53 ->
  is_int (add x y) (a + b).
Proof.
  intros [->|[-> ->]] [->|[-> ->]] Ha Hb Hab.
  - left. apply add_int; assumption.
  - left. rewrite Z.add_0_r. destruct a; reflexivity.
  - left. destruct b; reflexivity.
  - right. split; reflexivity.
Qed.

Lemma is_int_sub (x y : number) (a b : Z) :
  is_int x a -> is_int y b ->
  Z.abs a < 2 ^ 53 -> Z.abs b < 2 ^ 53 -> Z.abs (a - b) < 2 ^ 53 ->
  is_int (sub x y) (a - b).
Proof.
  intros [->|[-> ->]] [->|[-> ->]] Ha Hb Hab.
  - left. apply sub_int; assumption.
  - left. rewrite Z.sub_0_r. destruct a; reflexivity.
  - destruct b; [right; split; reflexivity | left; reflexivity | left; reflexivity].
  - left. reflexivity.
Qed.

Lemma Math_max_0_is_int (x : number) (n : Z) :
  is_int x n -> Math_max (of_Z 0) x = canon (Z.max 0 n) 0.
Proof.
  intros [->|[-> ->]]; [apply Math_max_0_int | reflexivity].
Qed.

Lemma Math_abs_is_int (x : number) (n : Z) : is_int x n -> Math_abs x = canon (Z.abs n) 0.
Proof.
  intros [->|[-> ->]]; [apply Math_abs_canon | reflexivity].
Qed.

Lemma leb_is_int (x y : number) (a b : Z) :
  is_int x a -> is_int y b -> Z.abs a < 2 ^ 53 -> Z.abs b < 2 ^ 53 ->
  leb x y = (a <=? b).
Proof.
  intros Hx Hy Ha Hb.
  assert (E : leb x y = leb (canon a 0) (canon b 0)).
  { unfold leb, SFleb.
    destruct Hx as [->|[-> ->]], Hy as [->|[-> ->]]; reflexivity. }
  rewrite E. apply leb_canon; assumption.
Qed.

(** [Math.round] of a number below [2^k], [k <= 52], is an integer of
    magnitude at most [2^k]. *)
Lemma Math_round_is_int (x : number) (k : Z) :
  magnitude_below k x = true -> 0 <= k <= 52 ->
  exists n : Z, Z.abs n <= 2 ^ k /\ is_int (Math_round x) n.
Proof.
  intros Hx Hk.
  assert (H2k : 0 < 2 ^ k) by (apply Z.pow_pos_nonneg; lia).
  destruct x as [s|s| |s m e]; try discriminate.
  - exists 0. split; [cbn; lia|]. destruct s; [right; split; reflexivity | left; reflexivity].
  - apply magnitude_below_finite in Hx. destruct Hx as [Hm He].
    cbn [Math_round].
    replace (0 <=? e) with false by (symmetry; apply Z.leb_gt; lia).
    set (n := round_Z s m e).
    assert (Hn : Z.abs n <= 2 ^ k).
    { unfold n, round_Z. rewrite Z.shiftr_div_pow2 by lia.
      set (j := - e). replace (1 - e) with (Z.succ j) by (unfold j; lia).
      assert (Hj : 0 < j) by (unfold j; lia).
      rewrite Z.pow_succ_r by lia.
      assert (Hpj : 0 < 2 ^ j) by (apply Z.pow_pos_nonneg; lia).
      assert (Hmk : Zpos m < 2 ^ k * 2 ^ j).
      { rewrite <- Z.pow_add_r by lia.
        assert (2 ^ 53 <= 2 ^ (k + j)) by (apply Z.pow_le_mono_r; unfold j; lia). lia. }
      set (z := cond_Zopp s (Zpos m)).
      assert (Hz : Z.abs z < 2 ^ k * 2 ^ j) by (unfold z; destruct s; cbn [cond_Zopp]; lia).
      set (c := 2 ^ j) in *. set (K := 2 ^ k) in *.
      apply Z.abs_le. split.
      - apply Z.div_le_lower_bound; [lia|]. nia.
      - apply Z.lt_succ_r. apply Z.div_lt_upper_bound; [lia|]. nia. }
    exists n. split; [assumption|].
    assert (Hn53 : Z.abs n < 2 ^ 53).
    { assert (2 ^ k <= 2 ^ 52) by (apply Z.pow_le_mono_r; lia).
      change (2 ^ 53) with (2 * 2 ^ 52). assert (0 < 2 ^ 52) by reflexivity. lia. }
    destruct n as [|p|p] eqn:En.
    + destruct s; [right; split; reflexivity | left; reflexivity].
    + left. apply of_Z_canon. exact Hn53.
    + left. apply of_Z_canon. exact Hn53.
Qed.

Lemma Math_round_not_nan (x : number) : is_nan x = false -> is_nan (Math_round x) = false.
Proof.
  destruct x as [s|s| |s m e]; try discriminate; try reflexivity. intros _.
  cbn [Math_round]. destruct (0 <=? e); [reflexivity|].
  destruct (round_Z s m e); [reflexivity | |]; apply binary_normalize_not_nan.
Qed.

Lemma Math_round_magnitude (x : number) (k : Z) :
  magnitude_below k x = true -> 53 <= k -> magnitude_below k (Math_round x) = true.
Proof.
  intros Hx Hk. destruct x as [s|s| |s m e]; try discriminate; [reflexivity|].
  destruct (Z.leb_spec 0 e) as [He|He].
  - cbn [Math_round]. replace (0 <=? e) with true by (symmetry; apply Z.leb_le; lia).
    exact Hx.
  - assert (H52 : magnitude_below 52 (S754_finite s m e) = true).
    { apply magnitude_below_finite in Hx. apply magnitude_below_finite. lia. }
    destruct (Math_round_is_int _ 52 H52 ltac:(lia)) as (n & Hn & Hi).
    apply (magnitude_below_weaken 53); [lia|].
    apply (is_int_magnitude _ n); [assumption | | lia].
    change (2 ^ 53) with (2 * 2 ^ 52). assert (0 < 2 ^ 52) by reflexivity. lia.
Qed.

Lemma truthy_not_nan (x : number) : truthy x = true -> is_nan x = false.
Proof. destruct x; try discriminate; reflexivity. Qed.

Lemma sub_finite_not_nan (x y : number) :
  is_finite x = true -> is_nan y = false -> is_nan (sub x y) = false.
Proof.
  intros Hx Hy.
  destruct x as [sx|sx| |sx mx ex], y as [sy|sy| |sy my ey]; try discriminate;
    try reflexivity.
  - destruct sx, sy; reflexivity.
  - apply binary_normalize_not_nan.
Qed.

Lemma sub_not_nan_finite (x y : number) :
  is_nan x = false -> is_finite y = true -> is_nan (sub x y) = false.
Proof.
  intros Hx Hy.
  destruct x as [sx|sx| |sx mx ex], y as [sy|sy| |sy my ey]; try discriminate;
    try reflexivity.
  - destruct sx, sy; reflexivity.
  - apply binary_normalize_not_nan.
Qed.

Lemma div_not_nan (x y : number) :
  is_nan x = false -> is_finite y = true -> truthy y = true ->
  is_nan (div x y) = false.
Proof.
  intros Hx Hy Ht.
  destruct x as [sx|sx| |sx mx ex], y as [sy|sy| |sy my ey]; try discriminate;
    try reflexivity.
  unfold div. cbn [SFdiv]. unfold SFdiv_core_binary.
  set (m' := match _ with Z.pos _ => _ | 0 => _ | Z.neg _ => 0 end).
  assert (Hm' : 0 <= m').
  { unfold m'. destruct (_ - _ - _); try lia. apply Z.shiftl_nonneg. lia. }
  pose proof (Z_div_mod m' (Zpos my) ltac:(lia)) as Hdm.
  destruct (Z.div_eucl m' (Zpos my)) as [q r].
  apply binary_round_aux_not_nan. nia.
Qed.

Lemma or_else_magnitude (k : Z) (x d : number) :
  magnitude_below k x = true -> magnitude_below k d = true ->
  magnitude_below k (or_else x d) = true.
Proof. intros Hx Hd. unfold or_else. destruct (truthy x); assumption. Qed.

End FloatFacts.

(** * The target calculator *)

Section TargetCalculatorFacts.

(** C1 (as stated in the specification): the scenario's values are not
    1073.75, 1664.3125, 1331, 140, 37 and 110; the BMR of the profile is
    already 1648.75. *)
Lemma scenario_not_as_specified :
  ~ scenario_values (dec 107375 (-2)) (dec 16643125 (-4)) (of_Z 1331)
                    (of_Z 140) (of_Z 37) (of_Z 110).
Proof.
  intros [H _]. vm_compute in H. discriminate H.
Qed.

(** C1 (amended): for the profile 70 kg, 175 cm, 30 years, male, moderately
    active, goal lose, the pipeline yields BMR 1648.75, TDEE 2555.5625,
    calorie target 2044, protein 140 g, fat 57 g and carbs 243 g. *)
Theorem scenario_computed :
  scenario_values (dec 164875 (-2)) (dec 25555625 (-4)) (of_Z 2044)
                  (of_Z 140) (of_Z 57) (of_Z 243).
Proof.
  unfold scenario_values. repeat split; vm_compute; reflexivity.
Qed.

(** ** Macro targets on integers *)

Lemma pow2_40_lt : 2 ^ 40 * 4096 < 2 ^ prec.
Proof. reflexivity. Qed.

(** With integer calorie target, protein and fat, every later step of
    [calculateMacroTargets] is exact integer arithmetic. *)
Lemma macro_targets_is_int
    (ct : number) (goal : GoalType) (w : option number) (n P F : Z) :
  let m := calculateMacroTargets ct goal w in
  is_int ct n -> is_int (protein m) P -> is_int (fat m) F ->
  Z.abs n < 2 ^ 40 -> Z.abs P < 2 ^ 40 -> Z.abs F < 2 ^ 40 ->
  let C := (Z.max 0 (n - 4 * P - 9 * F) + 2) / 4 in
  carbs m = of_Z C /\ is_int (_calculatedCalories m) (4 * P + 4 * C + 9 * F).
Proof.
  intros m Hct HP HF Hn HPr HFr C.
  assert (HC : 0 <= C <= 2 ^ 42).
  { unfold C. split; [apply Z.div_pos; lia|].
    apply Z.div_le_upper_bound; lia. }
  assert (Hcarbs : carbs m = of_Z C).
  { subst m. unfold calculateMacroTargets in *.
    destruct goal; cbn [protein fat carbs] in *;
      (pose proof (is_int_mul_const _ _ 4 HP ltac:(lia) ltac:(lia)) as H4;
       pose proof (is_int_mul_const _ _ 9 HF ltac:(lia) ltac:(lia)) as H9;
       pose proof (is_int_sub _ _ _ _ Hct H4 ltac:(lia) ltac:(lia) ltac:(lia)) as Hs1;
       pose proof (is_int_sub _ _ _ _ Hs1 H9 ltac:(lia) ltac:(lia) ltac:(lia)) as Hs2;
       rewrite (Math_max_0_is_int _ _ Hs2);
       rewrite div_4_int by (unfold prec; lia);
       rewrite Math_round_quarters by (unfold prec; lia);
       rewrite of_Z_canon by (unfold prec; lia);
       f_equal; unfold C; f_equal; f_equal; f_equal; lia). }
  split; [exact Hcarbs|].
  assert (HiC : is_int (carbs m) C) by (rewrite Hcarbs; apply is_int_of_Z; lia).
  assert (Htot : _calculatedCalories m
                 = add (add (mul (protein m) (of_Z 4)) (mul (carbs m) (of_Z 4)))
                       (mul (fat m) (of_Z 9))).
  { subst m. unfold calculateMacroTargets. destruct goal; reflexivity. }
  rewrite Htot.
  pose proof (is_int_mul_const _ _ 4 HP ltac:(lia) ltac:(lia)) as H4.
  pose proof (is_int_mul_const _ _ 4 HiC ltac:(lia) ltac:(lia)) as H4c.
  pose proof (is_int_mul_const _ _ 9 HF ltac:(lia) ltac:(lia)) as H9.
  pose proof (is_int_add _ _ _ _ H4 H4c ltac:(lia) ltac:(lia) ltac:(lia)) as Ha1.
  pose proof (is_int_add _ _ _ _ Ha1 H9 ltac:(lia) ltac:(lia) ltac:(lia)) as Ha2.
  replace (4 * P + 4 * C + 9 * F) with (P * 4 + C * 4 + F * 9) by lia.
  exact Ha2.
Qed.

Lemma multiplier_magnitude (a : ActivityLevel) :
  magnitude_below 1 (ACTIVITY_MULTIPLIERS a) = true.
Proof. destruct a; vm_compute; reflexivity. Qed.

Lemma BMR_magnitude (w h a : number) (g : Gender) :
  magnitude_below 13 w = true -> magnitude_below 13 h = true ->
  magnitude_below 13 a = true ->
  magnitude_below 24 (calculateBMR w h a g) = true.
Proof.
  intros Hw Hh Ha. unfold calculateBMR.
  assert (H10 : magnitude_below 18 (mul (of_Z 10) w) = true).
  { apply (mul_magnitude 4 13); [reflexivity | assumption | lia | lia]. }
  assert (H625 : magnitude_below 17 (mul (dec 625 (-2)) h) = true).
  { apply (mul_magnitude 3 13); [reflexivity | assumption | lia | lia]. }
  assert (H5 : magnitude_below 17 (mul (of_Z 5) a) = true).
  { apply (mul_magnitude 3 13); [reflexivity | assumption | lia | lia]. }
  assert (Hs : magnitude_below 20 (add (mul (of_Z 10) w) (mul (dec 625 (-2)) h)) = true).
  { apply (add_magnitude 18 17); try assumption; lia. }
  assert (Hb : magnitude_below 22
                 (sub (add (mul (of_Z 10) w) (mul (dec 625 (-2)) h)) (mul (of_Z 5) a)) = true).
  { apply (sub_magnitude 20 17); try assumption; lia. }
  destruct g.
  - apply (add_magnitude 22 3); [assumption | reflexivity | lia | lia].
  - apply (sub_magnitude 22 8); [assumption | reflexivity | lia | lia].
  - apply (sub_magnitude 22 8); [assumption | reflexivity | lia | lia].
Qed.

Lemma calorie_target_is_int (tdee : number) (goal : GoalType) :
  magnitude_below 26 tdee = true ->
  exists n, Z.abs n <= 2 ^ 28 /\ is_int (calculateCalorieTarget tdee goal) n.
Proof.
  intros Ht. unfold calculateCalorieTarget. destruct goal.
  - apply Math_round_is_int; [|lia].
    apply (mul_magnitude 26 0); [assumption | reflexivity | lia | lia].
  - apply Math_round_is_int; [|lia].
    apply (magnitude_below_weaken 26); [lia | assumption].
  - apply Math_round_is_int; [|lia].
    apply (mul_magnitude 26 1); [assumption | reflexivity | lia | lia].
Qed.

Lemma protein_fat_is_int (ct : number) (goal : GoalType) (w : number) (n : Z) :
  is_int ct n -> Z.abs n <= 2 ^ 28 -> magnitude_below 13 w = true ->
  let m := calculateMacroTargets ct goal (Some w) in
  (exists P, Z.abs P <= 2 ^ 16 /\ is_int (protein m) P) /\
  (exists F, Z.abs F <= 2 ^ 27 /\ is_int (fat m) F).
Proof.
  intros Hct Hn Hw m.
  assert (Hw' : magnitude_below 13 (or_else w (of_Z 70)) = true).
  { apply or_else_magnitude; [assumption | reflexivity]. }
  assert (Hc : magnitude_below 29 ct = true).
  { apply (is_int_magnitude ct n); [assumption | | lia].
    change (2 ^ 29) with (2 * 2 ^ 28). assert (0 < 2 ^ 28) by reflexivity. lia. }
  assert (Hf : magnitude_below 27 (div (mul ct (dec 25 (-2))) (of_Z 9)) = true).
  { change (of_Z 9) with (S754_finite false 5066549580791808 (-49)).
    apply (div_magnitude 29); [|cbn; lia | lia | lia].
    apply (mul_magnitude 29 (-1)); [assumption | reflexivity | lia | lia]. }
  subst m. unfold calculateMacroTargets.
  destruct goal; cbn [protein fat]; split;
    try (apply Math_round_is_int; [exact Hf | lia]);
    apply Math_round_is_int; try lia.
  - apply (mul_magnitude 13 2); [assumption | reflexivity | lia | lia].
  - apply (mul_magnitude 13 1); [assumption | reflexivity | lia | lia].
  - apply (mul_magnitude 13 1); [assumption | reflexivity | lia | lia].
Qed.

(** C2 (as stated): a profile with positive weight, height and age whose
    macros miss the calorie target by 77 kcal: 150 kg, 100 cm, 80 years,
    female, sedentary, goal lose.  Protein and fat alone exceed the target
    and the carbs are clamped at zero. *)
Lemma heavy_profile_misses_by_77 :
  (of_Z 0 <? weightKg heavy_profile)%js = true /\
  (of_Z 0 <? heightCm heavy_profile)%js = true /\
  (of_Z 0 <? ageYears heavy_profile)%js = true /\
  daily_calorie_target (computeDailyTargets heavy_profile) = of_Z 1501 /\
  macroCalories (computeDailyTargets heavy_profile) = of_Z 1578 /\
  within_tolerance (of_Z 76) (computeDailyTargets heavy_profile) = false.
Proof. repeat split; vm_compute; reflexivity. Qed.

(** C2 (amended): for every profile whose weight, height and age are
    finite and below 2^13 in magnitude, the macros reconstruct the calorie
    target within 2 kcal whenever protein and fat calories do not exceed it
    ([carbCalories >= 0], no clamping); when they exceed it, the carbs are 0
    and the macros overshoot the calorie target by exactly the excess. *)
Theorem macro_calories_within_2 (p : BodyProfile) :
  magnitude_below 13 (weightKg p) = true ->
  magnitude_below 13 (heightCm p) = true ->
  magnitude_below 13 (ageYears p) = true ->
  let t := computeDailyTargets p in
  (leb (of_Z 0) (carbCalories t) = true -> within_tolerance (of_Z 2) t = true) /\
  (ltb (carbCalories t) (of_Z 0) = true ->
   daily_carbs_target t = of_Z 0 /\
   sub (macroCalories t) (daily_calorie_target t) = Math_abs (carbCalories t)).
Proof.
  intros Hw Hh Ha t.
  pose proof (BMR_magnitude _ _ _ (gender p) Hw Hh Ha) as Hbmr.
  assert (Htdee : magnitude_below 26
            (calculateTDEE (calculateBMR (weightKg p) (heightCm p) (ageYears p) (gender p))
               (activityLevel p)) = true).
  { unfold calculateTDEE.
    apply (mul_magnitude 24 1); [assumption | apply multiplier_magnitude | lia | lia]. }
  destruct (calorie_target_is_int _ (goalType p) Htdee) as (n & Hn & Hct).
  destruct (protein_fat_is_int _ (goalType p) (weightKg p) n Hct Hn Hw)
    as [(P & HP & HiP) (F & HF & HiF)].
  assert (B28 : 2 ^ 28 < 2 ^ 40) by reflexivity.
  assert (B16 : 2 ^ 16 < 2 ^ 40) by reflexivity.
  assert (B27 : 2 ^ 27 < 2 ^ 40) by reflexivity.
  assert (B53 : 2 ^ 40 * 4096 < 2 ^ 53) by reflexivity.
  destruct (macro_targets_is_int _ _ _ n P F Hct HiP HiF ltac:(lia) ltac:(lia) ltac:(lia))
    as [HC Htot].
  set (C := (Z.max 0 (n - 4 * P - 9 * F) + 2) / 4) in *.
  assert (HCb : 0 <= C <= 2 ^ 40).
  { unfold C. split; [apply Z.div_pos; lia | apply Z.div_le_upper_bound; lia]. }
  assert (Hmc : is_int (macroCalories t) (4 * P + 4 * C + 9 * F)).
  { unfold macroCalories, t, computeDailyTargets.
    cbn [daily_protein_target daily_carbs_target daily_fat_target].
    set (m := calculateMacroTargets _ _ _) in *.
    replace (add (add (mul (protein m) (of_Z 4)) (mul (carbs m) (of_Z 4)))
                 (mul (fat m) (of_Z 9)))
      with (_calculatedCalories m); [exact Htot|].
    subst m. unfold calculateMacroTargets. destruct (goalType p); reflexivity. }
  assert (Hcc : is_int (carbCalories t) (n - P * 4 - F * 9)).
  { unfold carbCalories, t, computeDailyTargets.
    cbn [daily_calorie_target daily_protein_target daily_fat_target].
    pose proof (is_int_mul_const _ _ 4 HiP ltac:(lia) ltac:(lia)) as H4.
    pose proof (is_int_mul_const _ _ 9 HiF ltac:(lia) ltac:(lia)) as H9.
    pose proof (is_int_sub _ _ _ _ Hct H4 ltac:(lia) ltac:(lia) ltac:(lia)) as Hs1.
    exact (is_int_sub _ _ _ _ Hs1 H9 ltac:(lia) ltac:(lia) ltac:(lia)). }
  assert (Hcal : is_int (daily_calorie_target t) n) by exact Hct.
  pose proof (Z.div_mod (Z.max 0 (n - 4 * P - 9 * F) + 2) 4 ltac:(lia)) as Hdm.
  pose proof (Z.mod_pos_bound (Z.max 0 (n - 4 * P - 9 * F) + 2) 4 ltac:(lia)) as Hmb.
  fold C in Hdm.
  pose proof (is_int_sub _ _ _ _ Hmc Hcal ltac:(lia) ltac:(lia) ltac:(lia)) as Hdiff.
  split.
  - intros Hge.
    rewrite (leb_is_int _ _ 0 _ (is_int_of_Z 0 ltac:(cbn; lia)) Hcc ltac:(cbn; lia) ltac:(lia))
      in Hge.
    apply Z.leb_le in Hge.
    unfold within_tolerance.
    rewrite (Math_abs_is_int _ _ Hdiff).
    rewrite (of_Z_canon 2) by reflexivity.
    rewrite leb_canon by (unfold prec; lia).
    apply Z.leb_le. lia.
  - intros Hlt.
    assert (Hlt' : n - P * 4 - F * 9 < 0).
    { destruct (Z_lt_le_dec (n - P * 4 - F * 9) 0); [assumption|]. exfalso.
      assert (Hge : leb (of_Z 0) (carbCalories t) = true).
      { rewrite (leb_is_int _ _ 0 _ (is_int_of_Z 0 ltac:(cbn; lia)) Hcc
                   ltac:(cbn; lia) ltac:(lia)).
        apply Z.leb_le. lia. }
      rewrite (leb_negb_ltb (of_Z 0) (carbCalories t)) in Hge.
      - rewrite Hlt in Hge. discriminate.
      - reflexivity.
      - destruct Hcc as [->|[_ ->]]; [|reflexivity].
        destruct (n - P * 4 - F * 9); reflexivity. }
    assert (HC0 : C = 0) by lia.
    split.
    + unfold t, computeDailyTargets. cbn [daily_carbs_target].
      rewrite HC, HC0. reflexivity.
    + rewrite (Math_abs_is_int _ _ Hcc).
      destruct Hdiff as [->|[Hz _]]; [f_equal; lia | lia].
Qed.

Lemma macro_calories_within_2_witness :
  within_tolerance (of_Z 2) (computeDailyTargets scenario_profile) = true.
Proof.
  refine (proj1 (macro_calories_within_2 scenario_profile _ _ _) _); reflexivity.
Defined.

(** ** BMR and gender *)

(** C5 (as stated): with weight 2 kg, height 35.2 cm and age 70 the male
    BMR is -104.99999999999997 and the female BMR is -271; their difference
    is not 166, and the female BMR plus 166 is not the male BMR. *)
Lemma bmr_offset_not_always_166 :
  (of_Z 0 <? of_Z 2)%js = true /\ (of_Z 0 <? dec 352 (-1))%js = true /\
  (of_Z 0 <? of_Z 70)%js = true /\
  calculateBMR (of_Z 2) (dec 352 (-1)) (of_Z 70) male
    <> (calculateBMR (of_Z 2) (dec 352 (-1)) (of_Z 70) female + of_Z 166)%js /\
  (calculateBMR (of_Z 2) (dec 352 (-1)) (of_Z 70) male
    - calculateBMR (of_Z 2) (dec 352 (-1)) (of_Z 70) female)%js <> of_Z 166.
Proof.
  repeat split; try (vm_compute; reflexivity);
    intros H; vm_compute in H; discriminate H.
Qed.

Lemma pow2_nonneg_pos (j : Z) : 0 <= j -> 0 < 2 ^ j.
Proof. intros. apply Z.pow_pos_nonneg; lia. Qed.

Lemma int_on_grid (c e : Z) :
  -1022 <= e <= 0 -> Z.abs c * 2 ^ (- e) < 2 ^ prec ->
  of_Z c = canon (c * 2 ^ (- e)) e.
Proof.
  intros He Hc.
  pose proof (pow2_nonneg_pos (- e) ltac:(lia)).
  assert (Z.abs c < 2 ^ prec) by nia.
  rewrite of_Z_canon by assumption.
  replace e with (0 - - e) at 2 by lia.
  apply canon_scale; [now apply int_range | | lia].
  split; [|lia]. rewrite Z.abs_mul, (Z.abs_eq (2 ^ (- e))) by lia. assumption.
Qed.

(** When the base value is [z * 2^e] and adding 166 at that precision stays
    within the 53-bit mantissa, both gender branches are exact. *)
Lemma bmr_offset_exact (weight height age : number) (z e : Z) :
  BMR_base weight height age = canon z e ->
  -1022 <= e <= 0 -> Z.abs z + 166 * 2 ^ (- e) < 2 ^ prec ->
  calculateBMR weight height age male
    = (calculateBMR weight height age female + of_Z 166)%js /\
  (calculateBMR weight height age male - calculateBMR weight height age female)%js
    = of_Z 166.
Proof.
  intros Hb He Hz.
  pose proof (pow2_nonneg_pos (- e) ltac:(lia)) as Hp.
  unfold calculateBMR. fold (BMR_base weight height age). rewrite Hb.
  rewrite (int_on_grid 5 e), (int_on_grid 161 e), (int_on_grid 166 e) by (try assumption; lia).
  assert (R : forall c, Z.abs c <= Z.abs z + 166 * 2 ^ (- e) -> exact_range c e).
  { intros c Hc. split; lia. }
  unfold add, sub.
  rewrite add_canon, sub_canon by (apply R; lia).
  rewrite add_canon, sub_canon by (apply R; lia).
  split; f_equal; lia.
Qed.

(** C5 (amended): [other] always gives the female BMR.  The male BMR is
    exactly 166 above the female one whenever the base value
    [10*weight + 6.25*height - 5*age], as computed, is [z * 2^e] with
    [|z| + 166 * 2^(-e) < 2^53], that is, whenever adding 5 and subtracting
    161 lose no bits; this covers all integer weights, heights and ages
    below 2^40. *)
Theorem bmr_gender_offset (weight height age : number) :
  calculateBMR weight height age other = calculateBMR weight height age female /\
  (forall z e : Z,
      BMR_base weight height age = canon z e ->
      -1022 <= e <= 0 -> Z.abs z + 166 * 2 ^ (- e) < 2 ^ prec ->
      calculateBMR weight height age male
        = (calculateBMR weight height age female + of_Z 166)%js /\
      (calculateBMR weight height age male - calculateBMR weight height age female)%js
        = of_Z 166) /\
  (forall W H A : Z,
      weight = of_Z W -> height = of_Z H -> age = of_Z A ->
      Z.abs W < 2 ^ 40 -> Z.abs H < 2 ^ 40 -> Z.abs A < 2 ^ 40 ->
      calculateBMR weight height age male
        = (calculateBMR weight height age female + of_Z 166)%js /\
      (calculateBMR weight height age male - calculateBMR weight height age female)%js
        = of_Z 166).
Proof.
  split; [reflexivity|]. split.
  - intros z e. apply bmr_offset_exact.
  - intros W H A -> -> -> HW HH HA.
    pose proof pow2_40_lt as Hpow.
    apply (bmr_offset_exact _ _ _ (40 * W + 25 * H - 20 * A) (-2)).
    + unfold BMR_base.
      change (dec 625 (-2)) with (canon 25 (-2)).
      rewrite !of_Z_canon by lia.
      rewrite !mul_int by lia.
      assert (Hh : mul (canon 25 (-2)) (canon H 0) = canon (25 * H) (-2)).
      { destruct (Z.eq_dec H 0) as [->|HH0]; [reflexivity|].
        apply (mul_canon 25 (-2) H 0); try lia; split; lia. }
      unfold mul in *. rewrite Hh.
      rewrite <- (of_Z_canon (10 * W)), <- (of_Z_canon (5 * A)) by lia.
      rewrite (int_on_grid (10 * W) (-2)), (int_on_grid (5 * A) (-2))
        by (change (2 ^ (- -2)) with 4; lia).
      change (2 ^ (- -2)) with 4.
      unfold add, sub.
      rewrite add_canon, sub_canon by (split; lia).
      f_equal. lia.
    + lia.
    + change (2 ^ (- -2)) with 4. lia.
Qed.

Lemma bmr_gender_offset_witness :
  calculateBMR (of_Z 70) (of_Z 175) (of_Z 30) male
    = (calculateBMR (of_Z 70) (of_Z 175) (of_Z 30) female + of_Z 166)%js /\
  (calculateBMR (of_Z 70) (of_Z 175) (of_Z 30) male
    - calculateBMR (of_Z 70) (of_Z 175) (of_Z 30) female)%js = of_Z 166.
Proof.
  destruct (bmr_gender_offset (of_Z 70) (of_Z 175) (of_Z 30)) as (_ & Hgrid & Hint).
  apply (Hint 70 175 30); try reflexivity; cbn; lia.
Defined.


(** ** Carbs are never negative *)

Lemma carbs_is_number (ct : number) (goal : GoalType) (w : option number) :
  magnitude_below 1021 ct = true ->
  is_nan (carbs (calculateMacroTargets ct goal w)) = false.
Proof.
  intros Hct.
  set (weight := match w with Some x => or_else x (of_Z 70) | None => of_Z 70 end).
  assert (Hw : is_nan weight = false).
  { unfold weight. destruct w as [x|]; [|reflexivity].
    unfold or_else. destruct (truthy x) eqn:E; [now apply truthy_not_nan | reflexivity]. }
  assert (Hf9 : is_finite (mul (Math_round (div (mul ct (dec 25 (-2))) (of_Z 9))) (of_Z 9))
                = true).
  { apply (magnitude_below_is_finite 1024).
    apply (mul_magnitude 1019 4); [|reflexivity | lia | lia].
    apply Math_round_magnitude; [|lia].
    change (of_Z 9) with (S754_finite false 5066549580791808 (-49)).
    apply (div_magnitude 1021); [|cbn; lia | lia | lia].
    apply (mul_magnitude 1021 (-1)); [assumption | reflexivity | lia | lia]. }
  assert (Hfin : is_finite ct = true) by (apply (magnitude_below_is_finite 1021); assumption).
  assert (Hgoal : forall ppk : number, is_finite ppk = true -> truthy ppk = true ->
    is_nan (Math_round (div (Math_max (of_Z 0)
       (sub (sub ct (mul (Math_round (mul weight ppk)) (of_Z 4)))
            (mul (Math_round (div (mul ct (dec 25 (-2))) (of_Z 9))) (of_Z 9))))
       (of_Z 4))) = false).
  { intros ppk Hp1 Hp2.
    apply Math_round_not_nan. apply div_not_nan; [|reflexivity|reflexivity].
    apply Math_max_nan; [reflexivity|].
    apply sub_not_nan_finite; [|exact Hf9].
    apply sub_finite_not_nan; [exact Hfin|].
    apply mul_not_nan; [|reflexivity|reflexivity].
    apply Math_round_not_nan. apply mul_not_nan; assumption. }
  unfold calculateMacroTargets. fold weight.
  destruct goal; cbn [carbs]; apply Hgoal; reflexivity.
Qed.

(** C8: for every goal, calorie target and weight, the carbs grams are
    never below zero: they are rounded from [Math.max(0, carbCalories) / 4].
    They are [>= 0] whenever they are a number, and they are a number for
    every finite calorie target below 2^1021 in magnitude, whatever the
    weight. *)
Theorem carbs_never_negative
    (calorieTarget : number) (goalType : GoalType) (weightKg : option number) :
  let m := calculateMacroTargets calorieTarget goalType weightKg in
  (carbs m <? of_Z 0)%js = false /\
  (is_nan (carbs m) = false -> (of_Z 0 <=? carbs m)%js = true) /\
  (magnitude_below 1021 calorieTarget = true -> (of_Z 0 <=? carbs m)%js = true).
Proof.
  intros m.
  assert (H : sign_is false (carbs m)).
  { subst m. unfold calculateMacroTargets.
    destruct goalType; cbn [carbs];
      apply Math_round_sign, div_pos_sign; try reflexivity; apply Math_max_0_sign. }
  split; [apply sign_plus_not_lt_0, H|].
  split.
  - intros Hn. apply sign_plus_ge_0; assumption.
  - intros Hc. apply sign_plus_ge_0; [assumption|]. now apply carbs_is_number.
Qed.

Lemma carbs_never_negative_witness :
  (carbs (calculateMacroTargets (of_Z 1501) lose (Some (of_Z 150))) <? of_Z 0)%js = false /\
  (of_Z 0 <=? carbs (calculateMacroTargets (of_Z 1501) lose (Some (of_Z 150))))%js = true.
Proof.
  destruct (carbs_never_negative (of_Z 1501) lose (Some (of_Z 150))) as (H1 & _ & H3).
  split; [exact H1 | apply H3; reflexivity].
Defined.

(** ** Activity levels *)

(** C6 (as stated): with BMR 1 and goal maintain the calorie target is 1
    for [sedentary] and for [lightly_active] alike (TDEE 1.2 and 1.375 both
    round to 1), so the calorie target does not strictly increase. *)
Lemma calorie_target_not_strict :
  (of_Z 0 <? of_Z 1)%js = true /\
  calculateCalorieTarget (calculateTDEE (of_Z 1) sedentary) maintain = of_Z 1 /\
  calculateCalorieTarget (calculateTDEE (of_Z 1) lightly_active) maintain = of_Z 1 /\
  (calculateCalorieTarget (calculateTDEE (of_Z 1) sedentary) maintain
   <? calculateCalorieTarget (calculateTDEE (of_Z 1) lightly_active) maintain)%js = false.
Proof. repeat split; vm_compute; reflexivity. Qed.


(** From BMR 8 upwards consecutive TDEE values are more than 1 kcal apart
    after the goal factor, so they round to different calorie targets. *)
Lemma calorie_target_strict (bmr : number) (goal : GoalType) (a b : ActivityLevel) :
  in_normal_range bmr = true -> leb (of_Z 8) bmr = true ->
  (level_rank a < level_rank b)%nat ->
  ltb (calculateCalorieTarget (calculateTDEE bmr a) goal)
      (calculateCalorieTarget (calculateTDEE bmr b) goal) = true.
Proof.
  intros Hr H8 Hab.
  destruct (in_normal_range_spec bmr Hr) as [Hn He].
  destruct (multiplier_normal a) as [Ea Na].
  destruct (multiplier_normal b) as [Eb Nb].
  unfold calculateTDEE. rewrite Ea, Eb.
  assert (N8 : pos_normal (of_Z 8)) by (cbn; lia).
  assert (HV : 2 ^ 52 * 2 ^ 1025 <= ival bmr).
  { unfold leb, SFleb in H8. rewrite (compare_pos_normal _ _ N8 Hn) in H8.
    change (ival (of_Z 8)) with (2 ^ 52 * 2 ^ 1025) in H8.
    destruct (Z.compare_spec (2 ^ 52 * 2 ^ 1025) (ival bmr)); try discriminate; lia. }
  destruct bmr as [| | |[] mx ex]; cbn [pos_normal] in Hn; try tauto.
  cbn [exponent_of] in He.
  assert (Hex : -49 <= ex).
  { destruct (Z_le_gt_dec (-49) ex); [assumption|]. exfalso.
    cbn [ival cond_Zopp] in HV.
    assert (2 ^ (ex + 1074) <= 2 ^ 1024) by (apply Z.pow_le_mono_r; lia).
    assert (0 < 2 ^ (ex + 1074)) by (apply Z.pow_pos_nonneg; lia).
    change (2 ^ 1025) with (2 * 2 ^ 1024) in HV.
    assert (0 < 2 ^ 1024) by reflexivity.
    destruct Hn as [[_ Hm] _]. change (2 ^ 53) with (2 * 2 ^ 52) in Hm. nia. }
  destruct (mul_pos_normal mx (multiplier_mantissa a) ex (-52) Hn Na ltac:(lia) ltac:(lia))
    as (Ta & _ & Xa).
  destruct (mul_pos_normal mx (multiplier_mantissa b) ex (-52) Hn Nb ltac:(lia) ltac:(lia))
    as (Tb & _ & Xb).
  pose proof (mul_rel mx (multiplier_mantissa a) ex (-52) Hn Na ltac:(lia) ltac:(lia) ltac:(lia))
    as Ra.
  pose proof (mul_rel mx (multiplier_mantissa b) ex (-52) Hn Nb ltac:(lia) ltac:(lia) ltac:(lia))
    as Rb.
  cbv zeta in Ra, Rb.
  set (V := ival (S754_finite false mx ex)) in *.
  set (ta := mul (S754_finite false mx ex) (S754_finite false (multiplier_mantissa a) (-52))) in *.
  set (tb := mul (S754_finite false mx ex) (S754_finite false (multiplier_mantissa b) (-52))) in *.
  destruct (pos_normal_inv ta Ta) as (na & ea & Hta).
  destruct (pos_normal_inv tb Tb) as (nb & eb & Htb).
  rewrite Hta in Ta, Xa, Ra. rewrite Htb in Tb, Xb, Rb. cbn [exponent_of] in Xa, Xb.
  rewrite Hta, Htb.
  destruct calorie_factor_normal as (L1 & L2 & G1 & G2).
  change (dec 80 (-2)) with (S754_finite false 7205759403792794 (-53)) in *.
  change (dec 110 (-2)) with (S754_finite false 4953959590107546 (-52)) in *.
  destruct multiplier_mantissa_values as (M1 & M2 & M3 & M4 & M5).
  change (2 ^ (- -52)) with (2 ^ 52) in Ra, Rb.
  unfold calculateCalorieTarget. destruct goal.
  - (* lose *)
    destruct (mul_pos_normal na 7205759403792794 ea (-53) Ta L1 ltac:(lia) ltac:(lia))
      as (Pa & _ & _).
    destruct (mul_pos_normal nb 7205759403792794 eb (-53) Tb L1 ltac:(lia) ltac:(lia))
      as (Pb & _ & _).
    pose proof (mul_rel na 7205759403792794 ea (-53) Ta L1 ltac:(lia) ltac:(lia) ltac:(lia))
      as Qa.
    pose proof (mul_rel nb 7205759403792794 eb (-53) Tb L1 ltac:(lia) ltac:(lia) ltac:(lia))
      as Qb.
    cbv zeta in Qa, Qb. change (2 ^ (- -53)) with (2 ^ 53) in Qa, Qb.
    apply Math_round_strict; try assumption.
    set (Va := ival (S754_finite false na ea)) in *.
    set (Vb := ival (S754_finite false nb eb)) in *.
    set (Wa := ival (mul (S754_finite false na ea) _)) in *.
    set (Wb := ival (mul (S754_finite false nb eb) _)) in *.
    clearbody V Va Vb Wa Wb.
    destruct a, b; cbn [level_rank] in Hab; try lia;
      rewrite ?M1, ?M2, ?M3, ?M4, ?M5 in Ra, Rb; lia.
  - (* maintain *)
    apply Math_round_strict; try assumption.
    set (Va := ival (S754_finite false na ea)) in *.
    set (Vb := ival (S754_finite false nb eb)) in *.
    clearbody V Va Vb.
    destruct a, b; cbn [level_rank] in Hab; try lia;
      rewrite ?M1, ?M2, ?M3, ?M4, ?M5 in Ra, Rb; lia.
  - (* gain *)
    destruct (mul_pos_normal na 4953959590107546 ea (-52) Ta G1 ltac:(lia) ltac:(lia))
      as (Pa & _ & _).
    destruct (mul_pos_normal nb 4953959590107546 eb (-52) Tb G1 ltac:(lia) ltac:(lia))
      as (Pb & _ & _).
    pose proof (mul_rel na 4953959590107546 ea (-52) Ta G1 ltac:(lia) ltac:(lia) ltac:(lia))
      as Qa.
    pose proof (mul_rel nb 4953959590107546 eb (-52) Tb G1 ltac:(lia) ltac:(lia) ltac:(lia))
      as Qb.
    cbv zeta in Qa, Qb. change (2 ^ (- -52)) with (2 ^ 52) in Qa, Qb.
    apply Math_round_strict; try assumption.
    set (Va := ival (S754_finite false na ea)) in *.
    set (Vb := ival (S754_finite false nb eb)) in *.
    set (Wa := ival (mul (S754_finite false na ea) _)) in *.
    set (Wb := ival (mul (S754_finite false nb eb) _)) in *.
    clearbody V Va Vb Wa Wb.
    destruct a, b; cbn [level_rank] in Hab; try lia;
      rewrite ?M1, ?M2, ?M3, ?M4, ?M5 in Ra, Rb; lia.
Qed.

(** C6 (amended): for every positive normal BMR between [2^-948] and
    [2^953] and every goal, the TDEE strictly increases along the activity
    order, and the calorie target never decreases along it (it can stay
    equal, as for BMR 1); from BMR 8 upwards the calorie target strictly
    increases too. *)
Theorem activity_monotone (bmr : number) (goal : GoalType) (a b : ActivityLevel) :
  in_normal_range bmr = true ->
  (level_rank a < level_rank b)%nat ->
  ltb (calculateTDEE bmr a) (calculateTDEE bmr b) = true /\
  leb (calculateCalorieTarget (calculateTDEE bmr a) goal)
      (calculateCalorieTarget (calculateTDEE bmr b) goal) = true /\
  (leb (of_Z 8) bmr = true ->
   ltb (calculateCalorieTarget (calculateTDEE bmr a) goal)
       (calculateCalorieTarget (calculateTDEE bmr b) goal) = true).
Proof.
  intros Hr Hab.
  cut (ltb (calculateTDEE bmr a) (calculateTDEE bmr b) = true /\
       leb (calculateCalorieTarget (calculateTDEE bmr a) goal)
           (calculateCalorieTarget (calculateTDEE bmr b) goal) = true).
  { intros [H1 H2]. split; [exact H1|]. split; [exact H2|].
    intros H8. apply calorie_target_strict; assumption. }
  destruct (in_normal_range_spec bmr Hr) as [Hn He].
  destruct (multiplier_normal a) as [Ea Na].
  destruct (multiplier_normal b) as [Eb Nb].
  pose proof (multiplier_gap a b Hab) as Hgap.
  unfold calculateTDEE. rewrite Ea, Eb.
  assert (Hlt : ltb (mul bmr (S754_finite false (multiplier_mantissa a) (-52)))
                    (mul bmr (S754_finite false (multiplier_mantissa b) (-52))) = true).
  { apply mul_strict_r; try assumption; lia. }
  split; [exact Hlt|].
  destruct bmr as [| | |[] mx ex]; cbn [pos_normal] in Hn; try tauto.
  cbn [exponent_of] in He.
  destruct (mul_pos_normal mx (multiplier_mantissa a) ex (-52) Hn Na ltac:(lia) ltac:(lia))
    as (Ta & _ & Xa).
  destruct (mul_pos_normal mx (multiplier_mantissa b) ex (-52) Hn Nb ltac:(lia) ltac:(lia))
    as (Tb & _ & Xb).
  pose proof (ltb_ival _ _ Ta Tb Hlt) as Hv.
  set (ta := mul (S754_finite false mx ex) (S754_finite false (multiplier_mantissa a) (-52))) in *.
  set (tb := mul (S754_finite false mx ex) (S754_finite false (multiplier_mantissa b) (-52))) in *.
  destruct calorie_factor_normal as (L1 & L2 & G1 & G2).
  unfold calculateCalorieTarget. destruct goal.
  - destruct (mul_mono_l ta tb (dec 80 (-2)) Ta Tb L1) as (Pa & Pb & Hm);
      try rewrite L2; try lia.
    apply Math_round_mono; assumption.
  - apply Math_round_mono; try assumption. lia.
  - destruct (mul_mono_l ta tb (dec 110 (-2)) Ta Tb G1) as (Pa & Pb & Hm);
      try rewrite G2; try lia.
    apply Math_round_mono; assumption.
Qed.

Lemma activity_monotone_witness :
  ltb (calculateTDEE (dec 164875 (-2)) sedentary)
      (calculateTDEE (dec 164875 (-2)) extra_active) = true /\
  leb (calculateCalorieTarget (calculateTDEE (dec 164875 (-2)) sedentary) lose)
      (calculateCalorieTarget (calculateTDEE (dec 164875 (-2)) extra_active) lose) = true /\
  ltb (calculateCalorieTarget (calculateTDEE (dec 164875 (-2)) sedentary) lose)
      (calculateCalorieTarget (calculateTDEE (dec 164875 (-2)) extra_active) lose) = true.
Proof.
  destruct (activity_monotone (dec 164875 (-2)) lose sedentary extra_active)
    as (H1 & H2 & H3).
  - reflexivity.
  - cbn. lia.
  - split; [exact H1 | split; [exact H2 | apply H3; reflexivity]].
Defined.

End TargetCalculatorFacts.

(** * The quantity converter *)

Section QuantityConverterFacts.
Local Open Scope string_scope.
Local Open Scope js_scope.

Lemma append_suffix_neq (s : string) : s ++ "g" <> s ++ "ml".
Proof.
  induction s as [|c s IH]; cbn [append].
  - discriminate.
  - intros H. injection H as H. exact (IH H).
Qed.

(** C3 (as stated): the results for 150 g and for 150 ml of one food are
    not equal field for field; [displayQuantity] is "150g" for the one and
    "150ml" for the other. *)
Lemma g_ml_results_differ :
  calculateNutrition (sample_food grains (of_Z 300) (of_Z 150)) (of_Z 150) g
  <> calculateNutrition (sample_food grains (of_Z 300) (of_Z 150)) (of_Z 150) ml.
Proof.
  intros H. apply (f_equal displayQuantity) in H. vm_compute in H. discriminate H.
Qed.

(** C3 (amended): for every food and quantity, grams and millilitres give
    the same calories, protein, carbs and fat; [displayQuantity] is the
    quantity followed by the unit's own suffix, "g" or "ml", so the two
    strings always differ. *)
Theorem g_ml_same_nutrition (food : Food) (q : number) :
  let rg := calculateNutrition food q g in
  let rm := calculateNutrition food q ml in
  r_calories rg = r_calories rm /\ r_protein rg = r_protein rm /\
  r_carbs rg = r_carbs rm /\ r_fat rg = r_fat rm /\
  displayQuantity rg = Number_toString q ++ "g" /\
  displayQuantity rm = Number_toString q ++ "ml" /\
  displayQuantity rg <> displayQuantity rm.
Proof.
  cbn. repeat split. apply append_suffix_neq.
Qed.

(** C7: with 150 g per serving and 300 kcal per serving, 1 serving gives
    300 kcal, 150 g give 300 kcal and 75 g give 150 kcal. *)
Theorem serving_round_trip (food : Food) :
  serving_grams food = of_Z 150 ->
  calories_per_serving food = of_Z 300 ->
  r_calories (calculateNutrition food (of_Z 1) serving) = of_Z 300 /\
  r_calories (calculateNutrition food (of_Z 150) g) = of_Z 300 /\
  r_calories (calculateNutrition food (of_Z 75) g) = of_Z 150.
Proof.
  intros Hs Hc. unfold calculateNutrition. cbn [r_calories].
  rewrite Hs, Hc. repeat split; vm_compute; reflexivity.
Qed.

Lemma serving_round_trip_witness :
  r_calories (calculateNutrition (sample_food grains (of_Z 300) (of_Z 150)) (of_Z 1) serving)
    = of_Z 300 /\
  r_calories (calculateNutrition (sample_food grains (of_Z 300) (of_Z 150)) (of_Z 150) g)
    = of_Z 300 /\
  r_calories (calculateNutrition (sample_food grains (of_Z 300) (of_Z 150)) (of_Z 75) g)
    = of_Z 150.
Proof.
  apply (serving_round_trip (sample_food grains (of_Z 300) (of_Z 150))); reflexivity.
Defined.

(** C9: the breakdown's final nutrition is the converter's result; the
    rounded per-100 values and the rounded multiplier are separate fields
    that the result is not computed from. *)
Theorem breakdown_final_is_calculateNutrition
    (food : Food) (quantity : number) (unit : QuantityUnit) :
  finalNutrition (getCalculationBreakdown food quantity unit)
  = calculateNutrition food quantity unit.
Proof. reflexivity. Qed.

Lemma or_else_truthy (x d : number) : truthy d = true -> truthy (x || d) = true.
Proof. intros Hd. unfold or_else. destruct (truthy x) eqn:E; assumption. Qed.

(** C10: a falsy [serving_grams] (zero or NaN) is replaced by 100, so the
    divisor is never zero or NaN and both functions return what they return
    for the same food with [serving_grams = 100]; both are total. *)
Theorem falsy_serving_grams_is_100
    (food : Food) (quantity : number) (unit : QuantityUnit) :
  truthy (serving_grams food) = false ->
  truthy (serving_grams food || of_Z 100) = true /\
  calculateNutrition food quantity unit
    = calculateNutrition (set_serving_grams food (of_Z 100)) quantity unit /\
  getCalculationBreakdown food quantity unit
    = getCalculationBreakdown (set_serving_grams food (of_Z 100)) quantity unit.
Proof.
  intros H. split; [apply or_else_truthy; reflexivity|].
  unfold getCalculationBreakdown, calculateNutrition, or_else.
  cbn [set_serving_grams serving_grams category calories_per_serving
       protein_grams carbs_grams fat_grams].
  rewrite H. change (truthy (of_Z 100)) with true. cbv iota.
  split; reflexivity.
Qed.

Lemma falsy_serving_grams_is_100_witness :
  truthy (serving_grams (sample_food grains (of_Z 300) (of_Z 0)) || of_Z 100) = true /\
  calculateNutrition (sample_food grains (of_Z 300) (of_Z 0)) (of_Z 50) g
    = calculateNutrition
        (set_serving_grams (sample_food grains (of_Z 300) (of_Z 0)) (of_Z 100)) (of_Z 50) g /\
  getCalculationBreakdown (sample_food grains (of_Z 300) (of_Z 0)) (of_Z 50) g
    = getCalculationBreakdown
        (set_serving_grams (sample_food grains (of_Z 300) (of_Z 0)) (of_Z 100)) (of_Z 50) g.
Proof.
  apply (falsy_serving_grams_is_100 (sample_food grains (of_Z 300) (of_Z 0)) (of_Z 50) g).
  reflexivity.
Defined.

End QuantityConverterFacts.

(** * The macro/calorie validator *)

Section ValidatorFacts.

(** C4: the validator adds [4*protein + 4*carbs + 9*fat], takes the
    absolute difference from the stated calories and reports
    [isValid = false] exactly when that difference is not within
    [max(5% of calories, 5)], i.e. exceeds it; it returns the rounded sum
    and the rounded difference, as a value.  For (100, 0, 0, 0) the result
    is [isValid = false], [calculatedCalories = 0], [difference = 100]. *)
Theorem validator_tolerance (calories protein carbs fat : number) :
  let r := validateMacroCalorieMatch calories protein carbs fat in
  let sum := add (add (mul protein (of_Z 4)) (mul carbs (of_Z 4))) (mul fat (of_Z 9)) in
  let d := Math_abs (sub calories sum) in
  let bound := Math_max (mul calories (dec 5 (-2))) (of_Z 5) in
  calculatedCalories r = Math_round sum /\
  difference r = Math_round d /\
  isValid r = leb d bound /\
  (is_nan d = false -> (isValid r = false <-> ltb bound d = true)) /\
  validateMacroCalorieMatch (of_Z 100) (of_Z 0) (of_Z 0) (of_Z 0)
    = {| isValid := false; calculatedCalories := of_Z 0; difference := of_Z 100 |}.
Proof.
  intros r sum d bound.
  assert (Hnan : is_nan calories = false -> is_nan (mul calories (dec 5 (-2))) = false).
  { intros H. apply mul_not_nan; [assumption | reflexivity | reflexivity]. }
  assert (Hv : isValid r = leb d bound).
  { subst r. unfold validateMacroCalorieMatch. cbn [isValid]. fold sum. fold d.
    destruct (is_nan calories) eqn:Ec.
    - destruct calories; try discriminate. reflexivity.
    - apply leb_or_max; [apply Hnan; reflexivity | reflexivity]. }
  repeat split; try assumption; try reflexivity.
  - intros Hf. rewrite Hv in Hf.
    assert (Hc : is_nan calories = false).
    { apply (sub_nan_l calories sum). now rewrite <- Math_abs_nan. }
    assert (Hb : is_nan bound = false).
    { apply Math_max_nan; [apply Hnan; assumption | reflexivity]. }
    rewrite (leb_negb_ltb d bound H Hb) in Hf.
    now apply Bool.negb_false_iff.
  - intros Hl. rewrite Hv.
    assert (Hc : is_nan calories = false).
    { apply (sub_nan_l calories sum). now rewrite <- Math_abs_nan. }
    assert (Hb : is_nan bound = false).
    { apply Math_max_nan; [apply Hnan; assumption | reflexivity]. }
    rewrite (leb_negb_ltb d bound H Hb), Hl. reflexivity.
Qed.

Lemma validator_tolerance_witness :
  isValid (validateMacroCalorieMatch (of_Z 100) (of_Z 0) (of_Z 0) (of_Z 0)) = false <->
  ltb (Math_max (mul (of_Z 100) (dec 5 (-2))) (of_Z 5))
      (Math_abs (sub (of_Z 100)
         (add (add (mul (of_Z 0) (of_Z 4)) (mul (of_Z 0) (of_Z 4))) (mul (of_Z 0) (of_Z 9)))))
  = true.
Proof.
  destruct (validator_tolerance (of_Z 100) (of_Z 0) (of_Z 0) (of_Z 0)) as (_ & _ & _ & H & _).
  apply H. reflexivity.
Defined.

End ValidatorFacts.

(** * More facts about binary64 arithmetic *)

Section MoreFloatFacts.

Lemma number_beq_eq (x y : number) : number_beq x y = true -> x = y.
Proof.
  destruct x as [a|a| |a m e], y as [b|b| |b n f]; cbn; try discriminate;
    try reflexivity.
  - intros H. apply Bool.eqb_prop in H. now subst.
  - intros H. apply Bool.eqb_prop in H. now subst.
  - rewrite !Bool.andb_true_iff. intros [[H1 H2] H3].
    apply Bool.eqb_prop in H1. apply Pos.eqb_eq in H2. apply Z.eqb_eq in H3.
    now subst.
Qed.

Lemma all_from_spec (check : Z -> bool) (len : nat) (lo n : Z) :
  all_from check lo len = true -> lo <= n < lo + Z.of_nat len -> check n = true.
Proof.
  revert lo. induction len as [|k IH]; intros lo H Hn.
  - cbn in Hn. lia.
  - cbn [all_from] in H. apply Bool.andb_true_iff in H. destruct H as [H0 H1].
    destruct (Z.eq_dec n lo) as [->|Hne]; [assumption|].
    apply (IH (lo + 1)); [assumption|]. lia.
Qed.

Lemma all_upto_spec (check : Z -> bool) (hi n : Z) :
  all_upto check hi = true -> 0 <= n <= hi -> check n = true.
Proof.
  unfold all_upto. intros H Hn.
  apply (all_from_spec check (Z.to_nat (hi + 1)) 0); [assumption|].
  rewrite Z2Nat.id by lia. lia.
Qed.

(** *** Multiplying by one, dividing by oneself *)

Lemma mul_one_r (x : number) : is_binary64 x = true -> mul x (of_Z 1) = x.
Proof.
  destruct x as [s|s| |s m e]; intros Hv; try reflexivity.
  - cbn. now destruct s.
  - cbn. now destruct s.
  - unfold is_binary64, valid_binary, bounded, canonical_mantissa in Hv.
    apply Bool.andb_true_iff in Hv. destruct Hv as [Hc Hb].
    apply Z.eqb_eq in Hc. apply Z.leb_le in Hb.
    change (of_Z 1) with (S754_finite false 4503599627370496 (-52)).
    unfold mul, SFmul. rewrite Bool.xorb_false_r.
    rewrite binary_round_aux_model by lia.
    change (Z.pos (m * 4503599627370496)) with (Zpos m * 2 ^ 52).
    unfold round_model.
    assert (Hd : Zdigits2 (Zpos m * 2 ^ 52) = Zpos (digits2_pos m) + 52).
    { rewrite Zdigits2_shift by lia. reflexivity. }
    rewrite Hd.
    replace (Z.pos (digits2_pos m) + 52 + (e + -52)) with (Zpos (digits2_pos m) + e) by lia.
    rewrite Hc.
    replace (Z.max (e + -52) e) with e by lia.
    replace (e - (e + -52)) with 52 by lia.
    rewrite rne_exact by lia.
    change (Zdigits2 (Zpos m)) with (Zpos (digits2_pos m)). rewrite Hc.
    rewrite Z.max_id, Z.sub_diag. change (2 ^ 0) with 1. rewrite Z.div_1_r.
    unfold emax, prec in *.
    destruct (Z.leb_spec e (1024 - 53)); [reflexivity | lia].
Qed.

Lemma new_location_0 (n : Z) : new_location n 0 = loc_Exact.
Proof. unfold new_location. destruct (Z.even n); reflexivity. Qed.

Lemma div_self (s : bool) (m : positive) (e : Z) :
  div (S754_finite s m e) (S754_finite s m e) = of_Z 1.
Proof.
  unfold div, SFdiv, SFdiv_core_binary.
  replace (Zdigits2 (Zpos m) + e - (Zdigits2 (Zpos m) + e)) with 0 by lia.
  change (fexp prec emax 0) with (-53).
  rewrite Z.sub_diag. change (Z.min (-53) 0) with (-53). change (0 - -53) with 53.
  cbv iota.
  assert (H : Z.div_eucl (Z.shiftl (Zpos m) 53) (Zpos m) = (2 ^ 53, 0)).
  { rewrite Z.shiftl_mul_pow2 by lia.
    pose proof (Z.div_eucl_eq (Zpos m * 2 ^ 53) (Zpos m) ltac:(lia)) as E.
    pose proof (Z.mod_pos_bound (Zpos m * 2 ^ 53) (Zpos m) ltac:(lia)) as B.
    unfold Z.modulo in B.
    destruct (Z.div_eucl (Zpos m * 2 ^ 53) (Zpos m)) as [q r].
    assert (q = 2 ^ 53 /\ r = 0) as [-> ->]; [|reflexivity].
    assert (Zpos m * (2 ^ 53 - q) = r) by lia.
    assert (Hq : 2 ^ 53 - q = 0) by nia.
    split; nia. }
  rewrite H, new_location_0, xorb_nilpotent.
  vm_compute. reflexivity.
Qed.

Lemma sub_self (x : number) : is_finite x = true -> sub x x = of_Z 0.
Proof.
  destruct x as [s|s| |s m e]; try discriminate; intros _.
  - now destruct s.
  - unfold sub, SFsub. rewrite Z.sub_diag. reflexivity.
Qed.

Lemma add_opp_161 (x : number) : add x (of_Z (-161)) = sub x (of_Z 161).
Proof.
  change (of_Z (-161)) with (S754_finite true 5664683906301952 (-45)).
  change (of_Z 161) with (S754_finite false 5664683906301952 (-45)).
  destruct x as [s|s| |s m e]; try reflexivity.
Qed.

(** *** Signs *)

Lemma mul_pos_sign (x y : number) :
  sign_is false x -> sign_is false y -> sign_is false (mul x y).
Proof.
  destruct x as [a|a| |a m e], y as [b|b| |b n f]; cbn [sign_is];
    intros Hx Hy; subst; try exact I; try reflexivity.
  unfold mul, SFmul. apply binary_round_aux_sign.
Qed.

Lemma is_int_nonneg (x : number) (n : Z) :
  is_int x n -> sign_is false x -> Z.abs n < 2 ^ 53 -> 0 <= n /\ x = of_Z n.
Proof.
  intros [H|[Hn H]] Hs Hb.
  - destruct (Z.eq_dec n 0) as [->|Hne]; [split; [lia|assumption]|].
    destruct (canon_finite n 0 Hne) as [Hc _].
    { unfold prec. apply Zdigits2_le; [lia|assumption]. }
    rewrite H, Hc in Hs. cbn [sign_is] in Hs. apply Z.ltb_ge in Hs.
    split; [assumption|]. rewrite of_Z_canon by assumption. exact H.
  - subst. cbn in Hs. discriminate.
Qed.

Lemma Math_round_int (x : number) (n : Z) :
  is_int x n -> Z.abs n < 2 ^ 53 -> Math_round x = x.
Proof.
  intros [H|[Hn H]] Hb; [|subst; reflexivity].
  destruct (Z.eq_dec n 0) as [->|Hne]; [subst; reflexivity|].
  assert (Hd : Zdigits2 n <= prec) by (unfold prec; apply Zdigits2_le; [lia|assumption]).
  destruct (canon_finite n 0 Hne Hd) as [Hc Hm].
  rewrite H, Hc. unfold Math_round.
  destruct (Z.leb_spec 0 (0 + Zdigits2 n - prec)); [reflexivity|].
  unfold round_Z. rewrite Hm.
  rewrite canon_sign_value.
  pose proof (Zdigits2_pos n Hne) as Hp.
  unfold prec in *.
  set (j := 53 - Zdigits2 n) in *.
  replace (- (0 + Zdigits2 n - 53)) with j by lia.
  replace (1 - (0 + Zdigits2 n - 53)) with (j + 1) by lia.
  rewrite Z.shiftr_div_pow2 by lia.
  assert (Hj : 0 < 2 ^ j) by (apply Z.pow_pos_nonneg; lia).
  replace (2 * (n * 2 ^ j) + 2 ^ j) with (2 ^ j + n * 2 ^ (j + 1))
    by (rewrite Z.pow_add_r by lia; change (2 ^ 1) with 2; lia).
  rewrite Z.div_add by lia.
  rewrite Z.div_small by (rewrite Z.pow_add_r by lia; change (2 ^ 1) with 2; lia).
  cbn [Z.add].
  destruct n as [|p|p]; [lia| |];
    (rewrite of_Z_canon by assumption; rewrite <- Hm at 1;
     unfold canon, prec; fold j; f_equal; lia).
Qed.

End MoreFloatFacts.

Section ExactDivision.

Lemma Zdigits2_mul_le (a b : Z) :
  a <> 0 -> b <> 0 -> Zdigits2 (a * b) <= Zdigits2 a + Zdigits2 b.
Proof.
  intros Ha Hb.
  pose proof (Zdigits2_bounds a Ha) as [_ Ba].
  pose proof (Zdigits2_bounds b Hb) as [_ Bb].
  pose proof (Zdigits2_pos a Ha). pose proof (Zdigits2_pos b Hb).
  apply Zdigits2_le; [lia|].
  rewrite Z.abs_mul, Z.pow_add_r by lia.
  apply Z.mul_lt_mono_nonneg; lia.
Qed.

Lemma div_eucl_exact (a b : Z) : 0 < b -> Z.div_eucl (a * b) b = (a, 0).
Proof.
  intros Hb.
  pose proof (Z.div_eucl_eq (a * b) b ltac:(lia)) as E.
  pose proof (Z.mod_pos_bound (a * b) b Hb) as B.
  unfold Z.modulo in B.
  destruct (Z.div_eucl (a * b) b) as [q r].
  assert (b * (a - q) = r) by lia.
  assert (a - q = 0) by nia.
  f_equal; nia.
Qed.

(** The quotient of two whole numbers that divide exactly is exact. *)
Lemma div_int_exact (q d : Z) :
  q <> 0 -> d <> 0 -> Z.abs (q * d) < 2 ^ prec ->
  div (canon (q * d) 0) (canon d 0) = canon q 0.
Proof.
  intros Hq Hd Hb.
  assert (Hqd : q * d <> 0) by nia.
  assert (Bd : Z.abs d < 2 ^ prec) by (unfold prec in *; nia).
  assert (Bq : Z.abs q < 2 ^ prec) by (unfold prec in *; nia).
  assert (Da : Zdigits2 (q * d) <= prec) by (unfold prec in *; apply Zdigits2_le; [lia|assumption]).
  assert (Db : Zdigits2 d <= prec) by (unfold prec in *; apply Zdigits2_le; [lia|assumption]).
  assert (Dq : Zdigits2 q <= prec) by (unfold prec in *; apply Zdigits2_le; [lia|assumption]).
  destruct (canon_finite (q * d) 0 Hqd Da) as [Ca Ma].
  destruct (canon_finite d 0 Hd Db) as [Cb Mb].
  destruct (canon_finite q 0 Hq Dq) as [Cq Mq].
  pose proof (Zdigits2_pos _ Hqd) as Pa.
  pose proof (Zdigits2_pos _ Hd) as Pb.
  pose proof (Zdigits2_pos _ Hq) as Pq.
  pose proof (Zdigits2_mul_le q d Hq Hd) as Hle.
  pose proof (Zdigits2_mul_ge q d Hq Hd) as Hge.
  rewrite Ca, Cb, Cq.
  set (a := Zdigits2 (q * d)) in *. set (b := Zdigits2 d) in *. set (c := Zdigits2 q) in *.
  unfold div, SFdiv, SFdiv_core_binary.
  rewrite Ma, Mb.
  assert (Ha53 : Zdigits2 (Z.abs (q * d) * 2 ^ (prec - a)) = 53).
  { rewrite Zdigits2_shift by (unfold prec in *; lia).
    rewrite Zdigits2_abs. fold a. unfold prec. lia. }
  assert (Hb53 : Zdigits2 (Z.abs d * 2 ^ (prec - b)) = 53).
  { rewrite Zdigits2_shift by (unfold prec in *; lia).
    rewrite Zdigits2_abs. fold b. unfold prec. lia. }
  rewrite Ha53, Hb53.
  replace (53 + (0 + a - prec) - (53 + (0 + b - prec))) with (a - b) by lia.
  replace (0 + a - prec - (0 + b - prec)) with (a - b) by lia.
  rewrite fexp_eq.
  unfold prec in *.
  replace (Z.min (Z.max (a - b - 53) (-1074)) (a - b)) with (a - b - 53) by lia.
  replace (a - b - (a - b - 53)) with 53 by lia.
  cbv iota.
  rewrite Z.shiftl_mul_pow2 by lia.
  set (j := 53 - a + b).
  assert (Hj : 0 <= j) by (unfold j; lia).
  replace (Z.abs (q * d) * 2 ^ (53 - a) * 2 ^ 53)
    with (Z.abs q * 2 ^ j * (Z.abs d * 2 ^ (53 - b))).
  2:{ rewrite Z.abs_mul. unfold j.
      replace (53 - a + b) with ((53 - a) + b) by lia.
      rewrite Z.pow_add_r by lia.
      replace (2 ^ 53) with (2 ^ b * 2 ^ (53 - b))
        by (rewrite <- Z.pow_add_r by lia; f_equal; lia).
      ring. }
  rewrite div_eucl_exact.
  2:{ apply Z.mul_pos_pos; [lia | apply Z.pow_pos_nonneg; lia]. }
  rewrite new_location_0.
  rewrite binary_round_aux_model.
  2:{ apply Z.mul_nonneg_nonneg; [lia | apply Z.pow_nonneg; lia]. }
  replace (a - b - 53) with (0 - j) by (unfold j; lia).
  rewrite round_model_canon; [| lia | unfold exact_range, prec; lia | assumption | ].
  2:{ rewrite Zdigits2_abs. fold c. unfold j, prec. lia. }
  rewrite Zdigits2_abs. fold c. unfold prec.
  f_equal.
  rewrite xorb_sign by assumption.
  destruct (Z.ltb_spec (q * d * d) 0), (Z.ltb_spec q 0); try reflexivity; nia.
Qed.

Lemma div_zero_l (s : bool) (y : number) :
  truthy y = true -> exists s', div (S754_zero s) y = S754_zero s'.
Proof.
  destruct y as [b|b| |b m e]; try discriminate; intros _; cbn; eauto.
Qed.

Lemma mul_zero_r (x : number) (s : bool) :
  is_finite x = true -> exists s', mul x (S754_zero s) = S754_zero s'.
Proof.
  destruct x as [b|b| |b m e]; try discriminate; intros _; cbn; eauto.
Qed.

Lemma mul_zero_l (s : bool) (y : number) :
  is_finite y = true -> exists s', mul (S754_zero s) y = S754_zero s'.
Proof.
  destruct y as [b|b| |b m e]; try discriminate; intros _; cbn; eauto.
Qed.

End ExactDivision.

(** * Unit conversion *)

Section UnitConversionFacts.

Lemma tenth_dec (n : Z) : tenth n = dec n (-1).
Proof. reflexivity. Qed.

Lemma convertWeight_tenths (v : number) :
  convertWeight v kg lbs = div (lbs_tenths v) c10 /\
  convertWeight v lbs kg = div (kg_tenths v) c10.
Proof. split; reflexivity. Qed.

Lemma convertHeight_tenths (v : number) :
  convertHeight v cm ft = div (ft_tenths v) c10 /\
  convertHeight v ft cm = div (cm_tenths v) c10.
Proof. split; reflexivity. Qed.

Lemma tenth_of (r : number) (n : Z) :
  number_beq r (of_Z n) = true -> div r c10 = dec n (-1).
Proof. intros H. apply number_beq_eq in H. subst r. apply tenth_dec. Qed.

Lemma near_spec (d n : Z) (r : number) :
  near d n r = true ->
  exists k, Z.abs (k - n) <= d /\ div r c10 = dec k (-1).
Proof.
  unfold near. intros H. apply Bool.andb_true_iff in H.
  destruct H as [H1 H2]. apply Z.leb_le in H1.
  exists (to_Z r). split; [exact H1|]. now apply tenth_of.
Qed.

Lemma tenths_of_round (x : number) (k : Z) :
  magnitude_below k x = true -> 0 <= k <= 52 -> sign_is false x ->
  exists n, 0 <= n /\ div (Math_round x) (of_Z 10) = dec n (-1).
Proof.
  intros Hm Hk Hs.
  destruct (Math_round_is_int x k Hm Hk) as (n & Hn & Hi).
  assert (Hb : Z.abs n < 2 ^ 53).
  { assert (2 ^ k <= 2 ^ 52) by (apply Z.pow_le_mono_r; lia).
    change (2 ^ 52) with 4503599627370496 in *.
    change (2 ^ 53) with 9007199254740992. lia. }
  destruct (is_int_nonneg (Math_round x) n Hi (Math_round_sign x Hs) Hb) as [H0 He].
  exists n. split; [assumption|]. rewrite He. reflexivity.
Qed.

Lemma factor_2205 :
  dec 2205 (-3) = S754_finite false 4965218589175972 (-51).
Proof. vm_compute. reflexivity. Qed.

Lemma factor_3048 :
  dec 3048 (-2) = S754_finite false 8579357290140795 (-48).
Proof. vm_compute. reflexivity. Qed.

(** Converted weights and heights have one decimal: for a non-negative
    value below [2^40], every conversion between different units returns
    the binary64 value of [n/10] for a whole number [n >= 0]. *)
Theorem converted_has_one_decimal (v : number) :
  magnitude_below 40 v = true -> sign_is false v ->
  (exists n, 0 <= n /\ convertWeight v kg lbs = dec n (-1)) /\
  (exists n, 0 <= n /\ convertWeight v lbs kg = dec n (-1)) /\
  (exists n, 0 <= n /\ convertHeight v cm ft = dec n (-1)) /\
  (exists n, 0 <= n /\ convertHeight v ft cm = dec n (-1)).
Proof.
  intros Hm Hs.
  assert (H10 : magnitude_below 4 (of_Z 10) = true) by reflexivity.
  assert (S10 : sign_is false (of_Z 10)) by reflexivity.
  repeat split; cbn [convertWeight convertHeight].
  - apply (tenths_of_round _ 48); [|lia|].
    + apply (mul_magnitude 43 4); [|assumption|lia|lia].
      apply (mul_magnitude 40 2); [assumption|now rewrite factor_2205|lia|lia].
    + apply mul_pos_sign; [|assumption].
      apply mul_pos_sign; [assumption|now rewrite factor_2205].
  - apply (tenths_of_round _ 45); [|lia|].
    + apply (mul_magnitude 40 4); [|assumption|lia|lia].
      rewrite factor_2205. apply (div_magnitude 40); [assumption|lia|lia|lia].
    + apply mul_pos_sign; [|assumption].
      apply div_pos_sign; [assumption|now rewrite factor_2205].
  - apply (tenths_of_round _ 45); [|lia|].
    + apply (mul_magnitude 40 4); [|assumption|lia|lia].
      rewrite factor_3048. apply (div_magnitude 40); [assumption|lia|lia|lia].
    + apply mul_pos_sign; [|assumption].
      apply div_pos_sign; [assumption|now rewrite factor_3048].
  - apply (tenths_of_round _ 51); [|lia|].
    + apply (mul_magnitude 46 4); [|assumption|lia|lia].
      apply (mul_magnitude 40 5); [assumption|now rewrite factor_3048|lia|lia].
    + apply mul_pos_sign; [|assumption].
      apply mul_pos_sign; [assumption|now rewrite factor_3048].
Qed.

Lemma converted_has_one_decimal_witness :
  exists n, 0 <= n /\ convertWeight (of_Z 70) kg lbs = dec n (-1).
Proof.
  apply (converted_has_one_decimal (of_Z 70)); reflexivity.
Defined.

(** Weights survive kg -> lbs -> kg: a weight of [n/10] kg, up to 200 kg,
    comes back unchanged.  The other way loses up to 0.1 lb: a whole number
    [n] of pounds, up to 400, comes back as [n - 0.1], [n] or [n + 0.1],
    and 150 lbs comes back as 149.9. *)
Theorem weight_round_trips :
  (forall n, 0 <= n <= 2000 ->
     convertWeight (convertWeight (dec n (-1)) kg lbs) lbs kg = dec n (-1)) /\
  (forall n, 0 <= n <= 400 ->
     exists k, Z.abs (k - 10 * n) <= 1 /\
       convertWeight (convertWeight (of_Z n) lbs kg) kg lbs = dec k (-1)) /\
  convertWeight (convertWeight (of_Z 150) lbs kg) kg lbs = dec 1499 (-1).
Proof.
  split; [|split].
  - intros n Hn.
    rewrite (proj2 (convertWeight_tenths _)), (proj1 (convertWeight_tenths _)).
    rewrite <- (tenth_dec n) at 1. apply tenth_of.
    apply (all_upto_spec kg_round_trip 2000); [vm_cast_no_check (eq_refl true) | lia].
  - intros n Hn.
    rewrite (proj1 (convertWeight_tenths _)), (proj2 (convertWeight_tenths _)).
    apply (near_spec 1 (10 * n)).
    apply (all_upto_spec lbs_round_trip 400); [vm_cast_no_check (eq_refl true) | lia].
  - vm_compute. reflexivity.
Qed.

Lemma weight_round_trips_witness :
  convertWeight (convertWeight (dec 725 (-1)) kg lbs) lbs kg = dec 725 (-1).
Proof.
  apply (proj1 weight_round_trips 725). lia.
Defined.

(** Heights survive ft -> cm -> ft: [n/10] ft, up to 10 ft, comes back
    unchanged.  cm -> ft -> cm loses up to 1.5 cm: a whole number [n] of
    centimetres, up to 250, comes back as [k/10] with [k] within 15 of
    [10 n], and 170 cm comes back as 170.7. *)
Theorem height_round_trips :
  (forall n, 0 <= n <= 100 ->
     convertHeight (convertHeight (dec n (-1)) ft cm) cm ft = dec n (-1)) /\
  (forall n, 0 <= n <= 250 ->
     exists k, Z.abs (k - 10 * n) <= 15 /\
       convertHeight (convertHeight (of_Z n) cm ft) ft cm = dec k (-1)) /\
  convertHeight (convertHeight (of_Z 170) cm ft) ft cm = dec 1707 (-1).
Proof.
  split; [|split].
  - intros n Hn.
    rewrite (proj1 (convertHeight_tenths _)), (proj2 (convertHeight_tenths _)).
    rewrite <- (tenth_dec n) at 1. apply tenth_of.
    apply (all_upto_spec ft_round_trip 100); [vm_cast_no_check (eq_refl true) | lia].
  - intros n Hn.
    rewrite (proj2 (convertHeight_tenths _)), (proj1 (convertHeight_tenths _)).
    apply (near_spec 15 (10 * n)).
    apply (all_upto_spec cm_round_trip 250); [vm_cast_no_check (eq_refl true) | lia].
  - vm_compute. reflexivity.
Qed.

Lemma height_round_trips_witness :
  convertHeight (convertHeight (dec 59 (-1)) ft cm) cm ft = dec 59 (-1).
Proof.
  apply (proj1 height_round_trips 59). lia.
Defined.

End UnitConversionFacts.

(** * Units, servings and the validator *)

Section QuantityUnitFacts.

(** Every category is offered each of the three units exactly once, with
    "Servings" first, and the default unit of the category is one of the
    units offered. *)
Theorem every_unit_offered_once (c : FoodCategory) (u : QuantityUnit) :
  List.length (getAvailableUnits c) = 3%nat /\
  List.length (filter (fun o => QuantityUnit_eqb (value o) u) (getAvailableUnits c)) = 1%nat /\
  option_map value (hd_error (getAvailableUnits c)) = Some serving /\
  In (getDefaultUnit c) (map value (getAvailableUnits c)).
Proof.
  destruct c, u; cbn; intuition.
Qed.

Lemma of_Z_finite_sign (n : Z) :
  n <> 0 -> Z.abs n < 2 ^ 53 ->
  exists m e, of_Z n = S754_finite (n <? 0) m e.
Proof.
  intros Hn Hb. rewrite of_Z_canon by assumption.
  destruct (canon_finite n 0 Hn) as [H _].
  { unfold prec. apply Zdigits2_le; [lia|assumption]. }
  rewrite H. eauto.
Qed.

(** Servings to grams and back is exact on whole numbers: for whole [s]
    and [sg <> 0] with [|sg| < 2^53] and [|s * sg| < 2^53],
    [gramsToServings (servingsToGrams s sg) sg] is [s].  It is not exact in
    general: 0.1 servings of 3 g come back as another number. *)
Theorem servings_grams_round_trip :
  (forall s sg : Z, sg <> 0 -> Z.abs sg < 2 ^ 53 -> Z.abs (s * sg) < 2 ^ 53 ->
     gramsToServings (servingsToGrams (of_Z s) (of_Z sg)) (of_Z sg) = of_Z s) /\
  gramsToServings (servingsToGrams (dec 1 (-1)) (of_Z 3)) (of_Z 3) <> dec 1 (-1).
Proof.
  split.
  - intros s sg Hsg Bsg Hb. unfold gramsToServings, servingsToGrams.
    destruct (Z.eq_dec s 0) as [->|Hs].
    + destruct (of_Z_finite_sign sg Hsg Bsg) as (m & e & E).
      rewrite E. change (of_Z 0) with (S754_zero false). cbn.
      now destruct (sg <? 0).
    + assert (Bs : Z.abs s < 2 ^ 53) by nia.
      rewrite !of_Z_canon by assumption.
      rewrite mul_int by (assumption || lia).
      apply div_int_exact; assumption.
  - vm_compute. discriminate.
Qed.

Lemma servings_grams_round_trip_witness :
  gramsToServings (servingsToGrams (of_Z 3) (of_Z 150)) (of_Z 150) = of_Z 3.
Proof.
  apply (proj1 servings_grams_round_trip 3 150); [lia | reflexivity | reflexivity].
Defined.

Lemma eqb_zero (s : bool) : eqb (S754_zero s) (of_Z 0) = true.
Proof. now destruct s. Qed.

Lemma roundToDecimal_zero (s : bool) : roundToDecimal (S754_zero s) 1 = S754_zero s.
Proof. now destruct s. Qed.

(** A quantity of 0 gives zero calories, protein, carbs and fat, in every
    unit and for every serving size (a missing one included), as long as
    the food's own values are finite. *)
Theorem zero_quantity_zero_nutrition (food : Food) (unit : QuantityUnit) :
  is_finite (calories_per_serving food) = true ->
  is_finite (protein_grams food) = true ->
  is_finite (carbs_grams food) = true ->
  is_finite (fat_grams food) = true ->
  let r := calculateNutrition food (of_Z 0) unit in
  eqb (r_calories r) (of_Z 0) = true /\ eqb (r_protein r) (of_Z 0) = true /\
  eqb (r_carbs r) (of_Z 0) = true /\ eqb (r_fat r) (of_Z 0) = true.
Proof.
  intros Hc Hp Hb Hf.
  assert (Ht : truthy (or_else (serving_grams food) (of_Z 100)) = true).
  { unfold or_else. destruct (truthy (serving_grams food)) eqn:E; [assumption|reflexivity]. }
  destruct (div_zero_l false _ Ht) as [s Hs].
  assert (Hm : exists s',
    (match unit with
     | g | ml => div (of_Z 0) (or_else (serving_grams food) (of_Z 100))
     | serving => of_Z 0
     end) = S754_zero s').
  { destruct unit; [exists s; exact Hs | exists s; exact Hs | exists false; reflexivity]. }
  destruct Hm as [s' Hm].
  destruct (mul_zero_r _ s' Hc) as [s1 H1].
  destruct (mul_zero_r _ s' Hp) as [s2 H2].
  destruct (mul_zero_r _ s' Hb) as [s3 H3].
  destruct (mul_zero_r _ s' Hf) as [s4 H4].
  assert (E : forall r,
    r = calculateNutrition food (of_Z 0) unit ->
    r_calories r = S754_zero s1 /\ r_protein r = S754_zero s2 /\
    r_carbs r = S754_zero s3 /\ r_fat r = S754_zero s4).
  { intros r ->. unfold calculateNutrition.
    destruct unit; cbn [r_calories r_protein r_carbs r_fat];
      rewrite ?Hm, H1, H2, H3, H4, !roundToDecimal_zero; repeat split. }
  intros r. destruct (E r eq_refl) as (E1 & E2 & E3 & E4).
  rewrite E1, E2, E3, E4, !eqb_zero. repeat split.
Qed.

Lemma zero_quantity_zero_nutrition_witness :
  eqb (r_calories (calculateNutrition (sample_food grains (of_Z 300) (of_Z 0)) (of_Z 0) g))
      (of_Z 0) = true.
Proof.
  apply (zero_quantity_zero_nutrition (sample_food grains (of_Z 300) (of_Z 0)) g);
    reflexivity.
Defined.

Lemma leb_nan_l (x : number) : leb S754_nan x = false.
Proof. reflexivity. Qed.

Lemma add_nan_r (x : number) : add x S754_nan = S754_nan.
Proof. now destruct x. Qed.

Lemma mul_nan_l (x : number) : mul S754_nan x = S754_nan.
Proof. reflexivity. Qed.

Lemma sub_nan_r (x : number) : sub x S754_nan = S754_nan.
Proof. now destruct x. Qed.

(** A food whose calories are exactly [4*protein + 4*carbs + 9*fat], as
    the validator adds them, always validates, with difference 0; a NaN
    among the four inputs never validates. *)
Theorem consistent_macros_validate (protein carbs fat : number) :
  let sum := add (add (mul protein (of_Z 4)) (mul carbs (of_Z 4))) (mul fat (of_Z 9)) in
  (is_finite sum = true ->
   validateMacroCalorieMatch sum protein carbs fat
   = {| isValid := true; calculatedCalories := Math_round sum; difference := of_Z 0 |}) /\
  (forall calories,
     (is_nan calories || is_nan protein || is_nan carbs || is_nan fat)%bool = true ->
     isValid (validateMacroCalorieMatch calories protein carbs fat) = false).
Proof.
  intros sum. split.
  - intros Hf. unfold validateMacroCalorieMatch. fold sum.
    rewrite (sub_self sum Hf).
    change (Math_abs (of_Z 0)) with (of_Z 0).
    change (Math_round (of_Z 0)) with (of_Z 0).
    change (leb (of_Z 0) (of_Z 5)) with true.
    rewrite Bool.orb_true_r. reflexivity.
  - intros calories H. unfold validateMacroCalorieMatch. cbn [isValid].
    assert (Hd : Math_abs (sub calories
               (add (add (mul protein (of_Z 4)) (mul carbs (of_Z 4))) (mul fat (of_Z 9))))
             = S754_nan).
    { rewrite !Bool.orb_true_iff in H. destruct H as [[[H|H]|H]|H].
      - destruct calories; try discriminate. reflexivity.
      - destruct protein; try discriminate. rewrite mul_nan_l. cbn [add SFadd].
        rewrite sub_nan_r. reflexivity.
      - destruct carbs; try discriminate. rewrite mul_nan_l, add_nan_r. cbn [add SFadd].
        rewrite sub_nan_r. reflexivity.
      - destruct fat; try discriminate. rewrite mul_nan_l, add_nan_r, sub_nan_r.
        reflexivity. }
    rewrite Hd, !leb_nan_l. reflexivity.
Qed.

Lemma consistent_macros_validate_witness :
  validateMacroCalorieMatch (of_Z 194) (of_Z 10) (of_Z 25) (of_Z 6)
  = {| isValid := true; calculatedCalories := of_Z 194; difference := of_Z 0 |}.
Proof.
  apply (proj1 (consistent_macros_validate (of_Z 10) (of_Z 25) (of_Z 6))). reflexivity.
Defined.

(** Without a usable weight (left out, 0 or NaN) the macro targets are
    those of a 70 kg body: the protein target is 140 g for [lose], 112 g
    for [maintain] and 126 g for [gain], whatever the calorie target. *)
Theorem missing_weight_is_70kg
    (calorieTarget : number) (goalType : GoalType) (weightKg : option number) :
  present weightKg = false ->
  calculateMacroTargets calorieTarget goalType weightKg
    = calculateMacroTargets calorieTarget goalType (Some (of_Z 70)) /\
  protein (calculateMacroTargets calorieTarget goalType weightKg)
    = of_Z (match goalType with lose => 140 | maintain => 112 | gain => 126 end).
Proof.
  intros H.
  assert (E : match weightKg with Some w => or_else w (of_Z 70) | None => of_Z 70 end
              = of_Z 70).
  { destruct weightKg as [w|]; [|reflexivity]. cbn in H. unfold or_else. now rewrite H. }
  unfold calculateMacroTargets. rewrite E.
  change (or_else (of_Z 70) (of_Z 70)) with (of_Z 70).
  split; [reflexivity|].
  destruct goalType; cbn [protein]; vm_compute; reflexivity.
Qed.

Lemma missing_weight_is_70kg_witness :
  protein (calculateMacroTargets (of_Z 2000) lose (Some (of_Z 0))) = of_Z 140.
Proof.
  apply (missing_weight_is_70kg (of_Z 2000) lose (Some (of_Z 0))). reflexivity.
Defined.

End QuantityUnitFacts.

(** * The profile mutations *)

Section UseProfileFacts.
Local Open Scope string_scope.

(** Recalculating on a row that holds what onboarding stored repeats the
    onboarding result: with a usable weight, height and age the two
    mutations compute the same four targets.  With a signed-in user and a
    loaded row, [recalculateTargets] throws "Missing profile data" exactly
    when weight, height or age is missing, zero or NaN or the gender is
    missing, and that is exactly when the breakdown card is not shown. *)
Theorem recalculation_repeats_onboarding
    (user user' : string) (data : OnboardingData.t) (row : Profile.t) :
  (truthy (OnboardingData.current_weight data) = true ->
   truthy (OnboardingData.height data) = true ->
   truthy (OnboardingData.age data) = true ->
   row_holds row data ->
   exists pd, completeOnboarding (Some user) data = Ok pd /\
              recalculateTargets (Some user') (Some row) = Ok (targets_of pd)) /\
  (recalculateTargets (Some user') (Some row) = Throw "Missing profile data"
   <-> body_complete row = false) /\
  (BreakdownCard.render (Some row) = None <-> body_complete row = false).
Proof.
  split; [|split].
  - intros Hw Hh Ha (E1 & E2 & E3 & E4 & E5 & E6 & E7).
    eexists. split; [reflexivity|].
    unfold recalculateTargets. rewrite E1, E2, E3, E4, E5, E6, E7, Hw, Hh, Ha.
    reflexivity.
  - unfold recalculateTargets, body_complete, present.
    destruct (Profile.current_weight row) as [w|], (Profile.height row) as [h|],
             (Profile.age row) as [a|], (Profile.gender row) as [ge|];
      try (destruct (truthy w)); try (destruct (truthy h)); try (destruct (truthy a));
      cbn [negb orb andb]; split; intros H; (discriminate H || reflexivity).
  - unfold BreakdownCard.render, body_complete, present.
    destruct (Profile.current_weight row) as [w|], (Profile.height row) as [h|],
             (Profile.age row) as [a|], (Profile.gender row) as [ge|];
      try (destruct (truthy w)); try (destruct (truthy h)); try (destruct (truthy a));
      cbn [negb orb andb]; split; intros H; (discriminate H || reflexivity).
Qed.

Lemma recalculation_repeats_onboarding_witness :
  exists pd, completeOnboarding (Some "u1") scenario_data = Ok pd /\
             recalculateTargets (Some "u1") (Some scenario_row) = Ok (targets_of pd).
Proof.
  apply (proj1 (recalculation_repeats_onboarding "u1" "u1" scenario_data scenario_row));
    try reflexivity.
  repeat split.
Defined.

End UseProfileFacts.

Section StoredTargetFacts.
Local Open Scope string_scope.

Lemma some_eq {A : Type} (a b : A) : Some a = Some b -> a = b.
Proof. intros H. now injection H. Qed.

Lemma ok_eq {A : Type} (a b : A) : Ok a = Ok b -> a = b.
Proof. intros H. now injection H. Qed.

Lemma factor_254 :
  dec 254 (-2) = S754_finite false 5719571526760530 (-51).
Proof. vm_compute. reflexivity. Qed.

Lemma pipeline_whole (w h a : number) (ge : Gender) (al : ActivityLevel) (go : GoalType) :
  magnitude_below 13 w = true -> magnitude_below 13 h = true ->
  magnitude_below 13 a = true ->
  let ct := calculateCalorieTarget (calculateTDEE (calculateBMR w h a ge) al) go in
  let m := calculateMacroTargets ct go (Some w) in
  exists n P F C : Z,
    is_int ct n /\ is_int (protein m) P /\ is_int (fat m) F /\
    carbs m = of_Z C /\ 0 <= C.
Proof.
  intros Hw Hh Ha ct m.
  assert (Ht : magnitude_below 26 (calculateTDEE (calculateBMR w h a ge) al) = true).
  { unfold calculateTDEE. apply (mul_magnitude 24 1); [|apply multiplier_magnitude|lia|lia].
    now apply BMR_magnitude. }
  destruct (calorie_target_is_int _ go Ht) as (n & Hn & In).
  fold ct in In.
  destruct (protein_fat_is_int ct go w n In Hn Hw) as [(P & HP & IP) (F & HF & IF)].
  fold m in IP, IF.
  assert (B28 : 2 ^ 28 < 2 ^ 40) by reflexivity.
  assert (B16 : 2 ^ 16 < 2 ^ 40) by reflexivity.
  assert (B27 : 2 ^ 27 < 2 ^ 40) by reflexivity.
  destruct (macro_targets_is_int ct go (Some w) n P F In IP IF
              ltac:(lia) ltac:(lia) ltac:(lia)) as [HC _].
  fold m in HC.
  exists n, P, F, ((Z.max 0 (n - 4 * P - 9 * F) + 2) / 4).
  repeat split; try assumption.
  apply Z.div_pos; lia.
Qed.

(** The four targets that onboarding stores are whole numbers (the columns
    are INTEGER) and the carbs target is not negative: for a weight and an
    age below [2^13] and a height below [2^10] in magnitude, metric or
    imperial. *)
Theorem stored_targets_are_whole (user : string) (data : OnboardingData.t) :
  magnitude_below 13 (OnboardingData.current_weight data) = true ->
  magnitude_below 10 (OnboardingData.height data) = true ->
  magnitude_below 13 (OnboardingData.age data) = true ->
  exists (pd : ProfileData.t) (n P F C : Z),
    completeOnboarding (Some user) data = Ok pd /\
    is_int (ProfileData.daily_calorie_target pd) n /\
    is_int (ProfileData.daily_protein_target pd) P /\
    is_int (ProfileData.daily_fat_target pd) F /\
    ProfileData.daily_carbs_target pd = of_Z C /\ 0 <= C.
Proof.
  intros Hw Hh Ha.
  set (w := match OnboardingData.unit_system data with
            | imperial => div (OnboardingData.current_weight data) (dec 2205 (-3))
            | metric => OnboardingData.current_weight data
            end).
  set (h := match OnboardingData.unit_system data with
            | imperial => mul (OnboardingData.height data) (dec 254 (-2))
            | metric => OnboardingData.height data
            end).
  assert (Mw : magnitude_below 13 w = true).
  { subst w. destruct (OnboardingData.unit_system data); [assumption|].
    rewrite factor_2205. apply (div_magnitude 13); [assumption|lia|lia|lia]. }
  assert (Mh : magnitude_below 13 h = true).
  { subst h. destruct (OnboardingData.unit_system data).
    - apply (magnitude_below_weaken 10); [lia|assumption].
    - apply (mul_magnitude 10 2); [assumption|now rewrite factor_254|lia|lia]. }
  destruct (pipeline_whole w h (OnboardingData.age data) (OnboardingData.gender data)
              (OnboardingData.activity_level data) (OnboardingData.goal_type data)
              Mw Mh Ha) as (n & P & F & C & H1 & H2 & H3 & H4 & H5).
  eexists. exists n, P, F, C.
  split; [reflexivity|].
  cbn [ProfileData.daily_calorie_target ProfileData.daily_protein_target
       ProfileData.daily_fat_target ProfileData.daily_carbs_target].
  fold w h. repeat split; assumption.
Qed.

Lemma stored_targets_are_whole_witness :
  exists (pd : ProfileData.t) (n P F C : Z),
    completeOnboarding (Some "u1") scenario_data = Ok pd /\
    is_int (ProfileData.daily_calorie_target pd) n /\
    is_int (ProfileData.daily_protein_target pd) P /\
    is_int (ProfileData.daily_fat_target pd) F /\
    ProfileData.daily_carbs_target pd = of_Z C /\ 0 <= C.
Proof.
  apply (stored_targets_are_whole "u1" scenario_data); reflexivity.
Defined.

(** The breakdown card shows the rounded BMR of the calculators, and for a
    metric row the protein target that is stored; but it rounds the BMR
    and the TDEE before it goes on, so its calorie target is not always the
    stored one: for 70 kg, 175 cm, 30 years, male, moderately active, goal
    lose, the card shows 2045 kcal and the stored target is 2044. *)
Theorem card_against_stored_targets :
  (forall (row : Profile.t) (v : BreakdownCard.values) (a : number) (ge : Gender),
     BreakdownCard.render (Some row) = Some v ->
     Profile.age row = Some a -> Profile.gender row = Some ge ->
     BreakdownCard.bmr v
     = Math_round (calculateBMR (BreakdownCard.weightKg v) (BreakdownCard.heightCm v) a ge)) /\
  (forall (user : string) (row : Profile.t) (v : BreakdownCard.values) (t : DailyTargets),
     Profile.unit_system row = metric ->
     BreakdownCard.render (Some row) = Some v ->
     recalculateTargets (Some user) (Some row) = Ok t ->
     BreakdownCard.protein v = daily_protein_target t) /\
  (exists (v : BreakdownCard.values) (t : DailyTargets),
     BreakdownCard.render (Some scenario_row) = Some v /\
     recalculateTargets (Some "u1") (Some scenario_row) = Ok t /\
     BreakdownCard.calorieTarget v = of_Z 2045 /\
     daily_calorie_target t = of_Z 2044).
Proof.
  split; [|split].
  - intros row v a ge Hr Ea Eg. unfold BreakdownCard.render in Hr.
    rewrite Ea, Eg in Hr.
    destruct (Profile.current_weight row) as [w|]; [|discriminate].
    destruct (Profile.height row) as [h|]; [|discriminate].
    destruct (negb (truthy w) || negb (truthy h) || negb (truthy a))%bool; [discriminate|].
    apply some_eq in Hr. subst v.
    cbn [BreakdownCard.bmr BreakdownCard.weightKg BreakdownCard.heightCm].
    unfold calculateBMR. destruct ge; try reflexivity; now rewrite add_opp_161.
  - intros user row v t Hm Hr Ht.
    unfold BreakdownCard.render in Hr. unfold recalculateTargets in Ht.
    rewrite Hm in Hr, Ht.
    destruct (Profile.current_weight row) as [w|]; [|discriminate].
    destruct (Profile.height row) as [h|]; [|discriminate].
    destruct (Profile.age row) as [a|]; [|discriminate].
    destruct (Profile.gender row) as [ge|]; [|discriminate].
    destruct (truthy w) eqn:Tw; [|discriminate].
    destruct (negb true || negb (truthy h) || negb (truthy a))%bool; [discriminate|].
    apply some_eq in Hr. apply ok_eq in Ht. subst v t.
    cbn [BreakdownCard.protein daily_protein_target].
    unfold calculateMacroTargets, or_else. rewrite Tw.
    destruct (Profile.goal_type row); reflexivity.
  - eexists. eexists. split; [reflexivity|]. split; [reflexivity|].
    split; vm_compute; reflexivity.
Qed.

Lemma card_against_stored_targets_witness :
  exists v, BreakdownCard.render (Some scenario_row) = Some v /\
    BreakdownCard.bmr v
    = Math_round (calculateBMR (BreakdownCard.weightKg v) (BreakdownCard.heightCm v)
                               (of_Z 30) male).
Proof.
  eexists. split; [reflexivity|].
  apply (proj1 card_against_stored_targets scenario_row _ (of_Z 30) male); reflexivity.
Defined.

End StoredTargetFacts.

(** * Meal logs *)

Section MealLogFacts.

Lemma filter_split4 (logs : list MealLog.t) :
  Permutation
    (filter (fun log => MealType_eqb (MealLog.meal_type log) breakfast) logs
     ++ filter (fun log => MealType_eqb (MealLog.meal_type log) lunch) logs
     ++ filter (fun log => MealType_eqb (MealLog.meal_type log) dinner) logs
     ++ filter (fun log => MealType_eqb (MealLog.meal_type log) snack) logs)
    logs.
Proof.
  induction logs as [|x l IH]; [constructor|].
  cbn [filter]. destruct (MealLog.meal_type x); cbn [MealType_eqb].
  - cbn [app]. now constructor.
  - symmetry. apply Permutation_cons_app. now symmetry.
  - symmetry. rewrite app_assoc. apply Permutation_cons_app.
    rewrite <- app_assoc. now symmetry.
  - symmetry. rewrite !app_assoc. apply Permutation_cons_app.
    rewrite <- !app_assoc. now symmetry.
Qed.

Lemma MealType_eqb_eq (a b : MealType) : MealType_eqb a b = true -> a = b.
Proof. destruct a, b; cbn; congruence. Qed.

(** The four meal cards partition the rows of the day: together they are
    a rearrangement of all rows, each keeps the order of the rows, and a
    card holds only rows of its own meal type.  Without a query result all
    four are empty. *)
Theorem meals_by_type_partition (data : option (list MealLog.t)) :
  let m := mealsByType data in
  Permutation (MealsByType.breakfast m ++ MealsByType.lunch m
               ++ MealsByType.dinner m ++ MealsByType.snack m) (rows data) /\
  Forall (fun log => MealLog.meal_type log = breakfast) (MealsByType.breakfast m) /\
  Forall (fun log => MealLog.meal_type log = lunch) (MealsByType.lunch m) /\
  Forall (fun log => MealLog.meal_type log = dinner) (MealsByType.dinner m) /\
  Forall (fun log => MealLog.meal_type log = snack) (MealsByType.snack m) /\
  (data = None -> m = {| MealsByType.breakfast := []; MealsByType.lunch := [];
                         MealsByType.dinner := []; MealsByType.snack := [] |}).
Proof.
  cbn. split; [apply filter_split4|].
  repeat split;
    try (apply Forall_forall; intros log Hin; apply filter_In in Hin;
         destruct Hin as [_ H]; now apply MealType_eqb_eq).
  intros ->. reflexivity.
Qed.

(** *** Sums that ignore blank rows *)

Lemma round_model_plain (s : bool) (P e : Z) :
  0 < P -> -1074 <= e -> plain (round_model s P e).
Proof.
  intros HP He. unfold round_model.
  set (E := Z.max e (fexp prec emax (Zdigits2 P + e))).
  set (q := rne P (E - e)).
  set (E' := Z.max E (fexp prec emax (Zdigits2 q + E))).
  assert (HE : -1074 <= E) by (unfold E; lia).
  assert (HE' : E <= E') by (unfold E'; lia).
  assert (Hq : 0 < q / 2 ^ (E' - E)).
  { pose proof (Zdigits2_bounds P ltac:(lia)) as [BP1 BP2].
    pose proof (Zdigits2_pos P ltac:(lia)) as DP.
    rewrite Z.abs_eq in BP1, BP2 by lia.
    destruct (Z.eq_dec E e) as [Ee|Ne].
    - assert (q = P) by (unfold q; rewrite Ee, Z.sub_diag; apply rne_0).
      assert (E' = E).
      { unfold E'. subst q. rewrite H, Ee. unfold E in Ee. lia. }
      rewrite H0, Z.sub_diag. change (2 ^ 0) with 1. rewrite Z.div_1_r. lia.
    - assert (Efe : E = Zdigits2 P + e - 53).
      { unfold E in *. rewrite fexp_eq in *. lia. }
      assert (Hk : 0 < E - e) by (unfold E in *; lia).
      assert (Hq52 : 2 ^ 52 <= q).
      { unfold q. apply rne_ge_multiple; [lia|].
        rewrite <- Z.pow_add_r by lia.
        replace (52 + (E - e)) with (Zdigits2 P - 1) by lia. exact BP1. }
      assert (Hq53 : q <= 2 ^ 53).
      { unfold q. apply rne_le_multiple; [lia|].
        rewrite <- Z.pow_add_r by lia.
        replace (53 + (E - e)) with (Zdigits2 P) by lia. lia. }
      assert (Dq : Zdigits2 q <= 54).
      { apply Zdigits2_le; [lia|]. rewrite Z.abs_eq by lia.
        change (2 ^ 54) with (2 * 2 ^ 53). lia. }
      assert (HE1 : E' - E <= 1).
      { unfold E'. rewrite fexp_eq. lia. }
      assert (0 <= E' - E) by lia.
      assert (Hpow : 2 ^ (E' - E) <= 2).
      { change 2 with (2 ^ 1) at 2. apply Z.pow_le_mono_r; lia. }
      assert (0 < 2 ^ (E' - E)) by (apply Z.pow_pos_nonneg; lia).
      apply Z.div_str_pos. change (2 ^ 52) with 4503599627370496 in Hq52. lia. }
  destruct (q / 2 ^ (E' - E)) as [|m|m]; try lia.
  destruct (E' <=? emax - prec); cbn; [lia|exact I].
Qed.

Lemma binary_round_plain (s : bool) (m : positive) (e : Z) :
  -1074 <= e -> plain (binary_round prec emax s m e).
Proof.
  intros He. unfold binary_round. rewrite fexp_eq.
  set (t := Z.max (Zpos (digits2_pos m) + e - 53) (-1074)).
  destruct (Z_le_gt_dec e t) as [Hle|Hgt].
  - rewrite shl_align_id by assumption.
    rewrite binary_round_aux_model by lia. apply round_model_plain; lia.
  - pose proof (shl_align_spec m e t ltac:(lia)) as [Hf Hs].
    destruct (shl_align m e t) as [mz ez]. cbn [fst snd] in Hf, Hs. subst ez.
    rewrite binary_round_aux_model by lia. apply round_model_plain; unfold t; lia.
Qed.

Lemma binary_normalize_plain (z e : Z) :
  -1074 <= e -> plain (binary_normalize prec emax z e false).
Proof.
  intros He. destruct z as [|p|p]; cbn [binary_normalize]; [reflexivity| |];
    now apply binary_round_plain.
Qed.

Lemma add_plain (x y : number) : plain x -> plain y -> plain (add x y).
Proof.
  destruct x as [a|a| |a m e], y as [b|b| |b n f]; cbn [plain]; intros Hx Hy;
    try exact I; try (subst; reflexivity); try assumption.
  - cbn. destruct a, b; exact I.
  - unfold add, SFadd. apply binary_normalize_plain. lia.
Qed.

Lemma add_zero_plain (x : number) : plain x -> add x (of_Z 0) = x.
Proof.
  destruct x as [a|a| |a m e]; cbn [plain]; intros H; subst; reflexivity.
Qed.

Lemma binary64_plain (x : number) :
  is_binary64 x = true -> plain (or_else x (of_Z 0)).
Proof.
  intros Hv. unfold or_else. destruct x as [a|a| |a m e]; cbn [truthy plain];
    try reflexivity; try exact I.
  unfold is_binary64, valid_binary, bounded, canonical_mantissa in Hv.
  apply Bool.andb_true_iff in Hv. destruct Hv as [Hc _].
  apply Z.eqb_eq in Hc. rewrite fexp_eq in Hc. lia.
Qed.

Lemma totals_plain (logs : list MealLog.t) (acc : DailyNutrition.t) :
  Forall (fun l => log_is_binary64 l = true) logs -> plain_totals acc ->
  plain_totals (fold_left add_log logs acc).
Proof.
  revert acc. induction logs as [|x l IH]; intros acc Hl Ha; [assumption|].
  cbn [fold_left]. inversion Hl as [|? ? Hx Hl']; subst.
  apply IH; [assumption|].
  unfold log_is_binary64 in Hx. rewrite !Bool.andb_true_iff in Hx.
  destruct Hx as [[[H1 H2] H3] H4]. destruct Ha as (A1 & A2 & A3 & A4).
  repeat split; cbn; apply add_plain; try assumption; now apply binary64_plain.
Qed.

(** A row whose four values are all zero or NaN changes no total: the day
    adds up to the same with the row as without it, wherever it stands
    among the rows (the rows before it holding binary64 values). *)
Theorem blank_rows_are_ignored (before after : list MealLog.t) (log : MealLog.t) :
  Forall (fun l => log_is_binary64 l = true) before ->
  blank log = true ->
  dailyTotals (Some (before ++ log :: after)) = dailyTotals (Some (before ++ after)).
Proof.
  intros Hb Hl. unfold dailyTotals, rows. fold add_log.
  rewrite !fold_left_app. cbn [fold_left]. f_equal.
  set (acc := fold_left add_log before _).
  assert (Ha : plain_totals acc).
  { apply totals_plain; [assumption|]. repeat split. }
  unfold blank in Hl. rewrite !Bool.andb_true_iff, !Bool.negb_true_iff in Hl.
  destruct Hl as [[[H1 H2] H3] H4]. destruct Ha as (A1 & A2 & A3 & A4).
  unfold add_log, or_else. rewrite H1, H2, H3, H4.
  rewrite !add_zero_plain by assumption.
  now destruct acc.
Qed.

Lemma blank_rows_are_ignored_witness :
  dailyTotals (Some ([sample_log breakfast (of_Z 300) (of_Z 12) (of_Z 40) (of_Z 9)]
                     ++ sample_log snack (of_Z 0) S754_nan (of_Z 0) (S754_zero true)
                        :: [sample_log dinner (of_Z 650) (of_Z 30) (of_Z 70) (of_Z 20)]))
  = dailyTotals (Some ([sample_log breakfast (of_Z 300) (of_Z 12) (of_Z 40) (of_Z 9)]
                       ++ [sample_log dinner (of_Z 650) (of_Z 30) (of_Z 70) (of_Z 20)])).
Proof.
  apply (blank_rows_are_ignored
           [sample_log breakfast (of_Z 300) (of_Z 12) (of_Z 40) (of_Z 9)]
           [sample_log dinner (of_Z 650) (of_Z 30) (of_Z 70) (of_Z 20)]
           (sample_log snack (of_Z 0) S754_nan (of_Z 0) (S754_zero true))).
  - constructor; [reflexivity | constructor].
  - reflexivity.
Defined.

(** *** Whole-number calories add up *)

Lemma whole_nonneg_spec (x : number) :
  whole_nonneg x = true -> x = of_Z (to_Z x) /\ 0 <= to_Z x.
Proof.
  unfold whole_nonneg. rewrite Bool.andb_true_iff. intros [H1 H2].
  split; [now apply number_beq_eq | now apply Z.leb_le].
Qed.

Lemma or_else_canon (n : Z) : or_else (canon n 0) (of_Z 0) = canon n 0.
Proof. destruct n; reflexivity. Qed.

Lemma kcal_sum_nonneg (logs : list MealLog.t) :
  Forall (fun log => whole_nonneg (MealLog.calories log) = true) logs ->
  0 <= kcal_sum logs.
Proof.
  induction 1 as [|x l Hx _ IH]; unfold kcal_sum in *; cbn [fold_right]; [lia|].
  apply whole_nonneg_spec in Hx. lia.
Qed.

Lemma totalCalories_whole (logs : list MealLog.t) (a : Z) :
  Forall (fun log => whole_nonneg (MealLog.calories log) = true) logs ->
  0 <= a -> a + kcal_sum logs < 2 ^ 53 ->
  fold_left (fun sum meal => add sum (or_else (MealLog.calories meal) (of_Z 0)))
            logs (of_Z a)
  = of_Z (a + kcal_sum logs).
Proof.
  intros H. revert a. induction H as [|x l Hx Hl IH]; intros a Ha Hb.
  - cbn. f_equal. lia.
  - cbn [fold_left kcal_sum fold_right] in *. fold (kcal_sum l) in *.
    pose proof (kcal_sum_nonneg l Hl) as Hn.
    apply whole_nonneg_spec in Hx. destruct Hx as [Ex Px].
    set (n := to_Z (MealLog.calories x)) in *. clearbody n.
    rewrite Ex.
    assert (B : 2 ^ 53 = 9007199254740992) by reflexivity.
    rewrite (of_Z_canon n) by (unfold prec; lia).
    rewrite or_else_canon.
    rewrite (of_Z_canon a) by (unfold prec; lia).
    rewrite add_int by (unfold prec; lia).
    rewrite <- of_Z_canon by (unfold prec; lia).
    rewrite IH by lia. f_equal. lia.
Qed.

Lemma dailyTotals_calories (logs : list MealLog.t) (acc : DailyNutrition.t) :
  DailyNutrition.calories (fold_left add_log logs acc)
  = fold_left (fun sum meal => add sum (or_else (MealLog.calories meal) (of_Z 0)))
              logs (DailyNutrition.calories acc).
Proof.
  revert acc. induction logs as [|x l IH]; intros acc; [reflexivity|].
  cbn [fold_left]. now rewrite IH.
Qed.

Lemma kcal_sum_filter (logs : list MealLog.t) :
  kcal_sum (filter (fun log => MealType_eqb (MealLog.meal_type log) breakfast) logs)
  + kcal_sum (filter (fun log => MealType_eqb (MealLog.meal_type log) lunch) logs)
  + kcal_sum (filter (fun log => MealType_eqb (MealLog.meal_type log) dinner) logs)
  + kcal_sum (filter (fun log => MealType_eqb (MealLog.meal_type log) snack) logs)
  = kcal_sum logs.
Proof.
  induction logs as [|x l IH]; [reflexivity|].
  cbn [filter]. unfold kcal_sum in *.
  destruct (MealLog.meal_type x); cbn [MealType_eqb fold_right]; lia.
Qed.

Lemma kcal_sum_filter_le (f : MealLog.t -> bool) (logs : list MealLog.t) :
  Forall (fun log => whole_nonneg (MealLog.calories log) = true) logs ->
  0 <= kcal_sum (filter f logs) <= kcal_sum logs.
Proof.
  induction 1 as [|x l Hx Hl IH]; cbn [filter]; [cbn; lia|].
  apply whole_nonneg_spec in Hx. unfold kcal_sum in *.
  destruct (f x); cbn [fold_right]; lia.
Qed.

(** When every row's calories are a whole number, not negative (the column
    is INTEGER), and the day's sum is below [2^53], no total is rounded:
    each meal card shows the exact sum of its rows, the dashboard the exact
    sum of all rows, and the four cards add up to the dashboard's total. *)
Theorem meal_cards_add_up (logs : list MealLog.t) :
  Forall (fun log => whole_nonneg (MealLog.calories log) = true) logs ->
  kcal_sum logs < 2 ^ 53 ->
  let m := mealsByType (Some logs) in
  totalCalories (MealsByType.breakfast m) = of_Z (kcal_sum (MealsByType.breakfast m)) /\
  totalCalories (MealsByType.lunch m) = of_Z (kcal_sum (MealsByType.lunch m)) /\
  totalCalories (MealsByType.dinner m) = of_Z (kcal_sum (MealsByType.dinner m)) /\
  totalCalories (MealsByType.snack m) = of_Z (kcal_sum (MealsByType.snack m)) /\
  DailyNutrition.calories (dailyTotals (Some logs)) = of_Z (kcal_sum logs) /\
  kcal_sum (MealsByType.breakfast m) + kcal_sum (MealsByType.lunch m)
  + kcal_sum (MealsByType.dinner m) + kcal_sum (MealsByType.snack m) = kcal_sum logs.
Proof.
  intros Hw Hb m.
  assert (Hf : forall f, totalCalories (filter f logs) = of_Z (kcal_sum (filter f logs))).
  { intros f. unfold totalCalories.
    pose proof (kcal_sum_filter_le f logs Hw) as Hle.
    rewrite (totalCalories_whole (filter f logs) 0); [reflexivity| |lia|lia].
    apply Forall_forall. intros x Hx. apply filter_In in Hx.
    rewrite Forall_forall in Hw. now apply Hw. }
  subst m. cbn [mealsByType MealsByType.breakfast MealsByType.lunch MealsByType.dinner
                MealsByType.snack rows].
  rewrite !Hf. repeat split.
  - unfold dailyTotals, rows. fold add_log. rewrite dailyTotals_calories.
    cbn [DailyNutrition.calories].
    pose proof (kcal_sum_nonneg logs Hw).
    rewrite (totalCalories_whole logs 0); [reflexivity|assumption|lia|lia].
  - apply kcal_sum_filter.
Qed.

Lemma meal_cards_add_up_witness :
  DailyNutrition.calories
    (dailyTotals (Some [sample_log breakfast (of_Z 300) (of_Z 12) (of_Z 40) (of_Z 9);
                        sample_log dinner (of_Z 650) (of_Z 30) (of_Z 70) (of_Z 20);
                        sample_log breakfast (of_Z 95) (of_Z 0) (of_Z 25) (of_Z 0)]))
  = of_Z 1045.
Proof.
  apply (meal_cards_add_up
           [sample_log breakfast (of_Z 300) (of_Z 12) (of_Z 40) (of_Z 9);
            sample_log dinner (of_Z 650) (of_Z 30) (of_Z 70) (of_Z 20);
            sample_log breakfast (of_Z 95) (of_Z 0) (of_Z 25) (of_Z 0)]).
  - repeat constructor.
  - reflexivity.
Defined.

End MealLogFacts.

(** * The add-food dialog *)

Section AddFoodDialogFacts.
Import AddFoodDialog.

Lemma Math_max_0_magnitude (k : Z) (x : number) :
  magnitude_below k x = true -> magnitude_below k (Math_max (of_Z 0) x) = true.
Proof.
  destruct x as [s|s| |s m e]; try discriminate; intros H.
  - destruct s; reflexivity.
  - change (of_Z 0) with (S754_zero false). unfold Math_max. cbn [SFcompare].
    destruct s; [reflexivity | exact H].
Qed.

(** Stepping the quantity never makes it negative, whatever the step and
    the state; in grams or millilitres the new quantity is a whole number
    (for a quantity and a delta below [2^40] in magnitude). *)
Theorem quantity_step_never_negative (st : state) (delta : number) :
  ltb (quantity (handleQuantityStep st delta)) (of_Z 0) = false /\
  (unit st <> serving ->
   magnitude_below 40 (quantity st) = true -> magnitude_below 40 delta = true ->
   exists n, 0 <= n /\ quantity (handleQuantityStep st delta) = of_Z n).
Proof.
  split.
  - apply sign_plus_not_lt_0. unfold handleQuantityStep. cbn [quantity].
    destruct (QuantityUnit_eqb (unit st) serving).
    + apply Math_max_0_sign.
    + apply Math_round_sign, Math_max_0_sign.
  - intros Hu Hq Hd. unfold handleQuantityStep. cbn [quantity].
    destruct (QuantityUnit_eqb (unit st) serving) eqn:E.
    { destruct (unit st); try discriminate. now elim Hu. }
    set (x := Math_max (of_Z 0) (add (quantity st) (mul delta (of_Z 10)))).
    assert (Hm : magnitude_below 47 x = true).
    { apply Math_max_0_magnitude.
      apply (add_magnitude 40 45); [assumption| |lia|lia].
      apply (mul_magnitude 40 4); [assumption|reflexivity|lia|lia]. }
    destruct (Math_round_is_int x 47 Hm ltac:(lia)) as (n & Hn & Hi).
    assert (Hb : Z.abs n < 2 ^ 53).
    { change (2 ^ 47) with 140737488355328 in Hn.
      change (2 ^ 53) with 9007199254740992. lia. }
    destruct (is_int_nonneg _ n Hi (Math_round_sign x (Math_max_0_sign _)) Hb) as [H0 He].
    exists n. split; assumption.
Qed.

Lemma quantity_step_never_negative_witness :
  exists n, 0 <= n /\
    quantity (handleQuantityStep (dialog_state (of_Z 5) g) (of_Z (-1))) = of_Z n.
Proof.
  apply (proj2 (quantity_step_never_negative (dialog_state (of_Z 5) g) (of_Z (-1))));
    [discriminate | reflexivity | reflexivity].
Defined.

Lemma or_else_finite (x : number) :
  is_finite x = true ->
  exists s m e, or_else x (of_Z 100) = S754_finite s m e.
Proof.
  unfold or_else. destruct x as [s|s| |s m e]; try discriminate; intros _; cbn [truthy].
  - change (of_Z 100) with (S754_finite false 7036874417766400 (-46)). eauto.
  - eauto.
Qed.

Lemma roundToDecimal_congr (x y : number) : x = y -> roundToDecimal x 1 = roundToDecimal y 1.
Proof. now intros ->. Qed.

(** A dialog opens on exactly one serving: after the reset for a food, in
    servings for a solid and in millilitres for a drink, the nutrition
    shown is the food's own per-serving values, rounded for display (for a
    finite serving size and binary64 values). *)
Theorem dialog_opens_on_one_serving (food : Food) (initialMealType : MealType) (st : state) :
  is_finite (serving_grams food) = true ->
  is_binary64 (calories_per_serving food) = true ->
  is_binary64 (protein_grams food) = true ->
  is_binary64 (carbs_grams food) = true ->
  is_binary64 (fat_grams food) = true ->
  let n := nutrition food (resetState food initialMealType st) in
  r_calories n = Math_round (calories_per_serving food) /\
  r_protein n = roundToDecimal (protein_grams food) 1 /\
  r_carbs n = roundToDecimal (carbs_grams food) 1 /\
  r_fat n = roundToDecimal (fat_grams food) 1.
Proof.
  intros Hs Hc Hp Hb Hf n. subst n.
  unfold nutrition, resetState, getDefaultUnit. cbn [quantity unit].
  destruct (or_else_finite (serving_grams food) Hs) as (s & m & e & Hsg).
  assert (Hmul : forall x, is_binary64 x = true ->
            mul x (match (if isLiquid (category food) then ml else serving) with
                   | g | ml =>
                       div (if QuantityUnit_eqb (if isLiquid (category food) then ml else serving)
                                                serving
                            then of_Z 1 else or_else (serving_grams food) (of_Z 100))
                           (or_else (serving_grams food) (of_Z 100))
                   | serving =>
                       if QuantityUnit_eqb (if isLiquid (category food) then ml else serving)
                                           serving
                       then of_Z 1 else or_else (serving_grams food) (of_Z 100)
                   end) = x).
  { intros x Hx. destruct (isLiquid (category food)); cbn [QuantityUnit_eqb].
    - rewrite Hsg, div_self. now apply mul_one_r.
    - now apply mul_one_r. }
  unfold calculateNutrition.
  destruct (isLiquid (category food)) eqn:El; cbn [QuantityUnit_eqb] in *;
    cbn [r_calories r_protein r_carbs r_fat];
    rewrite !Hmul by assumption; repeat split.
Qed.

Lemma dialog_opens_on_one_serving_witness :
  r_calories (nutrition (sample_food beverages (of_Z 42) (of_Z 250))
                (resetState (sample_food beverages (of_Z 42) (of_Z 250)) lunch
                            (initialState lunch)))
  = Math_round (of_Z 42).
Proof.
  apply (dialog_opens_on_one_serving (sample_food beverages (of_Z 42) (of_Z 250)) lunch
           (initialState lunch)); reflexivity.
Defined.

(** Changing the unit: between grams and millilitres, or to the unit
    already chosen, the quantity stays.  Servings to grams and back returns
    the quantity for [k/10] servings, up to 5, of a food with [5 j] grams
    per serving, from 10 g to 500 g.  The other way loses grams: 155 g of a
    100 g serving become 1.6 servings, and those become 160 g. *)
Theorem unit_change_round_trips (food : Food) :
  (forall st u, (unit st = g \/ unit st = ml) -> (u = g \/ u = ml) ->
     quantity (handleUnitChange food st u) = quantity st) /\
  (forall st, quantity (handleUnitChange food st (unit st)) = quantity st) /\
  (forall j k st, 2 <= j <= 100 -> 0 <= k <= 50 ->
     serving_grams food = of_Z (5 * j) ->
     unit st = serving -> quantity st = dec k (-1) ->
     handleUnitChange food (handleUnitChange food st g) serving = st) /\
  (serving_grams food = of_Z 100 ->
   quantity (handleUnitChange food (dialog_state (of_Z 155) g) serving) = dec 16 (-1) /\
   quantity (handleUnitChange food
               (handleUnitChange food (dialog_state (of_Z 155) g) serving) g) = of_Z 160).
Proof.
  repeat split.
  - intros st u [Hu|Hu] [Hn|Hn]; unfold handleUnitChange; rewrite Hu, Hn; reflexivity.
  - intros st. unfold handleUnitChange. destruct (unit st); reflexivity.
  - intros j k st Hj Hk Hsg Hu Hq.
    destruct st as [q u mt sb]. cbn [unit quantity] in Hu, Hq. subst u q.
    unfold handleUnitChange. cbn [unit quantity mealType showBreakdown QuantityUnit_eqb
                                   andb orb].
    f_equal. rewrite Hsg.
    assert (Ht : truthy (of_Z (5 * j)) = true).
    { rewrite of_Z_canon by (unfold prec; lia).
      destruct (canon_finite (5 * j) 0 ltac:(lia)) as [Hc _].
      { unfold prec. apply Zdigits2_le; lia. }
      now rewrite Hc. }
    unfold or_else. rewrite Ht.
    assert (Hrow : serving_round_trip_row k = true).
    { apply (all_upto_spec serving_round_trip_row 50);
        [vm_cast_no_check (eq_refl true) | lia]. }
    unfold serving_round_trip_row in Hrow.
    apply (all_from_spec _ 99 2 j) in Hrow; [|lia].
    apply tenth_of. rewrite <- tenth_dec. exact Hrow.
  - unfold handleUnitChange. cbn [unit quantity dialog_state QuantityUnit_eqb andb orb].
    rewrite H. vm_compute. reflexivity.
  - unfold handleUnitChange. cbn [unit quantity dialog_state QuantityUnit_eqb andb orb].
    rewrite H. vm_compute. reflexivity.
Qed.

Lemma unit_change_round_trips_witness :
  handleUnitChange (sample_food grains (of_Z 300) (of_Z 150))
    (handleUnitChange (sample_food grains (of_Z 300) (of_Z 150))
       (dialog_state (dec 15 (-1)) serving) g) serving
  = dialog_state (dec 15 (-1)) serving.
Proof.
  destruct (unit_change_round_trips (sample_food grains (of_Z 300) (of_Z 150)))
    as (_ & _ & H & _).
  apply (H 30 15); [lia | lia | reflexivity | reflexivity | reflexivity].
Defined.

End AddFoodDialogFacts.

Section FoodSearchFacts.

(** What is logged is consistent: the stored nutrition is the food's
    per-serving values times the stored number of servings, rounded as the
    calculator rounds, whatever the unit chosen in the dialog; the row goes
    to the meal chosen there. *)
Theorem logged_row_is_consistent
    (dateStr : option string) (food : Food) (st : AddFoodDialog.state) :
  let row := handleAddToMeal dateStr (AddFoodDialog.handleAdd food st) in
  NewMealLog.calories row
    = Math_round (mul (calories_per_serving food) (NewMealLog.servings row)) /\
  NewMealLog.protein row
    = roundToDecimal (mul (protein_grams food) (NewMealLog.servings row)) 1 /\
  NewMealLog.carbs row
    = roundToDecimal (mul (carbs_grams food) (NewMealLog.servings row)) 1 /\
  NewMealLog.fat row
    = roundToDecimal (mul (fat_grams food) (NewMealLog.servings row)) 1 /\
  NewMealLog.meal_type row = AddFoodDialog.mealType st /\
  NewMealLog.food_id row = id food /\
  (AddFoodDialog.unit st = serving ->
   NewMealLog.servings row = AddFoodDialog.quantity st).
Proof.
  unfold handleAddToMeal, AddFoodDialog.handleAdd, AddFoodDialog.nutrition,
    calculateNutrition.
  cbn [AddFoodDialog.a_food AddFoodDialog.a_quantity AddFoodDialog.a_unit
       AddFoodDialog.a_mealType AddFoodDialog.a_nutrition
       NewMealLog.calories NewMealLog.protein NewMealLog.carbs NewMealLog.fat
       NewMealLog.servings NewMealLog.meal_type NewMealLog.food_id].
  destruct (AddFoodDialog.unit st); cbn; repeat split; intros; congruence.
Qed.

End FoodSearchFacts.

(** * The macro card and the dashboard *)

Section DashboardFacts.

Lemma ltb_irrefl (x : number) : ltb x x = false.
Proof.
  destruct x as [s|s| |s m e]; [now destruct s | now destruct s | reflexivity |].
  unfold ltb, SFltb, SFcompare.
  destruct s; rewrite Z.compare_refl, Pos.compare_cont_refl; reflexivity.
Qed.

Lemma positive_truthy (x : number) : ltb (of_Z 0) x = true -> truthy x = true.
Proof. destruct x as [s|s| |s m e]; try reflexivity; [now destruct s | discriminate]. Qed.

Lemma percent_not_nan (x y : number) :
  is_nan x = false -> is_finite y = true -> truthy y = true ->
  is_nan (Math_round (mul (div x y) (of_Z 100))) = false.
Proof.
  intros Hx Hy Ht. apply Math_round_not_nan.
  apply mul_not_nan; [|reflexivity|reflexivity].
  now apply div_not_nan.
Qed.

(** The percentage on a macro card is always a number: it is never NaN
    for a value that is not NaN and a finite target; it is 0 when there is
    no positive target (zero, negative or NaN), so nothing is divided by
    zero; and a value equal to a positive finite target shows exactly 100
    and is not marked as over. *)
Theorem macro_percentage_is_a_number (value target : number) :
  (is_nan value = false -> is_finite target = true ->
   is_nan (percentage value target) = false) /\
  (ltb (of_Z 0) target = false -> percentage value target = of_Z 0) /\
  (is_finite target = true -> ltb (of_Z 0) target = true ->
   percentage target target = of_Z 100 /\ isOver target target = false).
Proof.
  unfold percentage, isOver. split; [|split].
  - intros Hv Hf. destruct (ltb (of_Z 0) target) eqn:E; [|reflexivity].
    apply percent_not_nan; [assumption|assumption|now apply positive_truthy].
  - intros ->. reflexivity.
  - intros Hf Hp. split; [|apply ltb_irrefl].
    rewrite Hp. destruct target as [s|s| |s m e]; try discriminate.
    rewrite div_self. vm_compute. reflexivity.
Qed.

Lemma macro_percentage_is_a_number_witness :
  percentage (of_Z 140) (of_Z 140) = of_Z 100 /\ isOver (of_Z 140) (of_Z 140) = false.
Proof.
  apply (macro_percentage_is_a_number (of_Z 140) (of_Z 140)); reflexivity.
Defined.

Lemma or_default_truthy (x : option number) (d : number) :
  truthy d = true -> truthy (or_default x d) = true.
Proof.
  intros Hd. destruct x as [v|]; [|assumption]. cbn. unfold or_else.
  destruct (truthy v) eqn:E; assumption.
Qed.

(** The dashboard never divides by zero: the calorie target it uses is
    never zero or NaN, 2000 standing in for a missing profile or a missing,
    zero or NaN stored target, so the calorie percentage is a number for
    totals that are not NaN and a finite target.  The number under
    "Remaining" is the absolute difference of target and total, never
    negative. *)
Theorem dashboard_divides_safely (profile : option Profile.t) (totals : DailyNutrition.t) :
  truthy (calorieTarget profile) = true /\
  (match profile with
   | Some p => present (Profile.daily_calorie_target p) = false
   | None => True
   end -> calorieTarget profile = of_Z 2000) /\
  (is_nan (DailyNutrition.calories totals) = false ->
   is_finite (calorieTarget profile) = true ->
   is_nan (caloriePercentage profile totals) = false) /\
  remainingShown profile totals = Math_abs (caloriesRemaining profile totals) /\
  ltb (remainingShown profile totals) (of_Z 0) = false.
Proof.
  assert (Ht : truthy (calorieTarget profile) = true)
    by (apply or_default_truthy; reflexivity).
  assert (Hr : remainingShown profile totals
               = Math_abs (caloriesRemaining profile totals)).
  { unfold remainingShown.
    destruct (caloriesRemaining profile totals) as [s|s| |s m e]; try reflexivity;
      destruct s; reflexivity. }
  split; [assumption|]. split; [|split; [|split; [assumption|]]].
  - unfold calorieTarget. destruct profile as [p|]; [|reflexivity].
    unfold or_default, present, or_else.
    destruct (Profile.daily_calorie_target p) as [v|]; [|reflexivity].
    now intros ->.
  - intros Hn Hf. unfold caloriePercentage. now apply percent_not_nan.
  - rewrite Hr. now destruct (caloriesRemaining profile totals) as [s|s| |s m e].
Qed.

Lemma dashboard_divides_safely_witness :
  calorieTarget None = of_Z 2000.
Proof.
  exact (proj1 (proj2 (dashboard_divides_safely None
           {| DailyNutrition.calories := of_Z 0; DailyNutrition.protein := of_Z 0;
              DailyNutrition.carbs := of_Z 0; DailyNutrition.fat := of_Z 0 |})) I).
Defined.

End DashboardFacts.

(** * The onboarding form *)

Section OnboardingFacts.
Import Onboarding OnboardingInv.

Lemma step_cases (n : Z) : 1 <= n <= 5 -> n = 1 \/ n = 2 \/ n = 3 \/ n = 4 \/ n = 5.
Proof. lia. Qed.

Ltac step_compute :=
  repeat match goal with
  | |- context [eqb (of_Z ?a) (of_Z ?b)] =>
      let v := eval vm_compute in (eqb (of_Z a) (of_Z b)) in
      change (eqb (of_Z a) (of_Z b)) with v
  | |- context [ltb (of_Z ?a) totalSteps] =>
      let v := eval vm_compute in (ltb (of_Z a) totalSteps) in
      change (ltb (of_Z a) totalSteps) with v
  | |- context [ltb (of_Z 1) (of_Z ?a)] =>
      let v := eval vm_compute in (ltb (of_Z 1) (of_Z a)) in
      change (ltb (of_Z 1) (of_Z a)) with v
  end.

Ltac name_step :=
  match goal with
  | |- exists n', at_step_filled {| step := add (of_Z ?a) (of_Z 1); form := _ |} n' =>
      exists (a + 1)
  | |- exists n', at_step_filled {| step := sub (of_Z ?a) (of_Z 1); form := _ |} n' =>
      exists (a - 1)
  | |- exists n', at_step_filled {| step := of_Z ?a; form := _ |} n' => exists a
  end.

Ltac keep_field :=
  intros; first [ lia | assumption
                | match goal with H : _ -> ?g |- ?g => apply H; lia end ].

Lemma handle_keeps (st : state) (n : Z) (e : event) :
  at_step_filled st n -> exists n', at_step_filled (handle st e) n'.
Proof.
  intros (Hs & Hn & H1 & H2 & H3 & H4).
  destruct st as [s d]. cbn [step form] in *. subst s.
  unfold step1_ok, step2_ok, step3_ok, step4_ok in *.
  destruct (step_cases n Hn) as [->|[->|[->|[->| ->]]]]; destruct e;
    unfold handle, at_step, handleNext, handleBack, canProceed, updateData;
    cbn [step form]; step_compute; cbv iota; cbn [andb];
    try match goal with
        | |- context [if ?c then _ else _] => destruct c eqn:Ec
        end;
    name_step; unfold at_step_filled, step1_ok, step2_ok, step3_ok, step4_ok;
    cbn [step form name age gender current_weight height target_weight goal_type
         activity_level unit_system];
    (split; [vm_compute; reflexivity|]); (split; [lia|]);
    repeat split; keep_field.
Qed.

Lemma run_keeps (events : list event) (st : state) (n : Z) :
  at_step_filled st n -> exists n', at_step_filled (fold_left handle events st) n'.
Proof.
  revert st n. induction events as [|e l IH]; intros st n H; [eauto|].
  cbn [fold_left]. destruct (handle_keeps st n e H) as [n' H']. eauto.
Qed.

Lemma initial_filled : at_step_filled initial 1.
Proof. unfold at_step_filled. cbn. repeat split; intros; lia. Qed.

(** However the form is clicked through, the step stays between 1 and 5,
    and when "Get Started" is on the page every required field is filled
    in: [handleSubmit] never shows "Missing information", it submits a
    form whose name is not empty and whose age, weight, height and target
    weight are neither zero nor NaN. *)
Theorem onboarding_submits_complete_data (events : list event) :
  let st := run events in
  (exists n, 1 <= n <= 5 /\ step st = of_Z n) /\
  (canSubmit st = true ->
   exists d, handleSubmit st = Some d /\
     OnboardingData.name d <> EmptyString /\
     truthy (OnboardingData.age d) = true /\
     truthy (OnboardingData.current_weight d) = true /\
     truthy (OnboardingData.height d) = true /\
     truthy (OnboardingData.target_weight d) = true).
Proof.
  intros st. destruct (run_keeps events initial 1 initial_filled) as [n H].
  fold (run events) in H. fold st in H.
  destruct H as (Hs & Hn & H1 & H2 & H3 & H4).
  split; [exists n; split; assumption|].
  intros Hc. unfold canSubmit in Hc. rewrite Hs in Hc.
  assert (n = 5).
  { destruct (step_cases n Hn) as [->|[->|[->|[->| ->]]]];
      try reflexivity; vm_compute in Hc; discriminate. }
  subst n. specialize (H1 ltac:(lia)). specialize (H2 ltac:(lia)).
  specialize (H3 ltac:(lia)). specialize (H4 ltac:(lia)).
  unfold step1_ok, step2_ok, step3_ok, step4_ok, present, filled in *.
  unfold handleSubmit.
  destruct (name (form st)) as [nm|]; [|discriminate].
  destruct (age (form st)) as [a|]; [|now rewrite Bool.andb_false_r in H1].
  destruct (gender (form st)) as [ge|]; [|now rewrite Bool.andb_false_r in H1].
  destruct (current_weight (form st)) as [w|]; [|discriminate].
  destruct (height (form st)) as [h|]; [|now rewrite Bool.andb_false_r in H2].
  destruct (target_weight (form st)) as [tw|]; [|discriminate].
  destruct (goal_type (form st)) as [go|]; [|now rewrite Bool.andb_false_r in H3].
  destruct (activity_level (form st)) as [al|]; [|discriminate].
  rewrite !Bool.andb_true_iff in *.
  destruct H1 as [[N A] _]. destruct H2 as [W Hh]. destruct H3 as [T _].
  rewrite N, A, W, Hh, T. cbn [andb].
  eexists. split; [reflexivity|].
  cbn [OnboardingData.name OnboardingData.age OnboardingData.current_weight
       OnboardingData.height OnboardingData.target_weight].
  repeat split; try assumption.
  intros ->. discriminate N.
Qed.

Lemma onboarding_submits_complete_data_witness :
  exists d,
    handleSubmit (run [ChangeName "Sam"; ChangeAge (of_Z 30); ClickNext;
                       ChangeWeight (of_Z 70); ChangeHeight (of_Z 175); ClickNext;
                       ChangeTargetWeight (of_Z 65); ChangeGoal lose; ClickNext;
                       ChangeActivity lightly_active; ClickNext]) = Some d /\
    OnboardingData.name d <> EmptyString /\
    truthy (OnboardingData.age d) = true /\
    truthy (OnboardingData.current_weight d) = true /\
    truthy (OnboardingData.height d) = true /\
    truthy (OnboardingData.target_weight d) = true.
Proof.
  apply (proj2 (onboarding_submits_complete_data
                  [ChangeName "Sam"; ChangeAge (of_Z 30); ClickNext;
                   ChangeWeight (of_Z 70); ChangeHeight (of_Z 175); ClickNext;
                   ChangeTargetWeight (of_Z 65); ChangeGoal lose; ClickNext;
                   ChangeActivity lightly_active; ClickNext])).
  vm_compute. reflexivity.
Defined.

End OnboardingFacts.

(** * The route guard *)

Section ProtectedRouteFacts.
Local Open Scope string_scope.

(** The route guard shows its page only to a signed-in user once loading
    is over; it sends a visitor who is not signed in to "/auth"; and it
    never loops: where it redirects to "/onboarding" or "/dashboard", the
    guard of that page, with the same user and profile, shows the page. *)
Theorem protected_route_never_loops
    (requireOnboarding : bool) (user : option string) (authLoading profileLoading : bool)
    (profile : option Profile.t) (pathname : string) :
  let guard := ProtectedRoute requireOnboarding user authLoading profileLoading profile in
  (guard pathname = Children ->
   authLoading = false /\ profileLoading = false /\ exists u, user = Some u) /\
  (authLoading = false -> user = None -> guard pathname = Navigate "/auth") /\
  (forall to, guard pathname = Navigate to ->
     to = "/auth" \/
     ((to = "/onboarding" \/ to = "/dashboard") /\ guard to = Children)).
Proof.
  intros guard. subst guard. unfold ProtectedRoute, Onboarding.filled.
  split; [|split].
  - destruct authLoading; [discriminate|].
    destruct user as [u|]; cbn [orb andb negb]; [|discriminate].
    destruct profileLoading; [discriminate|].
    intros _. repeat split. eauto.
  - intros -> ->. reflexivity.
  - intros to. destruct authLoading; [discriminate|].
    destruct user as [u|]; cbn [orb andb negb].
    2:{ intros H. injection H as <-. now left. }
    destruct profileLoading; [discriminate|].
    destruct profile as [p|].
    + destruct (Profile.onboarding_completed p) eqn:Ec; cbn [negb andb].
      * rewrite Bool.andb_false_r. cbn [andb].
        rewrite Bool.andb_true_r.
        destruct (pathname =? "/onboarding") eqn:Ep; [|discriminate].
        intros H. injection H as <-. right. split; [now right|].
        reflexivity.
      * rewrite !Bool.andb_false_r, Bool.andb_true_r.
        destruct requireOnboarding; cbn [andb]; [|discriminate].
        destruct (pathname =? "/onboarding") eqn:Ep; cbn [negb]; [discriminate|].
        intros H. injection H as <-. right. split; [now left|].
        reflexivity.
    + rewrite !Bool.andb_false_r. discriminate.
Qed.

Lemma protected_route_never_loops_witness :
  ProtectedRoute true None false false None "/dashboard" = Navigate "/auth".
Proof.
  apply (protected_route_never_loops true None false false None "/dashboard");
    reflexivity.
Defined.

End ProtectedRouteFacts.

(** * Targets by goal and by weight *)

Section GoalOrderFacts.

Lemma mul_comm (x y : number) : mul x y = mul y x.
Proof.
  destruct x as [a|a| |a m e], y as [b|b| |b n f]; cbn; try reflexivity;
    try (now rewrite Bool.xorb_comm).
  unfold mul, SFmul. now rewrite Bool.xorb_comm, Pos.mul_comm, Z.add_comm.
Qed.

Lemma leb_ival_pos (x y : number) :
  pos_normal x -> pos_normal y -> leb x y = true -> ival x <= ival y.
Proof.
  intros Hx Hy H. unfold leb, SFleb in H. rewrite (compare_pos_normal x y Hx Hy) in H.
  destruct (Z.compare_spec (ival x) (ival y)); try discriminate; lia.
Qed.

Lemma ltb_of_ival (x y : number) :
  nonneg_normal x -> nonneg_normal y -> ival x < ival y -> ltb x y = true.
Proof.
  intros Hx Hy H. unfold ltb, SFltb. rewrite (compare_nonneg_normal x y Hx Hy).
  destruct (Z.compare_spec (ival x) (ival y)); try reflexivity; lia.
Qed.

(** The goal orders the calorie target: for a positive normal TDEE the
    target for [lose] is at most the one for [maintain], which is at most
    the one for [gain]; from a TDEE of 16 on the three differ.  Below that
    they can coincide: for a TDEE of 1 all three are 1. *)
Theorem goal_orders_calorie_target (tdee : number) :
  (in_normal_range tdee = true ->
   leb (calculateCalorieTarget tdee lose) (calculateCalorieTarget tdee maintain) = true /\
   leb (calculateCalorieTarget tdee maintain) (calculateCalorieTarget tdee gain) = true /\
   (leb (of_Z 16) tdee = true ->
    ltb (calculateCalorieTarget tdee lose) (calculateCalorieTarget tdee maintain) = true /\
    ltb (calculateCalorieTarget tdee maintain) (calculateCalorieTarget tdee gain) = true)) /\
  calculateCalorieTarget (of_Z 1) lose = of_Z 1 /\
  calculateCalorieTarget (of_Z 1) maintain = of_Z 1 /\
  calculateCalorieTarget (of_Z 1) gain = of_Z 1.
Proof.
  split; [|repeat split; vm_compute; reflexivity].
  intros Hr.
  destruct (in_normal_range_spec tdee Hr) as [Hn He].
  destruct calorie_factor_normal as (L1 & L2 & G1 & G2).
  change (dec 80 (-2)) with (S754_finite false 7205759403792794 (-53)) in *.
  change (dec 110 (-2)) with (S754_finite false 4953959590107546 (-52)) in *.
  unfold calculateCalorieTarget.
  change (dec 80 (-2)) with (S754_finite false 7205759403792794 (-53)).
  change (dec 110 (-2)) with (S754_finite false 4953959590107546 (-52)).
  assert (N16 : pos_normal (of_Z 16)) by (cbn; lia).
  assert (H16 : leb (of_Z 16) tdee = true -> 2 ^ 52 * 2 ^ 1026 <= ival tdee).
  { intros H. apply (leb_ival_pos _ _ N16 Hn) in H. exact H. }
  destruct tdee as [| | |[] mx ex]; cbn [pos_normal] in Hn; try tauto.
  cbn [exponent_of] in He.
  destruct (mul_pos_normal mx 7205759403792794 ex (-53) Hn L1 ltac:(lia) ltac:(lia))
    as (Pl & _ & _).
  destruct (mul_pos_normal mx 4953959590107546 ex (-52) Hn G1 ltac:(lia) ltac:(lia))
    as (Pg & _ & _).
  pose proof (mul_rel mx 7205759403792794 ex (-53) Hn L1 ltac:(lia) ltac:(lia) ltac:(lia))
    as Rl.
  pose proof (mul_rel mx 4953959590107546 ex (-52) Hn G1 ltac:(lia) ltac:(lia) ltac:(lia))
    as Rg.
  cbv zeta in Rl, Rg.
  change (2 ^ (- -53)) with (2 ^ 53) in Rl. change (2 ^ (- -52)) with (2 ^ 52) in Rg.
  pose proof (ival_pos (S754_finite false mx ex) Hn) as Vpos.
  set (t := S754_finite false mx ex) in *.
  set (V := ival t) in *.
  set (Wl := ival (mul t (S754_finite false 7205759403792794 (-53)))) in *.
  set (Wg := ival (mul t (S754_finite false 4953959590107546 (-52)))) in *.
  assert (Hl : Wl <= V) by (clearbody V Wl Wg; lia).
  assert (Hg : V <= Wg) by (clearbody V Wl Wg; lia).
  split; [apply Math_round_mono; assumption|].
  split; [apply Math_round_mono; assumption|].
  intros H. specialize (H16 H). fold V in H16.
  split; apply Math_round_strict; try assumption.
  - fold Wl V. clearbody V Wl Wg. lia.
  - fold Wg V. clearbody V Wl Wg. lia.
Qed.

Lemma goal_orders_calorie_target_witness :
  ltb (calculateCalorieTarget (dec 25555625 (-4)) lose)
      (calculateCalorieTarget (dec 25555625 (-4)) maintain) = true /\
  ltb (calculateCalorieTarget (dec 25555625 (-4)) maintain)
      (calculateCalorieTarget (dec 25555625 (-4)) gain) = true.
Proof.
  destruct (proj1 (goal_orders_calorie_target (dec 25555625 (-4)))) as (_ & _ & H).
  - reflexivity.
  - apply H. reflexivity.
Defined.

Lemma protein_factor_normal (goal : GoalType) :
  exists m e,
    (match goal with lose => dec 20 (-1) | gain => dec 18 (-1) | maintain => dec 16 (-1) end)
    = S754_finite false m e /\ pos_normal (S754_finite false m e) /\ -52 <= e <= -51.
Proof.
  destruct goal;
    [exists 4503599627370496%positive, (-51)
    |exists 7205759403792794%positive, (-52)
    |exists 8106479329266893%positive, (-52)];
    (split; [vm_compute; reflexivity|]); (split; [cbn; lia | lia]).
Qed.

Lemma factor_16 : dec 16 (-1) = S754_finite false 7205759403792794 (-52).
Proof. vm_compute. reflexivity. Qed.

Lemma factor_18 : dec 18 (-1) = S754_finite false 8106479329266893 (-52).
Proof. vm_compute. reflexivity. Qed.

Lemma factor_20 : dec 20 (-1) = S754_finite false 4503599627370496 (-51).
Proof. vm_compute. reflexivity. Qed.

Lemma protein_factor_order :
  pos_normal (S754_finite false 7205759403792794 (-52)) /\
  pos_normal (S754_finite false 8106479329266893 (-52)) /\
  pos_normal (S754_finite false 4503599627370496 (-51)) /\
  ival (S754_finite false 7205759403792794 (-52))
    <= ival (S754_finite false 8106479329266893 (-52)) /\
  ival (S754_finite false 8106479329266893 (-52))
    <= ival (S754_finite false 4503599627370496 (-51)).
Proof.
  cbn [pos_normal ival cond_Zopp].
  replace (-51 + 1074) with (1 + (-52 + 1074)) by lia.
  rewrite (Z.pow_add_r 2 1 (-52 + 1074)) by lia.
  assert (0 < 2 ^ (-52 + 1074)) by (apply Z.pow_pos_nonneg; lia).
  change (2 ^ 1) with 2.
  repeat split; try lia; nia.
Qed.

Lemma protein_of_weight (ct : number) (goal : GoalType) (w : number) :
  pos_normal w ->
  protein (calculateMacroTargets ct goal (Some w))
  = Math_round (mul w (match goal with
                       | lose => dec 20 (-1) | gain => dec 18 (-1) | maintain => dec 16 (-1)
                       end)).
Proof.
  intros Hw. unfold calculateMacroTargets, or_else.
  destruct w as [| | |[] m e]; cbn [pos_normal] in Hw; try tauto.
  cbn [truthy]. destruct goal; reflexivity.
Qed.

(** The protein target follows the body weight and the goal, never the
    calorie target: it does not decrease when the weight grows, and at one
    weight it is lowest for [maintain] (1.6 g/kg), then [gain] (1.8 g/kg),
    and highest for [lose] (2.0 g/kg); for positive normal weights between
    [2^-948] and [2^953]. *)
Theorem protein_target_order (ct ct' : number) (goal : GoalType) (w w' : number) :
  in_normal_range w = true -> in_normal_range w' = true -> leb w w' = true ->
  leb (protein (calculateMacroTargets ct goal (Some w)))
      (protein (calculateMacroTargets ct' goal (Some w'))) = true /\
  leb (protein (calculateMacroTargets ct maintain (Some w)))
      (protein (calculateMacroTargets ct' gain (Some w))) = true /\
  leb (protein (calculateMacroTargets ct gain (Some w)))
      (protein (calculateMacroTargets ct' lose (Some w))) = true.
Proof.
  intros Hr Hr' Hle.
  destruct (in_normal_range_spec w Hr) as [Hn He].
  destruct (in_normal_range_spec w' Hr') as [Hn' He'].
  rewrite !protein_of_weight by assumption.
  pose proof (leb_ival_pos w w' Hn Hn' Hle) as Hv.
  split; [|split].
  - destruct (protein_factor_normal goal) as (m & e & -> & Ng & Hg).
    destruct (mul_mono_l w w' (S754_finite false m e) Hn Hn' Ng) as (P1 & P2 & Hm);
      cbn [exponent_of]; try lia.
    now apply Math_round_mono.
  - destruct protein_factor_order as (N16 & N18 & N20 & O1 & O2).
    cbv iota. rewrite factor_16, factor_18.
    rewrite (mul_comm w (S754_finite false 7205759403792794 (-52))),
            (mul_comm w (S754_finite false 8106479329266893 (-52))).
    destruct (mul_mono_l _ _ w N16 N18 Hn) as (P1 & P2 & Hm);
      cbn [exponent_of]; try lia.
    apply Math_round_mono; assumption.
  - destruct protein_factor_order as (N16 & N18 & N20 & O1 & O2).
    cbv iota. rewrite factor_18, factor_20.
    rewrite (mul_comm w (S754_finite false 8106479329266893 (-52))),
            (mul_comm w (S754_finite false 4503599627370496 (-51))).
    destruct (mul_mono_l _ _ w N18 N20 Hn) as (P1 & P2 & Hm);
      cbn [exponent_of]; try lia.
    apply Math_round_mono; assumption.
Qed.

Lemma protein_target_order_witness :
  leb (protein (calculateMacroTargets (of_Z 2044) lose (Some (of_Z 70))))
      (protein (calculateMacroTargets (of_Z 1800) lose (Some (of_Z 82)))) = true.
Proof.
  apply (protein_target_order (of_Z 2044) (of_Z 1800) lose (of_Z 70) (of_Z 82));
    reflexivity.
Defined.

End GoalOrderFacts.

(** * Rounded results *)

Section RoundedNutritionFacts.

Lemma small_nonneg_spec (x : number) :
  small_nonneg x = true -> magnitude_below 13 x = true /\ sign_is false x.
Proof.
  unfold small_nonneg. rewrite Bool.andb_true_iff. intros [H1 H2]. split; [assumption|].
  destruct x as [s|s| |s m e]; try discriminate; cbn; now destruct s.
Qed.

Lemma decimals_of_round (x : number) (k d : Z) :
  magnitude_below k x = true -> 0 <= k <= 52 -> sign_is false x -> 1 <= d <= 2 ->
  exists n, 0 <= n /\ div (Math_round x) (of_Z (10 ^ d)) = dec n (- d).
Proof.
  intros Hm Hk Hs Hd.
  destruct (Math_round_is_int x k Hm Hk) as (n & Hn & Hi).
  assert (Hb : Z.abs n < 2 ^ 53).
  { assert (2 ^ k <= 2 ^ 52) by (apply Z.pow_le_mono_r; lia).
    change (2 ^ 52) with 4503599627370496 in *.
    change (2 ^ 53) with 9007199254740992. lia. }
  destruct (is_int_nonneg (Math_round x) n Hi (Math_round_sign x Hs) Hb) as [H0 He].
  exists n. split; [assumption|]. rewrite He. unfold dec.
  destruct (Z.leb_spec 0 (- d)); [lia|]. now rewrite Z.opp_involutive.
Qed.

Lemma roundToDecimal_decimals (x : number) (k d : Z) :
  magnitude_below k x = true -> 0 <= k <= 44 -> sign_is false x -> 1 <= d <= 2 ->
  exists n, 0 <= n /\ roundToDecimal x d = dec n (- d).
Proof.
  intros Hm Hk Hs Hd. unfold roundToDecimal.
  apply (decimals_of_round _ (k + 8)); try lia.
  - apply (mul_magnitude k 7); [assumption| |lia|lia].
    assert (d = 1 \/ d = 2) as [-> | ->] by lia; reflexivity.
  - apply mul_pos_sign; [assumption|].
    assert (d = 1 \/ d = 2) as [-> | ->] by lia; reflexivity.
Qed.

Lemma serving_divisor (sg : number) :
  usable_serving sg = true ->
  exists m e, or_else sg (of_Z 100) = S754_finite false m e /\
              2 ^ 52 <= Zpos m < 2 ^ 53 /\ -52 <= e.
Proof.
  unfold usable_serving, or_else. destruct (truthy sg) eqn:Et; cbn [negb orb].
  - rewrite Bool.andb_true_iff. intros [Hr H1].
    destruct (in_normal_range_spec sg Hr) as [Hn He].
    assert (N1 : pos_normal (of_Z 1)) by (cbn; lia).
    pose proof (leb_ival_pos _ _ N1 Hn H1) as Hv.
    destruct sg as [| | |[] m e]; cbn [pos_normal] in Hn; try tauto.
    exists m, e. split; [reflexivity|]. split; [tauto|].
    change (ival (of_Z 1)) with (2 ^ 52 * 2 ^ 1022) in Hv.
    cbn [ival cond_Zopp] in Hv.
    destruct (Z_le_gt_dec (-52) e); [assumption|]. exfalso.
    assert (2 ^ (e + 1074) <= 2 ^ 1021) by (apply Z.pow_le_mono_r; lia).
    assert (0 < 2 ^ (e + 1074)) by (apply Z.pow_pos_nonneg; lia).
    change (2 ^ 1022) with (2 * 2 ^ 1021) in Hv.
    assert (0 < 2 ^ 1021) by reflexivity.
    destruct Hn as [[_ Hm] _]. change (2 ^ 53) with (2 * 2 ^ 52) in Hm. nia.
  - intros _. exists 7036874417766400%positive, (-46).
    split; [reflexivity|]. split; lia.
Qed.

(** What the calculator returns is rounded for display and storage: for
    values that are not negative and below [2^13], and a serving size that
    is missing or at least 1, the calories are a whole number, protein,
    carbs and fat have one decimal, and in the breakdown the per-100 values
    have one decimal and the multiplier two. *)
Theorem nutrition_is_rounded (food : Food) (quantity : number) (unit : QuantityUnit) :
  small_nonneg (calories_per_serving food) = true ->
  small_nonneg (protein_grams food) = true ->
  small_nonneg (carbs_grams food) = true ->
  small_nonneg (fat_grams food) = true ->
  small_nonneg quantity = true ->
  usable_serving (serving_grams food) = true ->
  let r := calculateNutrition food quantity unit in
  let b := getCalculationBreakdown food quantity unit in
  (exists n, 0 <= n /\ r_calories r = of_Z n) /\
  (exists n, 0 <= n /\ r_protein r = dec n (-1)) /\
  (exists n, 0 <= n /\ r_carbs r = dec n (-1)) /\
  (exists n, 0 <= n /\ r_fat r = dec n (-1)) /\
  (exists n, 0 <= n /\ n_calories (perBaseNutrition b) = dec n (-1)) /\
  (exists n, 0 <= n /\ n_protein (perBaseNutrition b) = dec n (-1)) /\
  (exists n, 0 <= n /\ n_carbs (perBaseNutrition b) = dec n (-1)) /\
  (exists n, 0 <= n /\ n_fat (perBaseNutrition b) = dec n (-1)) /\
  (exists n, 0 <= n /\ multiplier b = dec n (-2)).
Proof.
  intros Hc Hp Hb Hf Hq Hs r b.
  apply small_nonneg_spec in Hc, Hp, Hb, Hf, Hq.
  destruct Hc as [Mc Sc], Hp as [Mp Sp], Hb as [Mb Sb], Hf as [Mf Sf], Hq as [Mq Sq].
  destruct (serving_divisor _ Hs) as (m & e & Esg & Hm & He).
  assert (Ssg : sign_is false (S754_finite false m e)) by reflexivity.
  set (mult := match unit with
               | g | ml => div quantity (or_else (serving_grams food) (of_Z 100))
               | serving => quantity
               end).
  assert (Mm : magnitude_below 14 mult = true /\ sign_is false mult).
  { subst mult. destruct unit; rewrite ?Esg; split;
      try (apply (div_magnitude 13); [assumption|assumption|lia|lia]);
      try (apply div_pos_sign; assumption);
      try assumption;
      apply (magnitude_below_weaken 13); [lia|assumption]. }
  destruct Mm as [Mm Sm].
  assert (Raw : forall x, magnitude_below 13 x = true -> sign_is false x ->
            magnitude_below 28 (mul x mult) = true /\ sign_is false (mul x mult)).
  { intros x Mx Sx. split; [apply (mul_magnitude 13 14); (assumption || lia)|].
    now apply mul_pos_sign. }
  assert (Per : forall x, magnitude_below 13 x = true -> sign_is false x ->
            magnitude_below 22 (mul (div x (or_else (serving_grams food) (of_Z 100)))
                                    (of_Z 100)) = true
            /\ sign_is false (mul (div x (or_else (serving_grams food) (of_Z 100)))
                                  (of_Z 100))).
  { intros x Mx Sx. rewrite Esg. split.
    - apply (mul_magnitude 14 7); [|reflexivity|lia|lia].
      apply (div_magnitude 13); [assumption|assumption|lia|lia].
    - apply mul_pos_sign; [|reflexivity]. now apply div_pos_sign. }
  assert (Ecal : r_calories r = Math_round (mul (calories_per_serving food) mult))
    by (subst r mult; unfold calculateNutrition; destruct unit; reflexivity).
  assert (Epro : r_protein r = roundToDecimal (mul (protein_grams food) mult) 1)
    by (subst r mult; unfold calculateNutrition; destruct unit; reflexivity).
  assert (Ecar : r_carbs r = roundToDecimal (mul (carbs_grams food) mult) 1)
    by (subst r mult; unfold calculateNutrition; destruct unit; reflexivity).
  assert (Efat : r_fat r = roundToDecimal (mul (fat_grams food) mult) 1)
    by (subst r mult; unfold calculateNutrition; destruct unit; reflexivity).
  assert (Emul : multiplier b = roundToDecimal mult 2)
    by (subst b mult; unfold getCalculationBreakdown; destruct unit; reflexivity).
  rewrite Ecal, Epro, Ecar, Efat, Emul.
  subst b. unfold getCalculationBreakdown.
  cbn [perBaseNutrition n_calories n_protein n_carbs n_fat].
  destruct (Raw _ Mc Sc) as [R1 R2]. destruct (Raw _ Mp Sp) as [R3 R4].
  destruct (Raw _ Mb Sb) as [R5 R6]. destruct (Raw _ Mf Sf) as [R7 R8].
  destruct (Per _ Mc Sc) as [P1 P2]. destruct (Per _ Mp Sp) as [P3 P4].
  destruct (Per _ Mb Sb) as [P5 P6]. destruct (Per _ Mf Sf) as [P7 P8].
  split.
  { destruct (Math_round_is_int _ 28 R1 ltac:(lia)) as (n & Hn & Hi).
    assert (Hb53 : Z.abs n < 2 ^ 53).
    { change (2 ^ 28) with 268435456 in Hn.
      change (2 ^ 53) with 9007199254740992. lia. }
    destruct (is_int_nonneg _ n Hi (Math_round_sign _ R2) Hb53) as [H0 E0].
    exists n. split; assumption. }
  repeat split;
    try (apply (roundToDecimal_decimals _ 28 1); (assumption || lia));
    try (apply (roundToDecimal_decimals _ 22 1); (assumption || lia)).
  apply (roundToDecimal_decimals _ 14 2); (assumption || lia).
Qed.

Lemma nutrition_is_rounded_witness :
  exists n, 0 <= n /\
    r_protein (calculateNutrition (sample_food grains (of_Z 300) (of_Z 150)) (of_Z 75) g)
    = dec n (-1).
Proof.
  apply (nutrition_is_rounded (sample_food grains (of_Z 300) (of_Z 150)) (of_Z 75) g);
    vm_compute; reflexivity.
Defined.

End RoundedNutritionFacts.

(** * The weight tracker *)

Section WeightTrackerFacts.

Lemma Math_abs_sign (x : number) : sign_is false (Math_abs x).
Proof. destruct x; cbn; auto. Qed.

Lemma Math_min_100 (r : number) :
  sign_is false r -> is_nan (Math_min (of_Z 100) r) = false ->
  leb (of_Z 0) (Math_min (of_Z 100) r) = true /\
  leb (Math_min (of_Z 100) r) (of_Z 100) = true.
Proof.
  intros Hs Hn. unfold Math_min in *.
  change (of_Z 100) with (S754_finite false 7036874417766400 (-46)) in *.
  destruct (SFcompare (S754_finite false 7036874417766400 (-46)) r) as [[| |]|] eqn:Ec;
    try discriminate; try (split; reflexivity).
  assert (Hr : is_nan r = false) by exact Hn.
  split; [now apply sign_plus_ge_0|].
  unfold leb, SFleb. rewrite SFcompare_antisym, Ec. reflexivity.
Qed.

(** The progress towards the goal weight: without weight rows nothing is
    shown; a number that is shown and is not NaN lies between 0 and 100.
    The distance from the start counts in either direction: starting at
    80 kg with a goal of 70 kg, a latest weight of 90 kg shows 100.  And
    with a single row whose weight is the goal weight itself, the page
    divides zero by zero and shows NaN. *)
Theorem weight_progress_shown (profile : option Profile.t) (data : option (list WeightLog.t)) :
  (weightLogs data = [] -> progressShown profile data = None) /\
  (forall p, progressShown profile data = Some p -> is_nan p = false ->
     leb (of_Z 0) p = true /\ leb p (of_Z 100) = true) /\
  progressShown (Some (row_with_target (Some (of_Z 70))))
                (Some [weight_row (of_Z 80); weight_row (of_Z 90)]) = Some (of_Z 100) /\
  (forall w, is_finite w = true -> truthy w = true ->
     progressShown (Some (row_with_target (Some w))) (Some [weight_row w]) = Some S754_nan).
Proof.
  split; [|split; [|split]].
  - intros He. unfold progressShown, progressToGoal, startWeight, latestWeight.
    rewrite He. destruct data as [[|x l]|]; try discriminate;
      destruct (match profile with Some p => Profile.target_weight p | None => None end);
      reflexivity.
  - intros p Hp Hn. unfold progressShown in Hp.
    destruct (progressToGoal profile data) as [q|] eqn:Eq; [|discriminate].
    injection Hp as <-. apply Math_min_100; [|assumption].
    apply Math_round_sign.
    unfold progressToGoal in Eq.
    destruct (match profile with Some p => Profile.target_weight p | None => None end)
      as [t|]; [|discriminate].
    destruct (startWeight data) as [s|]; [|discriminate].
    destruct (latestWeight data) as [l|]; [|discriminate].
    destruct (truthy t && truthy s && truthy l); [|discriminate].
    injection Eq as <-.
    apply mul_pos_sign; [|reflexivity].
    apply div_pos_sign; apply Math_abs_sign.
  - vm_compute. reflexivity.
  - intros w Hf Ht. unfold progressShown, progressToGoal, startWeight, latestWeight.
    cbn [row_with_target Profile.target_weight weightLogs weight_row WeightLog.weight last].
    rewrite Ht. cbn [andb]. rewrite (sub_self w Hf). reflexivity.
Qed.

Lemma weight_progress_shown_witness :
  progressShown (Some (row_with_target (Some (of_Z 70)))) (Some [weight_row (of_Z 70)])
  = Some S754_nan.
Proof.
  destruct (weight_progress_shown None None) as (_ & _ & _ & H).
  apply (H (of_Z 70)); reflexivity.
Defined.

End WeightTrackerFacts.
